(** * Ninja Go Local Cloud: path confinement and directory listing

    A shallow embedding of [src/src/ninjacloud.go]: the path guard
    ([osPath], [isInRoot]), the recursive directory listing ([listDir]),
    the conditional-GET helper ([modifiedSince]), the GET arms of the
    file and directory handlers, and, as programs over the calls they
    make, the functions that write, remove, move and copy files and
    directories with the POST, PUT and DELETE arms that use them.

    Go strings are byte sequences; they are modelled by [string] (a list
    of 8-bit [ascii]).  Go's [int64] is modelled by [Z] with the
    wrap-around written out where the program can overflow.  The file
    system is read through two oracles, [os.Stat] and [ioutil.ReadDir],
    variables of the section that holds the program: the program never
    learns more about the file system than their answers. *)

From Stdlib Require Import String Ascii List ZArith Bool Lia.
From Stdlib Require Decimal DecimalFacts DecimalPos.
From Stdlib Require Import DecimalString.
Import ListNotations.
Local Open Scope string_scope.
Local Open Scope Z_scope.

(** ** Results of a Go call that may panic or that the model cuts short *)

Inductive result (A : Type) : Type :=
| Returned (a : A)
| Panicked
| OutOfFuel.
Arguments Returned {A} a.
Arguments Panicked {A}.
Arguments OutOfFuel {A}.

(** ** Package [strings] *)

Module strings.

(** [strings.HasPrefix(s, prefix)]. *)
Definition HasPrefix (s prefix : string) : bool := String.prefix prefix s.

(** [strings.Split(s, sep)] for a one-byte separator: the pieces of [s]
    between the occurrences of [sep]; a string without [sep] (the empty
    string included) gives a single piece. *)
Fixpoint Split (s : string) (sep : ascii) : list string :=
  match s with
  | EmptyString => [EmptyString]
  | String c s' =>
      if Ascii.eqb c sep then EmptyString :: Split s' sep
      else match Split s' sep with
           | piece :: pieces => String c piece :: pieces
           | [] => [String c EmptyString]
           end
  end.

(** [strings.Join(a, sep)]. *)
Fixpoint Join (a : list string) (sep : string) : string :=
  match a with
  | [] => EmptyString
  | [x] => x
  | x :: rest => x ++ sep ++ Join rest sep
  end.

End strings.

(** ** Package [strconv] *)

Module strconv.

Definition minInt64 : Z := - 2 ^ 63.
Definition maxInt64 : Z := 2 ^ 63 - 1.

(** Two's-complement wrap-around of a mathematical integer to [int64]. *)
Definition wrap64 (z : Z) : Z := (z + 2 ^ 63) mod 2 ^ 64 - 2 ^ 63.

Inductive NumError : Type := ErrSyntax | ErrRange.

Definition digit (c : ascii) : option Z :=
  let n := Z.of_nat (nat_of_ascii c) in
  if (48 <=? n) && (n <=? 57) then Some (n - 48) else None.

(** [cutoff64(10)]: the least [n] for which [n * 10] does not fit a
    [uint64]. *)
Definition cutoff64 : Z := (2 ^ 64 - 1) / 10 + 1.

Definition maxUint64 : Z := 2 ^ 64 - 1.

(** The loop of [strconv.ParseUint(s, 10, 64)] over the bytes that
    remain, with [n] the value read so far.  A byte that is no decimal
    digit ends the loop with 0 and a syntax error.  A digit that makes
    the value overflow ends it at once with the largest [uint64] and a
    range error: the bytes after it are not looked at.  The sum
    [n + v] is a [uint64] sum; [n1 < n] tells that it wrapped around. *)
Fixpoint parseUintLoop (s : string) (n : Z) : Z * option NumError :=
  match s with
  | EmptyString => (n, None)
  | String c s' =>
      match digit c with
      | None => (0, Some ErrSyntax)
      | Some v =>
          if cutoff64 <=? n then (maxUint64, Some ErrRange)
          else
            let n := n * 10 in
            let n1 := (n + v) mod 2 ^ 64 in
            if (n1 <? n) || (maxUint64 <? n1) then (maxUint64, Some ErrRange)
            else parseUintLoop s' n1
      end
  end.

(** [strconv.ParseUint(s, 10, 64)] *)
Definition ParseUint (s : string) : Z * option NumError :=
  match s with
  | EmptyString => (0, Some ErrSyntax)
  | _ => parseUintLoop s 0
  end.

(** [strconv.ParseInt(s, 10, 64)]: an optional sign followed by what
    [ParseUint] reads.  An error of [ParseUint] other than the range
    error gives 0 with that error; a value outside [int64] gives the
    nearest bound together with a range error. *)
Definition ParseInt (s : string) : Z * option NumError :=
  match s with
  | EmptyString => (0, Some ErrSyntax)
  | String c s' =>
      let neg := Ascii.eqb c "-" in
      let body := if Ascii.eqb c "+" || neg then s' else s in
      let '(un, err) := ParseUint body in
      match err with
      | Some ErrSyntax => (0, Some ErrSyntax)
      | _ =>
          if negb neg && (2 ^ 63 <=? un) then (maxInt64, Some ErrRange)
          else if neg && (2 ^ 63 <? un) then (minInt64, Some ErrRange)
          else (if neg then - un else un, None)
      end
  end.

(** [strconv.FormatInt(i, 10)]. *)
Definition FormatInt (i : Z) : string := NilZero.string_of_int (Z.to_int i).

End strconv.

(** ** Package [path/filepath], Unix implementation

    The separator is ['/'] and there are no volume names.  The Windows
    build of the package (volume names, both separators, prefix test
    without regard to case) is not modelled: of the program, only the
    Windows branch of [osPath] is. *)

Module filepath.

Definition Separator : ascii := "/"%char.

(** [filepath.HasPrefix]: on Unix it is [strings.HasPrefix]; it does
    not look at path-element boundaries. *)
Definition HasPrefix (p prefix : string) : bool := strings.HasPrefix p prefix.

(** The element loop of [filepath.Clean].  [out] holds the elements
    written so far, last one first.  An empty element and ["."] are
    dropped; [".."] removes the element before it, unless there is none
    left to remove: then a rooted path drops it and an unrooted path
    keeps it as part of a leading run of [".."]. *)
Fixpoint cleanElems (rooted : bool) (elems out : list string) : list string :=
  match elems with
  | [] => rev out
  | e :: rest =>
      if (e =? "")%string || (e =? ".")%string then cleanElems rooted rest out
      else if (e =? "..")%string then
        match out with
        | top :: out' =>
            if (top =? "..")%string then cleanElems rooted rest (e :: out)
            else cleanElems rooted rest out'
        | [] =>
            if rooted then cleanElems rooted rest []
            else cleanElems rooted rest [e]
        end
      else cleanElems rooted rest (e :: out)
  end.

(** [filepath.Clean(path)]: the shortest path name equivalent to [path]
    by purely lexical processing. *)
Definition Clean (path : string) : string :=
  match path with
  | EmptyString => "."
  | String c _ =>
      let rooted := Ascii.eqb c Separator in
      let body := strings.Join (cleanElems rooted (strings.Split path Separator) []) "/" in
      if rooted then "/" ++ body
      else if (body =? "")%string then "." else body
  end.

(** The backward scan of [filepath.Ext]: [rpath] is the part of the
    path not yet visited, last byte first; [seen] is the part already
    passed over. *)
Fixpoint extScan (rpath seen : list ascii) : string :=
  match rpath with
  | [] => ""
  | c :: rest =>
      if Ascii.eqb c Separator then ""
      else if Ascii.eqb c "." then string_of_list_ascii (c :: seen)
      else extScan rest (c :: seen)
  end.

(** [filepath.Ext(path)]: the suffix beginning at the final dot of the
    final element of [path]; empty if there is no dot. *)
Definition Ext (path : string) : string :=
  extScan (rev (list_ascii_of_string path)) [].

End filepath.

(** ** Package [os] as the program uses it *)

Module os.

Definition Errno : Type := Z.
Definition ENOENT : Errno := 2.
Definition EACCES : Errno := 13.
Definition ENOTDIR : Errno := 20.

(** [*os.PathError]: what a failed system call on a path returns. *)
Record PathError : Type := mkPathError { Op : string; Path : string; Err : Errno }.

(** The values of Go's [error] interface that the program meets: the
    package-level variables [os.ErrInvalid], [os.ErrPermission],
    [os.ErrExist], [os.ErrNotExist] and path errors.  A [nil] error is
    [None] of [option error].  The four variables are distinct values,
    and a path error is never equal ([==]) to any of them. *)
Inductive error : Type :=
| ErrInvalid
| ErrPermission
| ErrExist
| ErrNotExist
| EPath (e : PathError).

(** [os.IsNotExist(err)]: looks through a path error at its cause. *)
Definition IsNotExist (err : option error) : bool :=
  match err with
  | None => false
  | Some ErrNotExist => true
  | Some (EPath e) => Err e =? ENOENT
  | Some _ => false
  end.

(** [os.FileInfo], with the methods the program calls.  [ModTime] holds
    [ModTime().UnixNano()], nanoseconds since the epoch as an [int64]. *)
Record FileInfo : Type := mkFileInfo {
  Name : string;
  Size : Z;
  ModTime : Z;
  IsDir : bool
}.

End os.

(** ** Go string slicing

    [s[:n]] and [s[n:]] panic when [n] is outside [0 .. len(s)]; [None]
    stands for the panic. *)

Definition sliceTo (s : string) (n : Z) : option string :=
  if (n <? 0) || (Z.of_nat (String.length s) <? n) then None
  else Some (substring 0 (Z.to_nat n) s).

Definition sliceFrom (s : string) (n : Z) : option string :=
  if (n <? 0) || (Z.of_nat (String.length s) <? n) then None
  else Some (substring (Z.to_nat n) (String.length s - Z.to_nat n) s).

Definition len (s : string) : Z := Z.of_nat (String.length s).

(** ** Constants and data of the program *)

Definition filePath : string := "/file/".
Definition dirPath : string := "/directory/".
Definition filePathLen : Z := len filePath.
Definition dirPathLen : Z := len dirPath.

(** [sliceContains] *)
Fixpoint sliceContains (s : list string) (c : string) : bool :=
  match s with
  | [] => false
  | e :: s' => if (c =? e)%string then true else sliceContains s' c
  end.

(** [type element struct]; the field [Type] is spelled [Type'].  A [nil]
    slice of children is the empty list: the program only ever builds
    the slice by [append], so it is [nil] exactly when it is empty. *)
#[warnings="-register-all"]
Inductive element : Type := mkElement {
  Type' : string;
  Name : string;
  Uri : string;
  CreationDate : string;
  ModifiedDate : string;
  Size : string;
  Writable : string;
  Children : list element
}.

(** [element{}], the zero value. *)
Definition zeroElement : element := mkElement "" "" "" "" "" "" "" [].

(** The part of [*http.Request] the handlers read.  [Header] lists the
    request's header fields under the names the program asks for. *)
Record Request : Type := mkRequest {
  Method : string;
  URLPath : string;
  Header : list (string * string)
}.

(** [r.Header.Get(key)]: the first value of the field, [""] if absent. *)
Fixpoint Get (h : list (string * string)) (key : string) : string :=
  match h with
  | [] => ""
  | (k, v) :: h' => if (k =? key)%string then v else Get h' key
  end.

(** What a handler writes as the response body. *)
Inductive Body : Type :=
| NoBody
| RawBody (bytes : string)
| JsonElement (e : element)
| JsonFileInfo (creationDate modifiedDate size readOnly : string).

(** What one run of a handler does.  [Reply] is the status line and body
    it writes (200 when it never calls [WriteHeader]); [ServeFile] hands
    the validated path to [http.ServeFile]; [Mutate] stands for the POST,
    PUT and DELETE arms, which change the file system and are not
    modelled further: the handler has passed the root check and runs the
    arm of that method on that path. *)
Inductive Outcome : Type :=
| Reply (status : Z) (body : Body)
| ServeFile (p : string)
| Mutate (method p : string)
| Crash
| Starved.

Definition StatusOK : Z := 200.
Definition StatusNoContent : Z := 204.
Definition StatusNotModified : Z := 304.
Definition StatusForbidden : Z := 403.
Definition StatusNotFound : Z := 404.
Definition StatusInternalServerError : Z := 500.

(** ** The program *)

Section Server.

(** [runtime.GOOS] and the [-r] flag. *)
Variable GOOS : string.
Variable rootFlag : string.

(** [os.Stat] and [ioutil.ReadDir] (which sorts the entries by name). *)
Variable os_Stat : string -> os.PathError + os.FileInfo.
Variable ioutil_ReadDir : string -> os.PathError + list os.FileInfo.

(** [os.Stat(path)] with Go's two results; on failure the [FileInfo] is
    [nil], here a value nothing reads. *)
Definition Stat (path : string) : os.FileInfo * option os.error :=
  match os_Stat path with
  | inr infos => (infos, None)
  | inl e => (os.mkFileInfo "" 0 0 false, Some (os.EPath e))
  end.

(** [properties] *)
Definition properties (path : string) : os.FileInfo * option os.error :=
  Stat path.

(** [modifiedSince].  The error of [ParseInt] is overwritten by the one
    of [properties] before anything reads it; the product is an [int64]
    product. *)
Definition modifiedSince (path since : string) : bool :=
  let '(s, _) := strconv.ParseInt since in
  let '(infos, err) := properties path in
  match err with
  | Some _ => false
  | None =>
      let l := os.ModTime infos in
      let s := strconv.wrap64 (s * 1000000) in
      if s >? l then true else false
  end.

(** [exist] *)
Definition exist (path : string) : bool :=
  let '(_, err) := Stat path in
  if negb (os.IsNotExist err) then true else false.

(** [isInRoot] *)
Definition isInRoot (path : string) : bool := filepath.HasPrefix path rootFlag.

(** [modTime[:len(modTime)-6]] *)
Definition dropLast6 (modTime : string) : option string :=
  sliceTo modTime (len modTime - 6).

(** The body of [for _, d := range currentDir] in [listDir], run over the
    entries [ds] that remain, with the current values of [list] (here [lst])
    and [err]; [self] is the recursive call [listDir(uri, recursive, filter,
    returnType)] as a function of [uri]. *)
Fixpoint listDirRange (self : string -> result (list element * option os.error))
    (path : string) (recursive : bool) (filter : list string)
    (returnFiles returnDirs : bool)
    (ds : list os.FileInfo) (lst : list element) (err : option os.error)
    : result (list element * option os.error) :=
  match ds with
  | [] => Returned (lst, err)
  | d :: ds' =>
      if os.IsDir d && returnDirs then
        match dropLast6 (strconv.FormatInt (os.ModTime d)) with
        | None => Panicked
        | Some modTime =>
            let uri := filepath.Clean (path ++ "/" ++ os.Name d) in
            let lst := (lst ++ [zeroElement])%list in
            let e := mkElement "directory" (os.Name d) uri modTime modTime
                       (strconv.FormatInt (os.Size d)) "true" in
            if recursive then
              match self uri with
              | Returned (children, Some err') => Returned (lst, Some err')
              | Returned (children, None) =>
                  listDirRange self path recursive filter returnFiles returnDirs
                    ds' (lst ++ [e children])%list None
              | Panicked => Panicked
              | OutOfFuel => OutOfFuel
              end
            else
              listDirRange self path recursive filter returnFiles returnDirs
                ds' (lst ++ [e []])%list err
        end
      else if negb (os.IsDir d) && returnFiles then
        if sliceContains filter (filepath.Ext (os.Name d)) then
          match dropLast6 (strconv.FormatInt (os.ModTime d)) with
          | None => Panicked
          | Some modTime =>
              let e := mkElement "file" (os.Name d)
                         (filepath.Clean (path ++ "/" ++ os.Name d))
                         modTime modTime (strconv.FormatInt (os.Size d)) "true" [] in
              listDirRange self path recursive filter returnFiles returnDirs
                ds' (lst ++ [e])%list err
          end
        else
          listDirRange self path recursive filter returnFiles returnDirs ds' lst err
      else
        listDirRange self path recursive filter returnFiles returnDirs ds' lst err
  end.

(** [listDir].  [fuel] bounds the depth of the recursion. *)
Fixpoint listDir (fuel : nat) (path : string) (recursive : bool)
    (filter : list string) (returnType : string)
    : result (list element * option os.error) :=
  match fuel with
  | O => OutOfFuel
  | S fuel' =>
      let returnAll := (returnType =? "all")%string || (returnType =? "")%string in
      let returnFiles := (returnType =? "files")%string || returnAll in
      let returnDirs := (returnType =? "directories")%string || returnAll in
      let '(currentDir, err) :=
        match ioutil_ReadDir path with
        | inr entries => (entries, None)
        | inl e => ([], Some (os.EPath e))
        end in
      listDirRange (fun uri => listDir fuel' uri recursive filter returnType)
        path recursive filter returnFiles returnDirs currentDir [] err
  end.

(** [osPath].  The value of [filepath.Clean(p)] is computed and dropped. *)
Definition osPath (p : string) : result string :=
  let _ := filepath.Clean p in
  if (GOOS =? "windows")%string then
    match sliceTo p 1, sliceFrom p 1 with
    | Some drive, Some rest => Returned (drive ++ ":" ++ rest)
    | _, _ => Panicked
    end
  else Returned ("/" ++ p).

(** The test [modSince != "" && modSince != "false" && modSince != "none"]. *)
Definition wantsModSince (modSince : string) : bool :=
  negb (modSince =? "")%string && negb (modSince =? "false")%string
  && negb (modSince =? "none")%string.

(** The [case "GET"] arm of [fileHandler]. *)
Definition fileHandlerGet (r : Request) (p : string) : Outcome :=
  let modSince := Get (Header r) "If-modified-since" in
  let getInfo := Get (Header r) "get-file-info" in
  if wantsModSince modSince then
    if modifiedSince p modSince then Reply StatusOK NoBody
    else Reply StatusNotModified NoBody
  else if (Get (Header r) "check-existence-only" =? "true")%string then
    if exist p then Reply StatusNoContent NoBody
    else Reply StatusNotFound NoBody
  else if negb (getInfo =? "")%string && negb (getInfo =? "false")%string then
    match properties p with
    | (_, Some _) => Reply StatusInternalServerError NoBody
    | (infos, None) =>
        match dropLast6 (strconv.FormatInt (os.ModTime infos)) with
        | None => Crash
        | Some modDate =>
            Reply StatusOK
              (JsonFileInfo modDate modDate (strconv.FormatInt (os.Size infos)) "false")
        end
    end
  else ServeFile p.

(** [fileHandler] *)
Definition fileHandler (r : Request) : Outcome :=
  match sliceFrom (URLPath r) filePathLen with
  | None => Crash
  | Some fragment =>
      match osPath fragment with
      | Panicked | OutOfFuel => Crash
      | Returned p =>
          if negb (isInRoot p) then Reply StatusForbidden NoBody
          else if (Method r =? "GET")%string then fileHandlerGet r p
          else if (Method r =? "POST")%string || (Method r =? "PUT")%string
                  || (Method r =? "DELETE")%string then Mutate (Method r) p
          else Reply StatusOK NoBody
      end
  end.

(** The [case "GET"] arm of [dirHandler]. *)
Definition dirHandlerGet (fuel : nat) (r : Request) (p : string) : Outcome :=
  let modSince := Get (Header r) "If-modified-since" in
  if (p =? "")%string then Reply StatusOK (RawBody rootFlag)
  else if wantsModSince modSince then
    if negb (exist p) then Reply StatusNotFound NoBody
    else if modifiedSince p modSince then Reply StatusOK NoBody
    else Reply StatusNotModified NoBody
  else if (Get (Header r) "check-existence-only" =? "true")%string then
    if exist p then Reply StatusNoContent NoBody
    else Reply StatusNotFound NoBody
  else
    let recursive := (Get (Header r) "recursive" =? "true")%string in
    let filter := strings.Split (Get (Header r) "file-filters") ";" in
    let returnType := Get (Header r) "return-type" in
    let returnType := if (returnType =? "")%string then "all" else returnType in
    match listDir fuel p recursive filter returnType with
    | OutOfFuel => Starved
    | Panicked => Crash
    | Returned (fileInfo, err) =>
        match err with
        | Some os.ErrNotExist => Reply StatusNotFound NoBody
        | Some _ => Reply StatusInternalServerError NoBody
        | None =>
            Reply StatusOK
              (JsonElement (mkElement "directory" "root" (p ++ "/") "" "" "" "" fileInfo))
        end
    end.

(** [dirHandler] *)
Definition dirHandler (fuel : nat) (r : Request) : Outcome :=
  match sliceFrom (URLPath r) dirPathLen with
  | None => Crash
  | Some fragment =>
      match osPath fragment with
      | Panicked | OutOfFuel => Crash
      | Returned p =>
          if negb (isInRoot p) then Reply StatusForbidden NoBody
          else if (Method r =? "GET")%string then dirHandlerGet fuel r p
          else if (Method r =? "POST")%string || (Method r =? "PUT")%string
                  || (Method r =? "DELETE")%string then Mutate (Method r) p
          else Reply StatusOK NoBody
      end
  end.

End Server.

(** ** What the specification means by containment

    A path lies lexically inside an absolute root when, both being
    normalised, it is the root or continues it after a separator. *)

Definition lexicallyInside (root path : string) : bool :=
  let r := filepath.Clean root in
  let p := filepath.Clean path in
  if (r =? "/")%string then strings.HasPrefix p "/"
  else (p =? r)%string || strings.HasPrefix p (r ++ "/").

(** The requests that reach the listing arm of [dirHandler]: method GET,
    no usable [If-modified-since] and no [check-existence-only]. *)
Definition asksListing (r : Request) : bool :=
  (Method r =? "GET")%string
  && negb (wantsModSince (Get (Header r) "If-modified-since"))
  && negb (Get (Header r) "check-existence-only" =? "true")%string.

(** Every file entry of a tree of elements, at any depth, is a leaf. *)
Fixpoint filesAreLeaves (e : element) : Prop :=
  match e with
  | mkElement type _ _ _ _ _ _ children =>
      (type = "file" -> children = []) /\
      (fix each (l : list element) : Prop :=
         match l with
         | [] => True
         | x :: l' => filesAreLeaves x /\ each l'
         end) children
  end.

(** The two switches [listDir] derives from [returnType]. *)
Definition returnFilesOf (returnType : string) : bool :=
  (returnType =? "files")%string
  || ((returnType =? "all")%string || (returnType =? "")%string).

Definition returnDirsOf (returnType : string) : bool :=
  (returnType =? "directories")%string
  || ((returnType =? "all")%string || (returnType =? "")%string).

(** The entries [listDir] builds for a directory child and for a file
    child of [path]. *)
Definition dirEntry (path : string) (d : os.FileInfo) (modTime : string)
    (children : list element) : element :=
  mkElement "directory" (os.Name d) (filepath.Clean (path ++ "/" ++ os.Name d))
    modTime modTime (strconv.FormatInt (os.Size d)) "true" children.

Definition fileEntry (path : string) (d : os.FileInfo) (modTime : string) : element :=
  mkElement "file" (os.Name d) (filepath.Clean (path ++ "/" ++ os.Name d))
    modTime modTime (strconv.FormatInt (os.Size d)) "true" [].

(** [e] is the entry appended for the directory child [d]: directories
    were asked for, and the children of [e] are what the recursive call
    [self] returned without error for its path, or none when the listing
    is flat. *)
Definition madeFromDir (self : string -> result (list element * option os.error))
    (path : string) (recursive returnDirs : bool)
    (d : os.FileInfo) (e : element) : Prop :=
  os.IsDir d = true /\ returnDirs = true /\
  exists modTime children,
    dropLast6 (strconv.FormatInt (os.ModTime d)) = Some modTime /\
    e = dirEntry path d modTime children /\
    (if recursive then self (Uri e) = Returned (children, None)
     else children = []).

(** [e] is the entry appended for the file child [d]: files were asked
    for and the extension of [d] is in the filter. *)
Definition madeFromFile (path : string) (filter : list string) (returnFiles : bool)
    (d : os.FileInfo) (e : element) : Prop :=
  os.IsDir d = false /\ returnFiles = true /\
  sliceContains filter (filepath.Ext (os.Name d)) = true /\
  exists modTime,
    dropLast6 (strconv.FormatInt (os.ModTime d)) = Some modTime /\
    e = fileEntry path d modTime.

(** The three options [dirHandler] reads from the headers before it
    calls [listDir]. *)
Definition recursiveOf (r : Request) : bool :=
  (Get (Header r) "recursive" =? "true")%string.

Definition filterOf (r : Request) : list string :=
  strings.Split (Get (Header r) "file-filters") ";".

Definition returnTypeOf (r : Request) : string :=
  if (Get (Header r) "return-type" =? "")%string then "all"
  else Get (Header r) "return-type".

(** A directory read fails at [path] or, in a recursive listing,
    somewhere below it in a directory the listing descends into. *)
Inductive failsWithin (ioutil_ReadDir : string -> os.PathError + list os.FileInfo)
    (recursive : bool) (returnType : string) : string -> Prop :=
| fails_here path pe :
    ioutil_ReadDir path = inl pe ->
    failsWithin ioutil_ReadDir recursive returnType path
| fails_below path ds d :
    recursive = true ->
    ioutil_ReadDir path = inr ds -> In d ds ->
    os.IsDir d = true -> returnDirsOf returnType = true ->
    failsWithin ioutil_ReadDir recursive returnType
      (filepath.Clean (path ++ "/" ++ os.Name d)) ->
    failsWithin ioutil_ReadDir recursive returnType path.

(** ** A small file system for concrete runs

    [/srv/data] holds three files and the directory [sub], which holds
    one file; [/srv/vault] holds a file and the directory [locked],
    which cannot be read; [/srv/old] is a directory last modified five
    seconds before the epoch.  Every other path does not exist. *)

Module Sample.

Definition mtime : Z := 1350000000123456789.

Definition file (name : string) : os.FileInfo := os.mkFileInfo name 12 mtime false.
Definition dir (name : string) : os.FileInfo := os.mkFileInfo name 4096 mtime true.

Definition dirs : list (string * (os.PathError + list os.FileInfo)) :=
  [ ("/srv/data", inr [file "README"; file "a.txt"; file "b.jpg"; dir "sub"]);
    ("/srv/data/sub", inr [file "c.txt"]);
    ("/srv/vault", inr [dir "locked"; file "x.txt"]);
    ("/srv/vault/locked",
      inl (os.mkPathError "open" "/srv/vault/locked" os.EACCES));
    ("/srv/old", inr []) ].

Fixpoint lookup {A : Type} (tbl : list (string * A)) (path : string) : option A :=
  match tbl with
  | [] => None
  | (k, v) :: tbl' => if (k =? path)%string then Some v else lookup tbl' path
  end.

(** [ioutil.ReadDir] on this file system. *)
Definition ReadDir (path : string) : os.PathError + list os.FileInfo :=
  match lookup dirs path with
  | Some answer => answer
  | None => inl (os.mkPathError "open" path os.ENOENT)
  end.

Definition nodes : list (string * os.FileInfo) :=
  [ ("/srv/data", dir "data");
    ("/srv/data/README", file "README");
    ("/srv/data/a.txt", file "a.txt");
    ("/srv/data/b.jpg", file "b.jpg");
    ("/srv/data/sub", dir "sub");
    ("/srv/data/sub/c.txt", file "c.txt");
    ("/srv/vault", dir "vault");
    ("/srv/vault/locked", dir "locked");
    ("/srv/vault/x.txt", file "x.txt");
    ("/srv/old", os.mkFileInfo "old" 4096 (-5000000000) true) ].

(** [os.Stat] on this file system. *)
Definition Stat (path : string) : os.PathError + os.FileInfo :=
  match lookup nodes path with
  | Some infos => inr infos
  | None => inl (os.mkPathError "stat" path os.ENOENT)
  end.

Definition get (urlPath : string) (header : list (string * string)) : Request :=
  mkRequest "GET" urlPath header.

(** How far below a path the directories of this file system reach. *)
Definition depth (path : string) : nat :=
  if (path =? "/srv/data")%string || (path =? "/srv/vault")%string then 1%nat
  else 0%nat.

(** What the program builds for these files and directories. *)
Definition stamp : string := "1350000000123".

Definition dataFlat : list element :=
  [ fileEntry "/srv/data" (file "a.txt") stamp;
    zeroElement;
    dirEntry "/srv/data" (dir "sub") stamp [] ].

Definition subEntry : element :=
  dirEntry "/srv/data" (dir "sub") stamp
    [fileEntry "/srv/data/sub" (file "c.txt") stamp].

Definition dataDeep : list element :=
  [ fileEntry "/srv/data" (file "a.txt") stamp; zeroElement; subEntry ].

Definition lockedError : os.error :=
  os.EPath (os.mkPathError "open" "/srv/vault/locked" os.EACCES).

End Sample.

(** ** Further notions used to describe a listing *)

(** The child [d] passes the switches and the filter of a listing. *)
Definition passes (filter : list string) (returnType : string) (d : os.FileInfo) : bool :=
  if os.IsDir d then returnDirsOf returnType
  else returnFilesOf returnType && sliceContains filter (filepath.Ext (os.Name d)).

(** An element that stands for a child: its type is not empty. *)
Definition isEntry (e : element) : bool := negb (Type' e =? "")%string.

(** The exact shape of a listing of [path] that ran through the children
    [ds]: in their order, a zero element and the entry for each
    directory that passes, the entry for each file that passes, and
    nothing for the others. *)
Inductive listed (path : string) (filter : list string) (returnType : string)
  : list os.FileInfo -> list element -> Prop :=
| listed_nil : listed path filter returnType [] []
| listed_dir d ds modTime children es :
    os.IsDir d = true -> returnDirsOf returnType = true ->
    dropLast6 (strconv.FormatInt (os.ModTime d)) = Some modTime ->
    listed path filter returnType ds es ->
    listed path filter returnType (d :: ds)
      (zeroElement :: dirEntry path d modTime children :: es)
| listed_file d ds modTime es :
    os.IsDir d = false -> returnFilesOf returnType = true ->
    sliceContains filter (filepath.Ext (os.Name d)) = true ->
    dropLast6 (strconv.FormatInt (os.ModTime d)) = Some modTime ->
    listed path filter returnType ds es ->
    listed path filter returnType (d :: ds) (fileEntry path d modTime :: es)
| listed_skip d ds es :
    passes filter returnType d = false ->
    listed path filter returnType ds es ->
    listed path filter returnType (d :: ds) es.

(** [P] holds of an element and of every element below it. *)
Fixpoint everywhere (P : element -> Prop) (e : element) : Prop :=
  match e with
  | mkElement _ _ _ _ _ _ _ children =>
      P e /\
      (fix each (l : list element) : Prop :=
         match l with
         | [] => True
         | x :: l' => everywhere P x /\ each l'
         end) children
  end.

(** An element is a zero element, or a file or directory entry that is
    reported writable with one date for creation and modification. *)
Definition plainFields (e : element) : Prop :=
  e = zeroElement \/
  ((Type' e = "file" \/ Type' e = "directory") /\
   Writable e = "true" /\ CreationDate e = ModifiedDate e).

(** An element lies in the directory [parent]: it is a zero element, or
    its uri is the cleaned join of [parent] and its name. *)
Definition liesIn (parent : string) (e : element) : Prop :=
  e = zeroElement \/ Uri e = filepath.Clean (parent ++ "/" ++ Name e).

(** The children of an element lie in it. *)
Definition holdsItsChildren (e : element) : Prop :=
  Forall (liesIn (Uri e)) (Children e).

(** ** Decimal digits

    The character of a digit, and a digit put in front of a little-endian
    decimal number. *)

Definition digitChar (k : N) : ascii :=
  ascii_of_N (48 + k).

Definition consDigit (k : N) (d : Decimal.uint) : Decimal.uint :=
  List.nth (N.to_nat k)
    [Decimal.D0; Decimal.D1; Decimal.D2; Decimal.D3; Decimal.D4;
     Decimal.D5; Decimal.D6; Decimal.D7; Decimal.D8]
    Decimal.D9 d.

(** ** The code that changes the file system

    The remaining functions act on the file system, on the request body
    and on the response writer.  They are embedded as programs over the
    calls they make: a program is a return value, a call together with
    what the program does with each possible answer, a panic, or the
    model's running out of fuel. *)

Module sys.

(** [*os.File] and [os.FileMode]. *)
Definition File : Type := nat.
Definition FileMode : Type := Z.

(** What a failed call returns: a [*os.PathError], the [*os.LinkError]
    of [os.Rename], or another error of reading, writing or copying
    (such as [io.ErrShortWrite]).  None of them is equal ([==]) to one of
    the error variables of package [os]. *)
Inductive SysError : Type :=
| PathErr (e : os.PathError)
| LinkErr (op old new : string) (errno : os.Errno)
| OtherErr (text : string).

(** The values of Go's [error] interface in this part of the program. *)
Inductive error : Type :=
| ErrInvalid
| ErrExist
| ErrNotExist
| Sys (e : SysError).

(** [os.IsNotExist(err)] *)
Definition IsNotExist (err : option error) : bool :=
  match err with
  | Some ErrNotExist => true
  | Some (Sys (PathErr e)) => os.Err e =? os.ENOENT
  | Some (Sys (LinkErr _ _ _ errno)) => errno =? os.ENOENT
  | _ => false
  end.

(** The calls, each with the type of its answer.  [Stat] answers with
    the file information and its mode; [ReadAll] is
    [ioutil.ReadAll(r.Body)]; [WriteHeader] is [w.WriteHeader]. *)
Inductive call : Type -> Type :=
| Stat (name : string) : call (os.PathError + os.FileInfo * FileMode)
| ReadDir (dirname : string) : call (os.PathError + list os.FileInfo)
| WriteFile (filename content : string) (perm : FileMode) : call (option SysError)
| Remove (name : string) : call (option os.PathError)
| RemoveAll (path : string) : call (option os.PathError)
| Rename (oldpath newpath : string) : call (option SysError)
| MkdirAll (path : string) (perm : FileMode) : call (option os.PathError)
| Open (name : string) : call (os.PathError + File)
| Create (name : string) : call (os.PathError + File)
| Copy (dst src : File) : call (Z * option SysError)
| Close (f : File) : call (option SysError)
| Chmod (name : string) (mode : FileMode) : call (option os.PathError)
| ReadAll : call (SysError + string)
| WriteHeader (code : Z) : call unit.

End sys.

Inductive prog (A : Type) : Type :=
| Ret (a : A)
| Do {X : Type} (c : sys.call X) (k : X -> prog A)
| Panic
| Tired.
Arguments Ret {A} a.
Arguments Do {A X} c k.
Arguments Panic {A}.
Arguments Tired {A}.

Fixpoint bind {A B : Type} (m : prog A) (f : A -> prog B) : prog B :=
  match m with
  | Ret a => f a
  | Do c k => Do c (fun x => bind (k x) f)
  | Panic => Panic
  | Tired => Tired
  end.

Notation "x <- m ;; f" := (bind m (fun x => f))
  (at level 61, m at next level, right associativity).
Notation "m ;;; f" := (bind m (fun _ => f))
  (at level 61, right associativity).

(** One call, returning its answer. *)
Definition perform {X : Type} (c : sys.call X) : prog X := Do c Ret.

(** A path error as an [error]. *)
Definition pathError (e : option os.PathError) : option sys.error :=
  option_map (fun e => sys.Sys (sys.PathErr e)) e.

Definition sysError (e : option sys.SysError) : option sys.error :=
  option_map sys.Sys e.

(** The answer of [os.Stat] without the mode, as the functions modelled
    above read it. *)
Definition statAnswer (answer : os.PathError + os.FileInfo * sys.FileMode)
    : string -> os.PathError + os.FileInfo :=
  fun _ => match answer with
           | inl e => inl e
           | inr (infos, _) => inr infos
           end.

(** [exist], as a program: one call of [os.Stat]. *)
Definition existIO (path : string) : prog bool :=
  answer <- perform (sys.Stat path) ;;
  Ret (exist (statAnswer answer) path).

(** [writeFile]; the permission [0600] is 384. *)
Definition writeFile (path content : string) (overwrite : bool)
    : prog (option sys.error) :=
  if negb overwrite then
    there <- existIO path ;;
    if there then Ret (Some sys.ErrExist)
    else
      err <- perform (sys.WriteFile path content 384) ;;
      Ret (sysError err)
  else
    there <- existIO path ;;
    if negb there then Ret (Some sys.ErrNotExist)
    else
      err <- perform (sys.WriteFile path content 384) ;;
      Ret (sysError err).

(** [removeFile] *)
Definition removeFile (path : string) : prog (option sys.error) :=
  err <- perform (sys.Remove path) ;; Ret (pathError err).

(** [moveFile] *)
Definition moveFile (source dest : string) : prog (option sys.error) :=
  err <- perform (sys.Rename source dest) ;; Ret (sysError err).

(** [copyFile].  The two deferred calls of [Close] run, last one first,
    when the function returns and when it panics.  After a copy without
    error the function stats the source into the new variables [si] and
    [err] of the inner block: when that fails [si] is [nil] and
    [si.Mode()] panics before [os.Chmod] is called; when it succeeds
    nothing is done.  The function then returns its own [err], which is
    [nil]. *)
Definition copyFile (source dest : string) : prog (option sys.error) :=
  opened <- perform (sys.Open source) ;;
  match opened with
  | inl e => Ret (Some (sys.Sys (sys.PathErr e)))
  | inr sf =>
      created <- perform (sys.Create dest) ;;
      match created with
      | inl e =>
          perform (sys.Close sf) ;;;
          Ret (Some (sys.Sys (sys.PathErr e)))
      | inr df =>
          copied <- perform (sys.Copy df sf) ;;
          match snd copied with
          | Some e =>
              perform (sys.Close df) ;;; perform (sys.Close sf) ;;;
              Ret (Some (sys.Sys e))
          | None =>
              si <- perform (sys.Stat source) ;;
              match si with
              | inl _ =>
                  perform (sys.Close df) ;;; perform (sys.Close sf) ;;; Panic
              | inr _ =>
                  perform (sys.Close df) ;;; perform (sys.Close sf) ;;; Ret None
              end
          end
      end
  end.

(** [createDir]; the permission [0600] is 384. *)
Definition createDir (path : string) : prog (option sys.error) :=
  err <- perform (sys.MkdirAll path 384) ;; Ret (pathError err).

(** [removeDir] *)
Definition removeDir (path : string) : prog (option sys.error) :=
  err <- perform (sys.RemoveAll path) ;; Ret (pathError err).

(** [moveDir] *)
Definition moveDir (source dest : string) : prog (option sys.error) :=
  err <- perform (sys.Rename source dest) ;; Ret (sysError err).

(** The loop of [copyDir] over the entries that remain; [self] is the
    recursive call.  [err] is the error to return if the loop ends. *)
Fixpoint copyDirRange (self : string -> string -> prog (option sys.error))
    (source dest : string) (entries : list os.FileInfo) (err : option sys.error)
    : prog (option sys.error) :=
  match entries with
  | [] => Ret err
  | entry :: entries' =>
      let sfp := source ++ "/" ++ os.Name entry in
      let dfp := dest ++ "/" ++ os.Name entry in
      err <- (if os.IsDir entry then self sfp dfp else copyFile sfp dfp) ;;
      match err with
      | Some _ => Ret err
      | None => copyDirRange self source dest entries' err
      end
  end.

(** [copyDir].  [fuel] bounds the depth of the recursion.  The file that
    [os.Open(dest)] may return is dropped without being closed. *)
Fixpoint copyDir (fuel : nat) (source dest : string) : prog (option sys.error) :=
  match fuel with
  | O => Tired
  | S fuel' =>
      fi <- perform (sys.Stat source) ;;
      match fi with
      | inl e => Ret (Some (sys.Sys (sys.PathErr e)))
      | inr (infos, mode) =>
          if negb (os.IsDir infos) then Ret (Some sys.ErrInvalid)
          else
            opened <- perform (sys.Open dest) ;;
            let err := match opened with
                       | inl e => Some (sys.Sys (sys.PathErr e))
                       | inr _ => None
                       end in
            if negb (sys.IsNotExist err) then Ret (Some sys.ErrExist)
            else
              err <- perform (sys.MkdirAll dest mode) ;;
              match err with
              | Some e => Ret (Some (sys.Sys (sys.PathErr e)))
              | None =>
                  read <- perform (sys.ReadDir source) ;;
                  let '(entries, err) :=
                    match read with
                    | inr entries => (entries, None)
                    | inl e => ([], Some (sys.Sys (sys.PathErr e)))
                    end in
                  copyDirRange (copyDir fuel') source dest entries err
              end
      end
  end.

Definition StatusCreated : Z := 201.
Definition StatusBadRequest : Z := 400.

(** The test [err == os.ErrNotExist] followed by [else if err != nil],
    which ends four arms of the handlers: 404, 500, or go on. *)
Definition notFoundOrFailed (err : option sys.error) (next : prog unit) : prog unit :=
  match err with
  | Some sys.ErrNotExist => perform (sys.WriteHeader StatusNotFound)
  | Some _ => perform (sys.WriteHeader StatusInternalServerError)
  | None => next
  end.

(** The [case "POST"] arm of [fileHandler]. *)
Definition filePost (p : string) : prog unit :=
  body <- perform sys.ReadAll ;;
  match body with
  | inl _ => perform (sys.WriteHeader StatusInternalServerError)
  | inr content =>
      err <- writeFile p content false ;;
      match err with
      | Some sys.ErrExist =>
          perform (sys.WriteHeader StatusBadRequest) ;;;
          perform (sys.WriteHeader StatusCreated)
      | Some _ => perform (sys.WriteHeader StatusInternalServerError)
      | None => perform (sys.WriteHeader StatusCreated)
      end
  end.

(** The [case "PUT"] arm of [fileHandler]. *)
Definition filePut (r : Request) (p : string) : prog unit :=
  let source := Get (Header r) "sourceURI" in
  if (source =? "")%string then
    body <- perform sys.ReadAll ;;
    match body with
    | inl _ => perform (sys.WriteHeader StatusInternalServerError)
    | inr content =>
        err <- writeFile p content true ;;
        match err with
        | Some sys.ErrNotExist =>
            perform (sys.WriteHeader StatusNotFound) ;;;
            perform (sys.WriteHeader StatusNoContent)
        | Some _ => perform (sys.WriteHeader StatusInternalServerError)
        | None => perform (sys.WriteHeader StatusNoContent)
        end
    end
  else
    let transfer :=
      if (Get (Header r) "delete-source" =? "true")%string then
        err <- moveFile source p ;;
        notFoundOrFailed err (perform (sys.WriteHeader StatusNoContent))
      else
        err <- copyFile source p ;;
        notFoundOrFailed err (perform (sys.WriteHeader StatusNoContent)) in
    if (Get (Header r) "overwrite-destination" =? "true")%string then
      err <- removeFile p ;;
      notFoundOrFailed err transfer
    else transfer.

(** The [case "DELETE"] arm of [fileHandler]. *)
Definition fileDelete (p : string) : prog unit :=
  err <- removeFile p ;;
  notFoundOrFailed err (perform (sys.WriteHeader StatusNoContent)).

(** The [case "POST"] arm of [dirHandler]. *)
Definition dirPost (p : string) : prog unit :=
  err <- createDir p ;;
  match err with
  | Some _ => perform (sys.WriteHeader StatusBadRequest)
  | None => perform (sys.WriteHeader StatusCreated)
  end.

(** The [case "DELETE"] arm of [dirHandler]. *)
Definition dirDelete (p : string) : prog unit :=
  err <- removeDir p ;;
  notFoundOrFailed err (perform (sys.WriteHeader StatusNoContent)).

(** The [case "PUT"] arm of [dirHandler]. *)
Definition dirPut (fuel : nat) (r : Request) (p : string) : prog unit :=
  let source := Get (Header r) "sourceURI" in
  there <- existIO p ;;
  if there then perform (sys.WriteHeader StatusBadRequest)
  else
    let operation := Get (Header r) "operation" in
    if (operation =? "move")%string then
      err <- moveDir source p ;;
      notFoundOrFailed err (perform (sys.WriteHeader StatusNoContent))
    else if (operation =? "copy")%string then
      err <- copyDir fuel source p ;;
      notFoundOrFailed err (perform (sys.WriteHeader StatusNoContent))
    else perform (sys.WriteHeader StatusBadRequest).

(** The arm that [fileHandler] and [dirHandler] run for [Mutate method p]. *)
Definition fileArm (r : Request) (method p : string) : prog unit :=
  if (method =? "POST")%string then filePost p
  else if (method =? "PUT")%string then filePut r p
  else fileDelete p.

Definition dirArm (fuel : nat) (r : Request) (method p : string) : prog unit :=
  if (method =? "POST")%string then dirPost p
  else if (method =? "DELETE")%string then dirDelete p
  else dirPut fuel r p.

(** ** Running a program

    A file system with states [W] answers [os.Stat] and [ioutil.ReadDir]
    from its state and moves to a new state on every other call.  The
    request body is what [ReadAll] answers, and of the status codes
    written only the first counts, as in [net/http]. *)

Record OS (W : Type) : Type := mkOS {
  stat : W -> string -> os.PathError + os.FileInfo * sys.FileMode;
  readDir : W -> string -> os.PathError + list os.FileInfo;
  change : forall X : Type, sys.call X -> W -> W * X
}.
Arguments stat {W} o w name.
Arguments readDir {W} o w dirname.
Arguments change {W} o {X} c w.

(** The state of the world and the status code written so far. *)
Definition State (W : Type) : Type := (W * option Z)%type.

Definition answer {W X : Type} (o : OS W) (body : sys.SysError + string)
    (c : sys.call X) (st : State W) : State W * X :=
  let '(w, status) := st in
  match c in sys.call X return (W -> W * X) -> State W * X with
  | sys.Stat name => fun _ => (st, stat o w name)
  | sys.ReadDir dirname => fun _ => (st, readDir o w dirname)
  | sys.ReadAll => fun _ => (st, body)
  | sys.WriteHeader code =>
      fun _ => ((w, match status with None => Some code | Some _ => status end), tt)
  | _ => fun act => let '(w', x) := act w in ((w', status), x)
  end (change o c).

Fixpoint run {W A : Type} (o : OS W) (body : sys.SysError + string)
    (p : prog A) (st : State W) : State W * result A :=
  match p with
  | Ret a => (st, Returned a)
  | Do c k => let '(st', x) := answer o body c st in run o body (k x) st'
  | Panic => (st, Panicked)
  | Tired => (st, OutOfFuel)
  end.

(** [os.Stat] at the state [w], as the functions modelled first read it. *)
Definition statAt {W : Type} (o : OS W) (w : W) : string -> os.PathError + os.FileInfo :=
  fun name => statAnswer (stat o w name) name.

Definition readDirAt {W : Type} (o : OS W) (w : W)
    : string -> os.PathError + list os.FileInfo :=
  readDir o w.

(** What the run of an arm leaves as the reply. *)
Definition replyOf {W : Type} (ran : State W * result unit) : W * Outcome :=
  let '((w, status), res) := ran in
  (w, match res with
      | Returned _ =>
          Reply (match status with Some code => code | None => StatusOK end) NoBody
      | Panicked => Crash
      | OutOfFuel => Starved
      end).

(** [fileHandler] and [dirHandler] with their POST, PUT and DELETE arms. *)
Definition fileServe {W : Type} (GOOS rootFlag : string) (o : OS W)
    (body : sys.SysError + string) (w : W) (r : Request) : W * Outcome :=
  match fileHandler GOOS rootFlag (statAt o w) r with
  | Mutate method p => replyOf (run o body (fileArm r method p) (w, None))
  | outcome => (w, outcome)
  end.

Definition dirServe {W : Type} (GOOS rootFlag : string) (o : OS W)
    (body : sys.SysError + string) (fuel : nat) (w : W) (r : Request) : W * Outcome :=
  match dirHandler GOOS rootFlag (statAt o w) (readDirAt o w) fuel r with
  | Mutate method p => replyOf (run o body (dirArm fuel r method p) (w, None))
  | outcome => (w, outcome)
  end.

(** In every execution of a program, against every file system, each call
    it makes satisfies [okCall] and the value it returns, if it returns,
    satisfies [okRet]. *)
Inductive always {A : Type} (okCall : forall X : Type, sys.call X -> Prop)
    (okRet : A -> Prop) : prog A -> Prop :=
| always_Ret a : okRet a -> always okCall okRet (Ret a)
| always_Do X (c : sys.call X) k :
    okCall X c -> (forall x, always okCall okRet (k x)) ->
    always okCall okRet (Do c k)
| always_Panic : always okCall okRet Panic
| always_Tired : always okCall okRet Tired.

(** The calls that leave the state of the file system as it is. *)
Definition reads (X : Type) (c : sys.call X) : Prop :=
  match c with
  | sys.Stat _ | sys.ReadDir _ | sys.ReadAll | sys.WriteHeader _ => True
  | _ => False
  end.

Definition notChmod (X : Type) (c : sys.call X) : Prop :=
  match c with
  | sys.Chmod _ _ => False
  | _ => True
  end.

Definition notHeader (code : Z) (X : Type) (c : sys.call X) : Prop :=
  match c with
  | sys.WriteHeader code' => code' <> code
  | _ => True
  end.

Definition anyCall (X : Type) (c : sys.call X) : Prop := True.
Definition anyValue {A : Type} (a : A) : Prop := True.

(** The error is not the variable [os.ErrNotExist]. *)
Definition notErrNotExist (err : option sys.error) : Prop :=
  err <> Some sys.ErrNotExist.

(** In every execution the program closes the files it holds and those
    it opens, the last opened first, before it returns or panics. *)
Inductive settles {A : Type} : list sys.File -> prog A -> Prop :=
| settles_Ret a : settles [] (Ret a)
| settles_Panic : settles [] Panic
| settles_Open name k held :
    (forall e, settles held (k (inl e))) ->
    (forall f, settles (f :: held) (k (inr f))) ->
    settles held (Do (sys.Open name) k)
| settles_Create name k held :
    (forall e, settles held (k (inl e))) ->
    (forall f, settles (f :: held) (k (inr f))) ->
    settles held (Do (sys.Create name) k)
| settles_Close f k held :
    (forall x, settles held (k x)) ->
    settles (f :: held) (Do (sys.Close f) k)
| settles_other X (c : sys.call X) k held :
    match c with
    | sys.Open _ | sys.Create _ | sys.Close _ => False
    | _ => True
    end ->
    (forall x, settles held (k x)) ->
    settles held (Do c k).

(** ** A file system of plain files for concrete runs

    The state lists the files with their contents and the names of the
    files opened so far; a file handle is a position in that list.
    [WriteFile] and [Create] set a file, [Remove] deletes one, [Rename]
    moves one, [Copy] copies the content of one open file to another;
    there are no directories, and the calls for them fail. *)

Module Disk.

Definition W : Type := (list (string * string) * list string)%type.

Fixpoint remove (name : string) (files : list (string * string))
    : list (string * string) :=
  match files with
  | [] => []
  | (k, v) :: files' =>
      if (k =? name)%string then remove name files' else (k, v) :: remove name files'
  end.

Definition noent (op name : string) : os.PathError :=
  os.mkPathError op name os.ENOENT.

Definition stat (w : W) (name : string) : os.PathError + os.FileInfo * sys.FileMode :=
  match Sample.lookup (fst w) name with
  | Some content =>
      inr (os.mkFileInfo name (len content) Sample.mtime false, 384)
  | None => inl (noent "stat" name)
  end.

Definition change (X : Type) (c : sys.call X) (w : W) : W * X :=
  let '(files, handles) := w in
  match c in sys.call X return W * X with
  | sys.WriteFile filename content _ =>
      (((filename, content) :: remove filename files, handles), None)
  | sys.Remove name =>
      match Sample.lookup files name with
      | Some _ => ((remove name files, handles), None)
      | None => (w, Some (noent "remove" name))
      end
  | sys.Rename oldpath newpath =>
      match Sample.lookup files oldpath with
      | Some content =>
          (((newpath, content) :: remove newpath (remove oldpath files), handles), None)
      | None => (w, Some (sys.LinkErr "rename" oldpath newpath os.ENOENT))
      end
  | sys.Open name =>
      match Sample.lookup files name with
      | Some _ => ((files, handles ++ [name])%list, inr (List.length handles))
      | None => (w, inl (noent "open" name))
      end
  | sys.Create name =>
      (((name, "") :: remove name files, handles ++ [name])%list,
       inr (List.length handles))
  | sys.Copy dst src =>
      match nth_error handles dst, nth_error handles src with
      | Some to, Some from =>
          match Sample.lookup files from with
          | Some content => (((to, content) :: remove to files, handles), (len content, None))
          | None => (w, (0, Some (sys.OtherErr "file already closed")))
          end
      | _, _ => (w, (0, Some (sys.OtherErr "bad file descriptor")))
      end
  | sys.Close _ => (w, None)
  | sys.Stat name => (w, stat w name)
  | sys.ReadDir dirname => (w, inl (noent "open" dirname))
  | sys.RemoveAll _ => (w, None)
  | sys.MkdirAll path _ => (w, Some (os.mkPathError "mkdir" path os.EACCES))
  | sys.Chmod name _ => (w, Some (noent "chmod" name))
  | sys.ReadAll => (w, inr "")
  | sys.WriteHeader _ => (w, tt)
  end.

Definition disk : OS W :=
  mkOS W stat (fun _ dirname => inl (noent "open" dirname)) change.

(** The same disk seen by a process that may open and change files but
    gets no answer from [os.Stat]. *)
Definition fleeting : OS W :=
  mkOS W (fun _ name => inl (noent "stat" name))
       (fun _ dirname => inl (noent "open" dirname)) change.

(** A disk that holds the one file [/srv/data/a.txt]. *)
Definition one : W := ([("/srv/data/a.txt", "hello")], []).

Definition post (urlPath : string) : Request := mkRequest "POST" urlPath [].
Definition put (urlPath : string) (header : list (string * string)) : Request :=
  mkRequest "PUT" urlPath header.
Definition delete (urlPath : string) : Request := mkRequest "DELETE" urlPath [].

End Disk.

(** * Library facts *)

Example Split_empty : strings.Split "" ";" = [""].
Proof. reflexivity. Qed.

Example Split_two : strings.Split ".txt;.jpg" ";" = [".txt"; ".jpg"].
Proof. reflexivity. Qed.

Example ParseInt_plain : strconv.ParseInt "1350000000000" = (1350000000000, None).
Proof. reflexivity. Qed.

Example ParseInt_neg : strconv.ParseInt "-12" = (-12, None).
Proof. reflexivity. Qed.

Example ParseInt_syntax : strconv.ParseInt "12a" = (0, Some strconv.ErrSyntax).
Proof. reflexivity. Qed.

Example ParseInt_range :
  strconv.ParseInt "9223372036854775808" = (strconv.maxInt64, Some strconv.ErrRange).
Proof. reflexivity. Qed.

Example FormatInt_neg : strconv.FormatInt (-1500) = "-1500".
Proof. reflexivity. Qed.

Example FormatInt_zero : strconv.FormatInt 0 = "0".
Proof. reflexivity. Qed.

Example Clean_dotdot : filepath.Clean "/srv/data/../../etc/passwd" = "/etc/passwd".
Proof. reflexivity. Qed.

Example Clean_rel : filepath.Clean "a/../../b//c/." = "../b/c".
Proof. reflexivity. Qed.

Example Clean_root : filepath.Clean "/.." = "/".
Proof. reflexivity. Qed.

Example Clean_join : filepath.Clean ("/srv/data/" ++ "/" ++ "sub") = "/srv/data/sub".
Proof. reflexivity. Qed.

Example Clean_table :
  map filepath.Clean
    [""; "abc/"; "//abc//"; "abc/./def"; "abc/def/../.."; "/abc/def/../../..";
     "abc/def/../../../ghi/jkl/../../../mno"; "abc/../../././../def"]
  = ["."; "abc"; "/abc"; "abc/def"; "."; "/"; "../../mno"; "../../def"].
Proof. reflexivity. Qed.

Example ParseInt_table :
  map strconv.ParseInt ["+5"; "-"; ""; " 5"; "1_000"; "-9223372036854775808"]
  = [ (5, None); (0, Some strconv.ErrSyntax); (0, Some strconv.ErrSyntax);
      (0, Some strconv.ErrSyntax); (0, Some strconv.ErrSyntax);
      (strconv.minInt64, None) ].
Proof. reflexivity. Qed.

(** The range error comes at the digit that overflows, whatever follows
    it; a byte that is no digit gives the syntax error only if the loop
    gets to it. *)
Example ParseInt_overflow_first :
  map strconv.ParseInt
    ["99999999999999999999x"; "-99999999999999999999x"; "18446744073709551616x";
     "18446744073709551615x"; "18446744073709551615"; "-9223372036854775809"]
  = [ (strconv.maxInt64, Some strconv.ErrRange);
      (strconv.minInt64, Some strconv.ErrRange);
      (strconv.maxInt64, Some strconv.ErrRange);
      (0, Some strconv.ErrSyntax);
      (strconv.maxInt64, Some strconv.ErrRange);
      (strconv.minInt64, Some strconv.ErrRange) ].
Proof. reflexivity. Qed.

Example Split_empty_pieces : strings.Split "a;;b" ";" = ["a"; ""; "b"].
Proof. reflexivity. Qed.

Example Ext_txt : filepath.Ext "a.tar.gz" = ".gz".
Proof. reflexivity. Qed.

Example Ext_none : filepath.Ext "README" = "".
Proof. reflexivity. Qed.

Example Ext_hidden : filepath.Ext ".bashrc" = ".bashrc".
Proof. reflexivity. Qed.

Lemma HasPrefix_app (s t : string) : strings.HasPrefix (s ++ t) s = true.
Proof.
  unfold strings.HasPrefix.
  induction s as [|c s IH]; simpl; [now destruct t|].
  destruct (ascii_dec c c) as [_|ne]; [exact IH | now elim ne].
Qed.

Lemma HasPrefix_inv (s p : string) :
  strings.HasPrefix s p = true -> exists t, s = p ++ t.
Proof.
  unfold strings.HasPrefix. revert s.
  induction p as [|c p IH]; intros s H.
  - now exists s.
  - destruct s as [|d s]; simpl in H; [discriminate|].
    destruct (ascii_dec c d) as [->|]; [|discriminate].
    destruct (IH _ H) as [t ->]. now exists t.
Qed.

Lemma wrap64_small (z : Z) :
  strconv.minInt64 <= z <= strconv.maxInt64 -> strconv.wrap64 z = z.
Proof.
  unfold strconv.minInt64, strconv.maxInt64, strconv.wrap64. intros H.
  rewrite Z.mod_small; lia.
Qed.

Lemma ParseInt_syntax_zero (s : string) :
  snd (strconv.ParseInt s) = Some strconv.ErrSyntax -> fst (strconv.ParseInt s) = 0.
Proof.
  unfold strconv.ParseInt.
  destruct s as [|c s]; [reflexivity|].
  destruct (strconv.ParseUint _) as [un [[]|]]; [reflexivity| |];
    destruct (negb (c =? "-")%char && (2 ^ 63 <=? un)); try discriminate;
    destruct ((c =? "-")%char && (2 ^ 63 <? un)); discriminate.
Qed.


(** * The path guard: [osPath] and [isInRoot] *)

Lemma osPath_unix (GOOS p : string) :
  GOOS <> "windows" -> osPath GOOS p = Returned ("/" ++ p).
Proof.
  intros H. unfold osPath.
  destruct (String.eqb_spec GOOS "windows"); [contradiction | reflexivity].
Qed.

Lemma osPath_nonempty (GOOS fragment p : string) :
  osPath GOOS fragment = Returned p -> p <> "".
Proof.
  unfold osPath.
  destruct (GOOS =? "windows")%string.
  - destruct (sliceTo fragment 1) as [drive|]; [|discriminate].
    destruct (sliceFrom fragment 1) as [rest|]; [|discriminate].
    intros [= <-]. now destruct drive.
  - now intros [= <-].
Qed.

Lemma isInRoot_spelled_out (root p : string) :
  isInRoot root p = true <-> exists rest, p = root ++ rest.
Proof.
  unfold isInRoot, filepath.HasPrefix. split.
  - apply HasPrefix_inv.
  - intros [rest ->]. apply HasPrefix_app.
Qed.

(** C1 (fails on the code): [osPath] leaves the [..] segments of a
    fragment in place, so a fragment that spells out the root before
    climbing out of it is accepted as it stands, although the path it
    denotes lies lexically outside the root; the file handler goes on to
    serve it.  So is a fragment with [..] that never enters the root but
    starts with its text. *)
Theorem C1_dotdot_escapes_root :
  (forall fragment, osPath "linux" fragment = Returned ("/" ++ fragment)) /\
  osPath "linux" "srv/data/../../etc/passwd"
    = Returned "/srv/data/../../etc/passwd" /\
  isInRoot "/srv/data" "/srv/data/../../etc/passwd" = true /\
  filepath.Clean "/srv/data/../../etc/passwd" = "/etc/passwd" /\
  lexicallyInside "/srv/data" "/srv/data/../../etc/passwd" = false /\
  fileHandler "linux" "/srv/data" Sample.Stat
      (Sample.get "/file/srv/data/../../etc/passwd" [])
    = ServeFile "/srv/data/../../etc/passwd" /\
  isInRoot "/srv/data" "/srv/data-other/../x" = true /\
  lexicallyInside "/srv/data" "/srv/data-other/../x" = false /\
  fileHandler "linux" "/srv/data" Sample.Stat
      (Sample.get "/file/srv/data-other/../x" [])
    = ServeFile "/srv/data-other/../x".
Proof. split; [reflexivity | repeat split; reflexivity]. Qed.

(** C2 (fails on the code): the containment test is a plain string
    prefix test, so every path that continues the text of the root is
    accepted, a sibling such as [/srv/data-other] included. *)
Theorem C2_sibling_of_root_accepted :
  (forall root suffix : string, isInRoot root (root ++ suffix) = true) /\
  osPath "linux" "srv/data-other" = Returned "/srv/data-other" /\
  isInRoot "/srv/data" "/srv/data-other" = true /\
  lexicallyInside "/srv/data" "/srv/data-other" = false /\
  fileHandler "linux" "/srv/data" Sample.Stat
      (Sample.get "/file/srv/data-other/secret" [])
    = ServeFile "/srv/data-other/secret".
Proof.
  split; [|repeat split; reflexivity].
  intros root suffix. apply isInRoot_spelled_out. now exists suffix.
Qed.

(** C3, as stated, fails: under root [/srv/data] the fragment [a/../b] is
    rendered [/a/../b], not [/srv/data/b], and the request is refused. *)
Lemma C3_fragment_is_not_joined_to_root :
  osPath "linux" "a/../b" = Returned "/a/../b" /\
  osPath "linux" "a/../b" <> Returned "/srv/data/b" /\
  isInRoot "/srv/data" "/a/../b" = false /\
  fileHandler "linux" "/srv/data" Sample.Stat (Sample.get "/file/a/../b" [])
    = Reply StatusForbidden NoBody.
Proof. repeat split; try reflexivity. discriminate. Qed.

(** C3 (amended): on a platform without drive letters, a fragment that is
    already in normal form is rendered absolute by one leading separator
    and nothing else; the fragment is read from the top of the file
    system and never joined to the configured root, so a path is accepted
    only if it spells the root out itself.  Under root [/srv/data] the
    fragment [a/../b] is refused and [srv/data/b] is accepted as
    [/srv/data/b]. *)
Theorem C3_fragment_is_read_from_the_top (GOOS fragment : string) :
  GOOS <> "windows" ->
  filepath.Clean fragment = fragment ->
  osPath GOOS fragment = Returned ("/" ++ filepath.Clean fragment) /\
  (forall root, isInRoot root ("/" ++ filepath.Clean fragment) = true ->
     exists rest, "/" ++ fragment = root ++ rest) /\
  (forall p, osPath GOOS "a/../b" = Returned p -> isInRoot "/srv/data" p = false) /\
  osPath GOOS "srv/data/b" = Returned "/srv/data/b" /\
  isInRoot "/srv/data" "/srv/data/b" = true.
Proof.
  intros unix normal. rewrite normal. repeat split.
  - now apply osPath_unix.
  - intros root. apply isInRoot_spelled_out.
  - intros p. rewrite (osPath_unix _ _ unix). now intros [= <-].
  - now apply osPath_unix.
Qed.

(** C4 (fails on the code): the root echo of [dirHandler] is guarded by
    [p == ""], and [osPath] never returns the empty string, so no request
    is ever answered with the raw root.  A fragment that spells the root
    out is listed like any other directory, and the empty fragment is
    the path [/], refused unless the root is a prefix of it. *)
Theorem C4_root_echo_is_unreachable :
  (forall GOOS rootFlag os_Stat ioutil_ReadDir fuel r status bytes,
     dirHandler GOOS rootFlag os_Stat ioutil_ReadDir fuel r
       <> Reply status (RawBody bytes)) /\
  (exists children,
     dirHandler "linux" "/srv/data" Sample.Stat Sample.ReadDir 1
         (Sample.get "/directory/srv/data" [])
       = Reply StatusOK
           (JsonElement
              (mkElement "directory" "root" "/srv/data/" "" "" "" "" children))) /\
  dirHandler "linux" "/srv/data" Sample.Stat Sample.ReadDir 1
      (Sample.get "/directory/" [])
    = Reply StatusForbidden NoBody.
Proof.
  split; [|split; [eexists; reflexivity | reflexivity]].
  intros GOOS rootFlag os_Stat ioutil_ReadDir fuel r status bytes.
  unfold dirHandler.
  destruct (sliceFrom (URLPath r) dirPathLen) as [fragment|]; [|discriminate].
  destruct (osPath GOOS fragment) as [p| |] eqn:Hp; try discriminate.
  apply osPath_nonempty in Hp. apply String.eqb_neq in Hp.
  destruct (negb (isInRoot rootFlag p)); [discriminate|].
  destruct (Method r =? "GET")%string.
  - unfold dirHandlerGet. rewrite Hp.
    destruct (wantsModSince _).
    + destruct (negb (exist os_Stat p)); [discriminate|].
      destruct (modifiedSince os_Stat p _); discriminate.
    + destruct (_ =? "true")%string.
      * destruct (exist os_Stat p); discriminate.
      * destruct (listDir ioutil_ReadDir fuel p _ _ _) as [[fileInfo [[]|]]| |];
          discriminate.
  - destruct (_ || _); discriminate.
Qed.

(** * The listing loop *)

Section Range.

Variable self : string -> result (list element * option os.error).
Variables (path : string) (filter : list string).
Variables (returnFiles returnDirs : bool).

Local Abbreviation range recursive :=
  (listDirRange self path recursive filter returnFiles returnDirs).
Local Abbreviation fromDir recursive := (madeFromDir self path recursive returnDirs).
Local Abbreviation fromFile := (madeFromFile path filter returnFiles).

(** One turn of the loop, on each of its paths. *)
Ltac turn H d recursive :=
  cbn [listDirRange] in H;
  destruct (os.IsDir d && returnDirs) eqn:Hdir;
  [ destruct (dropLast6 (strconv.FormatInt (os.ModTime d))) as [modTime|] eqn:Hmod;
    [|discriminate H];
    destruct recursive eqn:Hrec;
    [ destruct (self (filepath.Clean (path ++ "/" ++ os.Name d)))
        as [[children [err''|]]| |] eqn:Hself; try discriminate H | ]
  | destruct (negb (os.IsDir d) && returnFiles) eqn:Hfile;
    [ destruct (sliceContains filter (filepath.Ext (os.Name d))) eqn:Hext;
      [ destruct (dropLast6 (strconv.FormatInt (os.ModTime d))) as [modTime|] eqn:Hmod;
        [|discriminate H] | ] | ] ].

(** The loop only ever appends. *)
Lemma range_extends recursive ds : forall lst err out err',
  range recursive ds lst err = Returned (out, err') ->
  exists tail, out = (lst ++ tail)%list.
Proof.
  induction ds as [|d ds IH]; intros lst err out err' H.
  - injection H as <- _. exists []. now rewrite app_nil_r.
  - turn H d recursive.
    + injection H as <- _. now exists [zeroElement].
    + apply IH in H as [tail ->]. rewrite <- !app_assoc. now eexists.
    + apply IH in H as [tail ->]. rewrite <- !app_assoc. now eexists.
    + apply IH in H as [tail ->]. rewrite <- !app_assoc. now eexists.
    + now apply IH in H.
    + now apply IH in H.
Qed.

(** Whatever the loop returns, each element of the result was there
    before, or is a zero element, or is the entry of one of the children
    it went through. *)
Lemma range_sound recursive ds : forall lst err out err',
  range recursive ds lst err = Returned (out, err') ->
  forall e, In e out ->
    In e lst \/ e = zeroElement \/
    exists d, In d ds /\ (fromDir recursive d e \/ fromFile d e).
Proof.
  induction ds as [|d ds IH]; intros lst err out err' H e He.
  - injection H as <- _. now left.
  - assert (later : (exists d', In d' ds /\ (fromDir recursive d' e \/ fromFile d' e)) ->
                    exists d', In d' (d :: ds) /\ (fromDir recursive d' e \/ fromFile d' e)).
    { intros (d' & ? & ?). exists d'. split; [now right | assumption]. }
    turn H d recursive.
    + injection H as <- _. apply in_app_or in He as [?|[<-|[]]]; auto.
    + destruct (IH _ _ _ _ H e He) as [Hin|[?|?]]; auto.
      apply in_app_or in Hin as [Hin|[<-|[]]].
      * apply in_app_or in Hin as [?|[<-|[]]]; auto.
      * right; right. exists d. split; [now left|]. left.
        apply andb_prop in Hdir as [? ?].
        repeat split; try assumption. exists modTime, children.
        repeat split; try assumption.
    + destruct (IH _ _ _ _ H e He) as [Hin|[?|?]]; auto.
      apply in_app_or in Hin as [Hin|[<-|[]]].
      * apply in_app_or in Hin as [?|[<-|[]]]; auto.
      * right; right. exists d. split; [now left|]. left.
        apply andb_prop in Hdir as [? ?].
        repeat split; try assumption. exists modTime, [].
        repeat split; try assumption.
    + destruct (IH _ _ _ _ H e He) as [Hin|[?|?]]; auto.
      apply in_app_or in Hin as [?|[<-|[]]]; auto.
      right; right. exists d. split; [now left|]. right.
      apply andb_prop in Hfile as [Hf ?]. apply negb_true_iff in Hf.
      repeat split; try assumption. exists modTime. now split.
    + destruct (IH _ _ _ _ H e He) as [?|[?|?]]; auto.
    + destruct (IH _ _ _ _ H e He) as [?|[?|?]]; auto.
Qed.

(** When the loop runs to its end without error, every child that
    passes the switches and the filter has its entry in the result. *)
Lemma range_complete recursive ds : forall lst err out,
  range recursive ds lst err = Returned (out, None) ->
  forall d, In d ds ->
    (os.IsDir d = true -> returnDirs = true ->
       In zeroElement out /\ exists e, In e out /\ fromDir recursive d e) /\
    (os.IsDir d = false -> returnFiles = true ->
       sliceContains filter (filepath.Ext (os.Name d)) = true ->
       exists e, In e out /\ fromFile d e).
Proof.
  induction ds as [|d0 ds IH]; intros lst err out H d Hd; [destruct Hd|].
  destruct Hd as [->|Hd].
  - turn H d recursive.
    + apply andb_prop in Hdir as [Hd1 Hd2].
      apply range_extends in H as [tail ->]. split.
      * intros _ _. split.
        { apply in_or_app. left. apply in_or_app. left. apply in_or_app. right. now left. }
        eexists. split.
        { apply in_or_app. left. apply in_or_app. right. now left. }
        repeat split; try assumption. exists modTime, children. now repeat split.
      * intros Hf. congruence.
    + apply andb_prop in Hdir as [Hd1 Hd2].
      apply range_extends in H as [tail ->]. split.
      * intros _ _. split.
        { apply in_or_app. left. apply in_or_app. left. apply in_or_app. right. now left. }
        eexists. split.
        { apply in_or_app. left. apply in_or_app. right. now left. }
        repeat split; try assumption. exists modTime, []. now repeat split.
      * intros Hf. congruence.
    + apply andb_prop in Hfile as [Hf1 Hf2]. apply negb_true_iff in Hf1.
      apply range_extends in H as [tail ->]. split.
      * intros Hf. congruence.
      * intros _ _ _. eexists. split.
        { apply in_or_app. left. apply in_or_app. right. now left. }
        repeat split; try assumption. exists modTime. now split.
    + split; intros A B; [|intros C; congruence].
      rewrite A, B in Hdir. discriminate.
    + split; intros A B; [rewrite A, B in Hdir; discriminate|].
      rewrite A, B in Hfile. discriminate.
  - turn H d0 recursive; eauto.
Qed.

(** A child listing that fails stops the loop at once: the error comes
    back with what had been appended so far. *)
Lemma range_error recursive ds : forall lst out err',
  range recursive ds lst None = Returned (out, Some err') ->
  recursive = true /\
  exists d children, In d ds /\ os.IsDir d = true /\ returnDirs = true /\
    self (filepath.Clean (path ++ "/" ++ os.Name d)) = Returned (children, Some err').
Proof.
  induction ds as [|d ds IH]; intros lst out err' H; [discriminate H|].
  assert (later : forall lst',
    range recursive ds lst' None = Returned (out, Some err') ->
    recursive = true /\
    exists d' children, In d' (d :: ds) /\ os.IsDir d' = true /\ returnDirs = true /\
      self (filepath.Clean (path ++ "/" ++ os.Name d')) = Returned (children, Some err')).
  { intros lst' H'. destruct (IH _ _ _ H') as [? (d' & ch & ? & ?)].
    split; [assumption|]. exists d', ch. split; [now right | assumption]. }
  turn H d recursive; eauto.
  injection H as _ <-. apply andb_prop in Hdir as [? ?].
  split; [reflexivity|]. exists d, children. repeat split; try assumption. now left.
Qed.

End Range.

(** * The listing: [listDir] *)

Lemma filesAreLeaves_unfold (e : element) :
  filesAreLeaves e <->
  (Type' e = "file" -> Children e = []) /\ Forall filesAreLeaves (Children e).
Proof.
  destruct e as [type name uri cd md size wr children]. cbn [filesAreLeaves Type' Children].
  assert (each : forall l,
    (fix each (l : list element) : Prop :=
       match l with
       | [] => True
       | x :: l' => filesAreLeaves x /\ each l'
       end) l <-> Forall filesAreLeaves l).
  { induction l as [|x l IH]; split; intros H.
    - constructor.
    - exact I.
    - destruct H as [Hx Hl]. constructor; [exact Hx | now apply IH].
    - inversion H; subst. split; [assumption | now apply IH]. }
  now rewrite each.
Qed.

Lemma returnFilesOf_spec (returnType : string) :
  returnFilesOf returnType = true <->
  returnType = "files" \/ returnType = "all" \/ returnType = "".
Proof.
  unfold returnFilesOf. rewrite !orb_true_iff, !String.eqb_eq. tauto.
Qed.

Lemma returnDirsOf_spec (returnType : string) :
  returnDirsOf returnType = true <->
  returnType = "directories" \/ returnType = "all" \/ returnType = "".
Proof.
  unfold returnDirsOf. rewrite !orb_true_iff, !String.eqb_eq. tauto.
Qed.

Lemma sliceContains_In (s : list string) (c : string) :
  sliceContains s c = true <-> In c s.
Proof.
  induction s as [|e s IH]; simpl; [split; [discriminate | tauto]|].
  destruct (String.eqb_spec c e) as [->|ne]; [tauto|].
  rewrite IH. split; [tauto | intros [?|?]; [congruence | assumption]].
Qed.

Section Listing.

Variable ioutil_ReadDir : string -> os.PathError + list os.FileInfo.

Local Abbreviation listDir' := (listDir ioutil_ReadDir).

(** A call with fuel left is one run of the loop over what
    [ioutil.ReadDir] returned. *)
Lemma listDir_S fuel path recursive filter returnType :
  listDir' (S fuel) path recursive filter returnType =
  listDirRange (fun uri => listDir' fuel uri recursive filter returnType)
    path recursive filter (returnFilesOf returnType) (returnDirsOf returnType)
    (match ioutil_ReadDir path with inr entries => entries | inl _ => [] end) []
    (match ioutil_ReadDir path with inr _ => None | inl e => Some (os.EPath e) end).
Proof.
  cbn [listDir]. now destruct (ioutil_ReadDir path).
Qed.

Lemma listDir_unreadable fuel path recursive filter returnType e :
  ioutil_ReadDir path = inl e ->
  listDir' (S fuel) path recursive filter returnType
    = Returned ([], Some (os.EPath e)).
Proof.
  intros H. rewrite listDir_S, H. reflexivity.
Qed.

Lemma listDir_sound fuel path recursive filter returnType out err :
  listDir' (S fuel) path recursive filter returnType = Returned (out, err) ->
  forall e, In e out ->
    e = zeroElement \/
    exists ds d, ioutil_ReadDir path = inr ds /\ In d ds /\
      (madeFromDir (fun uri => listDir' fuel uri recursive filter returnType)
         path recursive (returnDirsOf returnType) d e \/
       madeFromFile path filter (returnFilesOf returnType) d e).
Proof.
  rewrite listDir_S. intros H e He.
  destruct (range_sound _ _ _ _ _ _ _ _ _ _ _ H e He) as [[]|[?|(d & Hd & Hmade)]];
    [now left|].
  right. destruct (ioutil_ReadDir path) as [|ds]; [destruct Hd|].
  now exists ds, d.
Qed.

Lemma listDir_complete fuel path recursive filter returnType out :
  listDir' (S fuel) path recursive filter returnType = Returned (out, None) ->
  exists ds, ioutil_ReadDir path = inr ds /\
    forall d, In d ds ->
      (os.IsDir d = true -> returnDirsOf returnType = true ->
         In zeroElement out /\
         exists e, In e out /\
           madeFromDir (fun uri => listDir' fuel uri recursive filter returnType)
             path recursive (returnDirsOf returnType) d e) /\
      (os.IsDir d = false -> returnFilesOf returnType = true ->
         sliceContains filter (filepath.Ext (os.Name d)) = true ->
         exists e, In e out /\
           madeFromFile path filter (returnFilesOf returnType) d e).
Proof.
  rewrite listDir_S. intros H.
  destruct (ioutil_ReadDir path) as [pe|ds]; [discriminate H|].
  exists ds. split; [reflexivity|].
  exact (range_complete _ _ _ _ _ _ _ _ _ _ H).
Qed.

Lemma listDir_error fuel path recursive filter returnType out err :
  listDir' (S fuel) path recursive filter returnType = Returned (out, Some err) ->
  (exists pe, ioutil_ReadDir path = inl pe /\ err = os.EPath pe /\ out = []) \/
  (recursive = true /\
   exists ds d children, ioutil_ReadDir path = inr ds /\ In d ds /\
     os.IsDir d = true /\ returnDirsOf returnType = true /\
     listDir' fuel (filepath.Clean (path ++ "/" ++ os.Name d))
       recursive filter returnType = Returned (children, Some err)).
Proof.
  rewrite listDir_S. intros H.
  destruct (ioutil_ReadDir path) as [pe|ds].
  - left. exists pe. injection H as <- <-. now repeat split.
  - right. apply range_error in H as [? (d & children & ?)].
    split; [assumption|]. now exists ds, d, children.
Qed.

(** Every error [listDir] returns is a path error: it never returns one
    of the package-level error variables. *)
Lemma listDir_error_is_path_error fuel : forall path recursive filter returnType out err,
  listDir' fuel path recursive filter returnType = Returned (out, Some err) ->
  exists pe, err = os.EPath pe.
Proof.
  induction fuel as [|fuel IH]; intros path recursive filter returnType out err H;
    [discriminate H|].
  apply listDir_error in H as [(pe & _ & -> & _)|(_ & ds & d & children & _ & _ & _ & _ & H)].
  - now exists pe.
  - exact (IH _ _ _ _ _ _ H).
Qed.

End Listing.

(** C9: every entry of kind file that a listing returns, at any depth
    and also when the listing stops on an error, has no children. *)
Theorem C9_file_entries_have_no_children ioutil_ReadDir fuel :
  forall path recursive filter returnType out err,
  listDir ioutil_ReadDir fuel path recursive filter returnType = Returned (out, err) ->
  Forall filesAreLeaves out.
Proof.
  induction fuel as [|fuel IH]; intros path recursive filter returnType out err H;
    [discriminate H|].
  apply Forall_forall. intros e He.
  destruct (listDir_sound _ _ _ _ _ _ _ _ H e He)
    as [->|(ds & d & _ & _ & [Hdir|Hfile])].
  - apply filesAreLeaves_unfold. split; [reflexivity | constructor].
  - destruct Hdir as (_ & _ & modTime & children & _ & -> & Hch).
    apply filesAreLeaves_unfold. split; [discriminate|].
    cbn [dirEntry Children]. destruct recursive.
    + exact (IH _ _ _ _ _ _ Hch).
    + subst children. constructor.
  - destruct Hfile as (_ & _ & _ & modTime & _ & ->).
    apply filesAreLeaves_unfold. split; [reflexivity | constructor].
Qed.

(** C8: in the result of a listing, every directory entry stands for a
    directory child of the listed path, carries the cleaned path of that
    child, and has as children exactly what the listing of that path
    returned, without error, under the same recursive flag, filter and
    return type; in a flat listing it has no children. *)
Theorem C8_children_of_directory_entries
    ioutil_ReadDir fuel path recursive filter returnType out err :
  listDir ioutil_ReadDir (S fuel) path recursive filter returnType
    = Returned (out, err) ->
  forall e, In e out -> Type' e = "directory" ->
  exists ds d,
    ioutil_ReadDir path = inr ds /\ In d ds /\ os.IsDir d = true /\
    Name e = os.Name d /\
    Uri e = filepath.Clean (path ++ "/" ++ os.Name d) /\
    (recursive = true ->
       listDir ioutil_ReadDir fuel (Uri e) recursive filter returnType
         = Returned (Children e, None)) /\
    (recursive = false -> Children e = []).
Proof.
  intros H e He Htype.
  destruct (listDir_sound _ _ _ _ _ _ _ _ H e He)
    as [->|(ds & d & Hread & Hd & [Hdir|Hfile])].
  - discriminate Htype.
  - destruct Hdir as (Hisdir & _ & modTime & children & _ & -> & Hch).
    exists ds, d. repeat split; try assumption.
    + intros ->. exact Hch.
    + intros ->. exact Hch.
  - destruct Hfile as (_ & _ & _ & modTime & _ & ->). discriminate Htype.
Qed.

(** C5, as stated, fails: a request without a [file-filters] header and
    with return type [files] is answered with a file entry, the one of
    the file that has no extension. *)
Lemma C5_absent_filter_lists_files_without_extension :
  dirHandler "linux" "/srv/data" Sample.Stat Sample.ReadDir 1
      (Sample.get "/directory/srv/data" [("return-type", "files")])
    = Reply StatusOK
        (JsonElement
           (mkElement "directory" "root" "/srv/data/" "" "" "" ""
              [fileEntry "/srv/data" (Sample.file "README") "1350000000123"])) /\
  filterOf (Sample.get "/directory/srv/data" [("return-type", "files")]) = [""].
Proof. split; reflexivity. Qed.

(** C5 (amended): in a listing that ends without error, a directory
    child has an entry iff the return type is [directories], [all] or
    empty, whatever the filter; a file child has an entry iff the return
    type is [files], [all] or empty and its extension is in the filter
    list.  With an empty filter list no file has an entry; with the
    list made from an absent [file-filters] header, which holds the empty
    string, the files that have an entry are those without extension. *)
Theorem C5_filtering ioutil_ReadDir fuel path recursive filter returnType out ds :
  listDir ioutil_ReadDir (S fuel) path recursive filter returnType
    = Returned (out, None) ->
  ioutil_ReadDir path = inr ds ->
  (forall d, In d ds -> os.IsDir d = true ->
     ((exists e, In e out /\ Type' e = "directory" /\ Name e = os.Name d) <->
      (returnType = "directories" \/ returnType = "all" \/ returnType = ""))) /\
  (forall d, In d ds -> os.IsDir d = false ->
     ((exists e, In e out /\ Type' e = "file" /\ Name e = os.Name d) <->
      ((returnType = "files" \/ returnType = "all" \/ returnType = "") /\
       In (filepath.Ext (os.Name d)) filter))) /\
  (filter = [] -> forall e, In e out -> Type' e <> "file") /\
  (filter = strings.Split "" ";" ->
   forall d, In d ds -> os.IsDir d = false ->
     ((exists e, In e out /\ Type' e = "file" /\ Name e = os.Name d) <->
      ((returnType = "files" \/ returnType = "all" \/ returnType = "") /\
       filepath.Ext (os.Name d) = ""))).
Proof.
  intros H Hread.
  destruct (listDir_complete _ _ _ _ _ _ _ H) as (ds' & Hread' & complete).
  assert (ds' = ds) as -> by congruence. clear Hread'.
  assert (files : forall d, In d ds -> os.IsDir d = false ->
     ((exists e, In e out /\ Type' e = "file" /\ Name e = os.Name d) <->
      ((returnType = "files" \/ returnType = "all" \/ returnType = "") /\
       In (filepath.Ext (os.Name d)) filter))).
  { intros d Hd Hisdir. rewrite <- returnFilesOf_spec, <- sliceContains_In. split.
    - intros (e & He & Htype & Hname).
      destruct (listDir_sound _ _ _ _ _ _ _ _ H e He)
        as [->|(ds0 & d0 & _ & _ & [Hdir|Hfile])].
      + discriminate Htype.
      + destruct Hdir as (_ & _ & modTime & children & _ & -> & _). discriminate Htype.
      + destruct Hfile as (_ & Hrf & Hext & modTime & _ & ->).
        cbn [fileEntry Name] in Hname. rewrite <- Hname. now split.
    - intros [Hrf Hext].
      destruct (proj2 (complete d Hd) Hisdir Hrf Hext)
        as (e & He & _ & _ & _ & modTime & _ & ->).
      eexists. split; [exact He|]. now split. }
  split; [|split; [exact files|split]].
  - intros d Hd Hisdir. rewrite <- returnDirsOf_spec. split.
    + intros (e & He & Htype & Hname).
      destruct (listDir_sound _ _ _ _ _ _ _ _ H e He)
        as [->|(ds0 & d0 & _ & _ & [Hdir|Hfile])].
      * discriminate Htype.
      * now destruct Hdir as (_ & Hrd & _).
      * destruct Hfile as (_ & _ & _ & modTime & _ & ->). discriminate Htype.
    + intros Hrd.
      destruct (proj1 (complete d Hd) Hisdir Hrd)
        as (_ & e & He & _ & _ & modTime & children & _ & -> & _).
      eexists. split; [exact He|]. now split.
  - intros -> e He Htype.
    destruct (listDir_sound _ _ _ _ _ _ _ _ H e He)
      as [->|(ds0 & d0 & _ & _ & [Hdir|Hfile])].
    + discriminate Htype.
    + destruct Hdir as (_ & _ & modTime & children & _ & -> & _). discriminate Htype.
    + now destruct Hfile as (_ & _ & Hext & _).
  - intros -> d Hd Hisdir. rewrite (files d Hd Hisdir). cbn [strings.Split In].
    split; intros [? ?]; (split; [assumption|]); intuition congruence.
Qed.

Lemma listDir_zero_element ioutil_ReadDir fuel path recursive filter returnType out ds d :
  listDir ioutil_ReadDir (S fuel) path recursive filter returnType
    = Returned (out, None) ->
  ioutil_ReadDir path = inr ds -> In d ds ->
  os.IsDir d = true -> returnDirsOf returnType = true ->
  In zeroElement out.
Proof.
  intros H Hread Hd Hisdir Hrd.
  destruct (listDir_complete _ _ _ _ _ _ _ H) as (ds' & Hread' & complete).
  assert (ds' = ds) as -> by congruence.
  now destruct (proj1 (complete d Hd) Hisdir Hrd).
Qed.

(** C7 (fails on the code): each directory entry is preceded in the
    result by a zero element, which is the entry of no child: the flat
    listing of [/srv/data] with filter [.txt] has three elements for the
    two children that pass. *)
Theorem C7_zero_element_before_directory_entry :
  listDir Sample.ReadDir 1 "/srv/data" false [".txt"] "all"
    = Returned (Sample.dataFlat, None) /\
  Sample.dataFlat
    = [ fileEntry "/srv/data" (Sample.file "a.txt") "1350000000123";
        zeroElement;
        dirEntry "/srv/data" (Sample.dir "sub") "1350000000123" [] ] /\
  Type' zeroElement = "" /\ Name zeroElement = "".
Proof. repeat split; reflexivity. Qed.

(** A failure anywhere in the descent leaves no way for the listing to
    end without error. *)
Lemma failsWithin_no_result ioutil_ReadDir recursive filter returnType path :
  failsWithin ioutil_ReadDir recursive returnType path ->
  forall fuel out,
    listDir ioutil_ReadDir fuel path recursive filter returnType
      <> Returned (out, None).
Proof.
  induction 1 as [path pe Hread|path ds d Hrec Hread Hd Hisdir Hrd _ IH];
    intros [|fuel] out H; try discriminate H.
  - rewrite (listDir_unreadable _ _ _ _ _ _ _ Hread) in H. discriminate H.
  - destruct (listDir_complete _ _ _ _ _ _ _ H) as (ds' & Hread' & complete).
    assert (ds' = ds) as -> by congruence.
    destruct (proj1 (complete d Hd) Hisdir Hrd)
      as (_ & e & _ & _ & _ & modTime & children & _ & -> & Hch).
    subst recursive. exact (IH _ _ Hch).
Qed.

Lemma dirHandler_listing GOOS rootFlag os_Stat ioutil_ReadDir fuel r fragment p :
  sliceFrom (URLPath r) dirPathLen = Some fragment ->
  osPath GOOS fragment = Returned p ->
  isInRoot rootFlag p = true ->
  asksListing r = true ->
  dirHandler GOOS rootFlag os_Stat ioutil_ReadDir fuel r =
  match listDir ioutil_ReadDir fuel p (recursiveOf r) (filterOf r) (returnTypeOf r) with
  | OutOfFuel => Starved
  | Panicked => Crash
  | Returned (fileInfo, Some os.ErrNotExist) => Reply StatusNotFound NoBody
  | Returned (fileInfo, Some _) => Reply StatusInternalServerError NoBody
  | Returned (fileInfo, None) =>
      Reply StatusOK
        (JsonElement (mkElement "directory" "root" (p ++ "/") "" "" "" "" fileInfo))
  end.
Proof.
  intros Hslice Hp Hroot Hasks. unfold dirHandler, dirHandlerGet.
  rewrite Hslice, Hp, Hroot.
  unfold asksListing in Hasks.
  apply andb_prop in Hasks as [Hasks Hex]. apply andb_prop in Hasks as [Hget Hmod].
  apply negb_true_iff in Hmod, Hex.
  apply osPath_nonempty, String.eqb_neq in Hp.
  cbn [negb]. rewrite Hget, Hp, Hmod, Hex.
  unfold recursiveOf, filterOf, returnTypeOf.
  destruct (listDir _ _ _ _ _ _) as [[fileInfo [[]|]]| |]; reflexivity.
Qed.

(** C6, as stated, fails: a directory that exists and cannot be read is
    answered with 500, not 404, whether it is the listed path itself or
    is met during the descent. *)
Lemma C6_unreadable_directory_is_500 :
  Sample.ReadDir "/srv/vault/locked"
    = inl (os.mkPathError "open" "/srv/vault/locked" os.EACCES) /\
  dirHandler "linux" "/srv" Sample.Stat Sample.ReadDir 1
      (Sample.get "/directory/srv/vault/locked" [])
    = Reply StatusInternalServerError NoBody /\
  dirHandler "linux" "/srv" Sample.Stat Sample.ReadDir 2
      (Sample.get "/directory/srv/vault" [("recursive", "true")])
    = Reply StatusInternalServerError NoBody.
Proof. repeat split; reflexivity. Qed.

(** C6 (amended): for a request that reaches the listing of [p]: when a
    directory read fails at [p] or anywhere in the descent, the reply
    never carries a tree; when the listing returns an error, the reply is
    a bare status, 404 or 500, and it is 500 for every error other than
    "does not exist"; and a failed read of [p] itself makes the listing
    return that error with no entries. *)
Theorem C6_failed_listing_is_a_bare_error_status
    GOOS rootFlag os_Stat ioutil_ReadDir fuel r fragment p :
  sliceFrom (URLPath r) dirPathLen = Some fragment ->
  osPath GOOS fragment = Returned p ->
  isInRoot rootFlag p = true ->
  asksListing r = true ->
  (failsWithin ioutil_ReadDir (recursiveOf r) (returnTypeOf r) p ->
   forall status e,
     dirHandler GOOS rootFlag os_Stat ioutil_ReadDir fuel r
       <> Reply status (JsonElement e)) /\
  (forall out err,
     listDir ioutil_ReadDir fuel p (recursiveOf r) (filterOf r) (returnTypeOf r)
       = Returned (out, Some err) ->
     exists status,
       dirHandler GOOS rootFlag os_Stat ioutil_ReadDir fuel r = Reply status NoBody /\
       (status = StatusNotFound \/ status = StatusInternalServerError) /\
       (os.IsNotExist (Some err) = false -> status = StatusInternalServerError)) /\
  (forall pe, ioutil_ReadDir p = inl pe -> (0 < fuel)%nat ->
     listDir ioutil_ReadDir fuel p (recursiveOf r) (filterOf r) (returnTypeOf r)
       = Returned ([], Some (os.EPath pe))).
Proof.
  intros Hslice Hp Hroot Hasks.
  rewrite (dirHandler_listing _ _ _ _ _ _ _ _ Hslice Hp Hroot Hasks).
  repeat split.
  - intros Hfails status e.
    pose proof (failsWithin_no_result _ _ (filterOf r) _ _ Hfails fuel) as none.
    destruct (listDir _ _ _ _ _ _) as [[out [[]|]]| |]; try discriminate.
    now elim (none out).
  - intros out err ->. destruct err; eexists; (split; [reflexivity|]);
      (split; [auto|]); try reflexivity.
    discriminate.
  - intros pe Hread Hfuel. destruct fuel as [|fuel]; [inversion Hfuel|].
    now apply listDir_unreadable.
Qed.

(** * Conditional GET *)

Lemma fileHandler_get GOOS rootFlag os_Stat r fragment p :
  sliceFrom (URLPath r) filePathLen = Some fragment ->
  osPath GOOS fragment = Returned p ->
  isInRoot rootFlag p = true ->
  Method r = "GET" ->
  fileHandler GOOS rootFlag os_Stat r = fileHandlerGet os_Stat r p.
Proof.
  intros Hslice Hp Hroot Hget. unfold fileHandler.
  now rewrite Hslice, Hp, Hroot, Hget.
Qed.

Lemma dirHandler_get GOOS rootFlag os_Stat ioutil_ReadDir fuel r fragment p :
  sliceFrom (URLPath r) dirPathLen = Some fragment ->
  osPath GOOS fragment = Returned p ->
  isInRoot rootFlag p = true ->
  Method r = "GET" ->
  dirHandler GOOS rootFlag os_Stat ioutil_ReadDir fuel r
    = dirHandlerGet rootFlag os_Stat ioutil_ReadDir fuel r p.
Proof.
  intros Hslice Hp Hroot Hget. unfold dirHandler.
  now rewrite Hslice, Hp, Hroot, Hget.
Qed.

Lemma modifiedSince_stat os_Stat path since infos :
  os_Stat path = inr infos ->
  modifiedSince os_Stat path since = true <->
  strconv.wrap64 (fst (strconv.ParseInt since) * 1000000) > os.ModTime infos.
Proof.
  intros Hstat. unfold modifiedSince, properties, Stat. rewrite Hstat.
  destruct (strconv.ParseInt since) as [s e]. cbn [fst].
  rewrite Z.gtb_ltb.
  destruct (Z.ltb_spec (os.ModTime infos) (strconv.wrap64 (s * 1000000)));
    split; intros; lia || congruence.
Qed.

Lemma modifiedSince_no_stat os_Stat path since pe :
  os_Stat path = inl pe -> modifiedSince os_Stat path since = false.
Proof.
  intros Hstat. unfold modifiedSince, properties, Stat. rewrite Hstat.
  now destruct (strconv.ParseInt since).
Qed.

Lemma exist_stat os_Stat path :
  exist os_Stat path =
  match os_Stat path with
  | inr _ => true
  | inl pe => negb (os.Err pe =? os.ENOENT)
  end.
Proof.
  unfold exist, Stat. destruct (os_Stat path) as [pe|infos]; cbn.
  - now destruct (os.Err pe =? os.ENOENT).
  - reflexivity.
Qed.

(** A header that is no number compares 0 with the modification time,
    which is below 0 for a file older than the epoch; and a product that
    does not fit an [int64] wraps around. *)
Example modifiedSince_syntax_error_old_file :
  strconv.ParseInt "yesterday" = (0, Some strconv.ErrSyntax) /\
  fileHandlerGet Sample.Stat
      (Sample.get "/file/srv/old" [("If-modified-since", "yesterday")]) "/srv/old"
    = Reply StatusOK NoBody.
Proof. split; reflexivity. Qed.

(** A header that overflows before its first byte that is no digit is
    read as the largest [int64]; the product wraps to -1000000. *)
Example modifiedSince_range_error :
  strconv.wrap64 (strconv.maxInt64 * 1000000) = -1000000 /\
  fileHandlerGet (fun _ => inr (os.mkFileInfo "f" 0 (-500000) false))
      (Sample.get "/file/srv/f" [("If-modified-since", "99999999999999999999x")])
      "/srv/f"
    = Reply StatusNotModified NoBody.
Proof. split; reflexivity. Qed.

Example modifiedSince_product_wraps :
  strconv.wrap64 (9223372036855 * 1000000) = -9223372036854551616 /\
  fileHandlerGet Sample.Stat
      (Sample.get "/file/srv/data/a.txt" [("If-modified-since", "9223372036855")])
      "/srv/data/a.txt"
    = Reply StatusNotModified NoBody.
Proof. split; reflexivity. Qed.

(** C10, as stated, fails: the directory handler answers a conditional
    GET on a path that does not exist with 404, not with 304. *)
Lemma C10_missing_directory_is_404 :
  Sample.Stat "/srv/data/missing"
    = inl (os.mkPathError "stat" "/srv/data/missing" os.ENOENT) /\
  dirHandler "linux" "/srv/data" Sample.Stat Sample.ReadDir 1
      (Sample.get "/directory/srv/data/missing" [("If-modified-since", "5")])
    = Reply StatusNotFound NoBody.
Proof. split; reflexivity. Qed.

(** C10 (amended): on the conditional arm of a GET, with [s] the value
    [ParseInt] gives for the header (0 on a syntax error) and the product
    [s * 1000000] taken as an [int64]: when stat succeeds both handlers
    answer 200 if the product is strictly greater than the modification
    time in nanoseconds and 304 otherwise; when stat fails the file
    handler answers 304, and the directory handler answers 404 if the
    target does not exist and 304 otherwise.  The [int64] product is the
    exact one whenever that fits. *)
Theorem C10_conditional_get rootFlag os_Stat ioutil_ReadDir fuel r p :
  wantsModSince (Get (Header r) "If-modified-since") = true ->
  p <> "" ->
  let s := fst (strconv.ParseInt (Get (Header r) "If-modified-since")) in
  let product := strconv.wrap64 (s * 1000000) in
  (forall infos, os_Stat p = inr infos ->
     (product > os.ModTime infos ->
        fileHandlerGet os_Stat r p = Reply StatusOK NoBody /\
        dirHandlerGet rootFlag os_Stat ioutil_ReadDir fuel r p
          = Reply StatusOK NoBody) /\
     (product <= os.ModTime infos ->
        fileHandlerGet os_Stat r p = Reply StatusNotModified NoBody /\
        dirHandlerGet rootFlag os_Stat ioutil_ReadDir fuel r p
          = Reply StatusNotModified NoBody)) /\
  (forall pe, os_Stat p = inl pe ->
     fileHandlerGet os_Stat r p = Reply StatusNotModified NoBody /\
     dirHandlerGet rootFlag os_Stat ioutil_ReadDir fuel r p
       = if os.Err pe =? os.ENOENT then Reply StatusNotFound NoBody
         else Reply StatusNotModified NoBody) /\
  (strconv.minInt64 <= s * 1000000 <= strconv.maxInt64 -> product = s * 1000000) /\
  (snd (strconv.ParseInt (Get (Header r) "If-modified-since"))
     = Some strconv.ErrSyntax -> product = 0).
Proof.
  intros Hwants Hp s product. apply String.eqb_neq in Hp.
  unfold fileHandlerGet, dirHandlerGet. rewrite Hwants, Hp.
  split; [|split; [|split]].
  - intros infos Hstat.
    pose proof (modifiedSince_stat os_Stat p
                  (Get (Header r) "If-modified-since") infos Hstat) as Hms.
    fold s product in Hms. rewrite exist_stat, Hstat. cbn [negb].
    destruct (modifiedSince os_Stat p _).
    + assert (product > os.ModTime infos) by now apply Hms.
      split; [now split | lia].
    + assert (~ product > os.ModTime infos) by (intros Hgt; now apply Hms in Hgt).
      split; [lia | now split].
  - intros pe Hstat.
    rewrite exist_stat, Hstat, (modifiedSince_no_stat _ _ _ _ Hstat).
    split; [reflexivity|]. now destruct (os.Err pe =? os.ENOENT).
  - apply wrap64_small.
  - intros Hsyn. unfold product, s.
    now rewrite (ParseInt_syntax_zero _ Hsyn).
Qed.

(** * Fuel

    The fuel only cuts the recursion short when it runs out: more fuel
    never changes a result, and a bound on how deep the directories below
    a path reach is enough fuel for that path. *)

Lemma range_has_fuel self path recursive filter returnFiles returnDirs ds :
  (forall d, In d ds -> os.IsDir d = true ->
     self (filepath.Clean (path ++ "/" ++ os.Name d)) <> OutOfFuel) ->
  forall lst err,
    listDirRange self path recursive filter returnFiles returnDirs ds lst err
      <> OutOfFuel.
Proof.
  induction ds as [|d ds IH]; intros Hself lst err; [discriminate|].
  assert (IH' := IH (fun d' Hd' => Hself d' (or_intror Hd'))).
  cbn [listDirRange].
  destruct (os.IsDir d && returnDirs) eqn:Hdir.
  - destruct (dropLast6 _); [|discriminate].
    destruct recursive; [|apply IH'].
    apply andb_prop in Hdir as [Hisdir _].
    pose proof (Hself d (or_introl eq_refl) Hisdir) as Hd.
    destruct (self _) as [[children [e|]]| |]; try discriminate; [apply IH'|].
    now elim Hd.
  - destruct (negb (os.IsDir d) && returnFiles); [|apply IH'].
    destruct (sliceContains _ _); [|apply IH'].
    destruct (dropLast6 _); [apply IH' | discriminate].
Qed.

Lemma range_more_fuel self self' path recursive filter returnFiles returnDirs ds :
  (forall uri, self uri <> OutOfFuel -> self' uri = self uri) ->
  forall lst err,
    listDirRange self path recursive filter returnFiles returnDirs ds lst err
      <> OutOfFuel ->
    listDirRange self' path recursive filter returnFiles returnDirs ds lst err
      = listDirRange self path recursive filter returnFiles returnDirs ds lst err.
Proof.
  intros Hself. induction ds as [|d ds IH]; intros lst err H; [reflexivity|].
  cbn [listDirRange] in *.
  destruct (os.IsDir d && returnDirs).
  - destruct (dropLast6 _); [|reflexivity].
    destruct recursive; [|now apply IH].
    destruct (self _) as [[children [e|]]| |] eqn:Hs.
    + rewrite Hself; rewrite Hs; [reflexivity | discriminate].
    + rewrite Hself; rewrite Hs; [now apply IH | discriminate].
    + rewrite Hself; rewrite Hs; [reflexivity | discriminate].
    + now elim H.
  - destruct (negb (os.IsDir d) && returnFiles); [|now apply IH].
    destruct (sliceContains _ _); [|now apply IH].
    destruct (dropLast6 _); [now apply IH | reflexivity].
Qed.

Lemma listDir_more_fuel ioutil_ReadDir fuel :
  forall path recursive filter returnType,
  listDir ioutil_ReadDir fuel path recursive filter returnType <> OutOfFuel ->
  listDir ioutil_ReadDir (S fuel) path recursive filter returnType
    = listDir ioutil_ReadDir fuel path recursive filter returnType.
Proof.
  induction fuel as [|fuel IH]; intros path recursive filter returnType H;
    [now elim H|].
  rewrite (listDir_S _ (S fuel)). rewrite listDir_S in H |- *.
  apply range_more_fuel; [|exact H].
  intros uri. apply IH.
Qed.

Section EnoughFuel.

Variable ioutil_ReadDir : string -> os.PathError + list os.FileInfo.
Variable depth : string -> nat.
Hypothesis descends : forall path ds d,
  ioutil_ReadDir path = inr ds -> In d ds -> os.IsDir d = true ->
  (depth (filepath.Clean (path ++ "/" ++ os.Name d)) < depth path)%nat.

Lemma listDir_enough_fuel fuel : forall path recursive filter returnType,
  (depth path < fuel)%nat ->
  listDir ioutil_ReadDir fuel path recursive filter returnType <> OutOfFuel.
Proof.
  induction fuel as [|fuel IH]; intros path recursive filter returnType Hfuel;
    [inversion Hfuel|].
  rewrite listDir_S. apply range_has_fuel. intros d Hd Hisdir.
  destruct (ioutil_ReadDir path) as [|ds] eqn:Hread; [destruct Hd|].
  apply IH. pose proof (descends _ _ _ Hread Hd Hisdir). lia.
Qed.

End EnoughFuel.

Lemma range_no_panic self path recursive filter returnFiles returnDirs ds :
  (forall d, In d ds -> dropLast6 (strconv.FormatInt (os.ModTime d)) <> None) ->
  (forall d, In d ds -> os.IsDir d = true ->
     self (filepath.Clean (path ++ "/" ++ os.Name d)) <> Panicked) ->
  forall lst err,
    listDirRange self path recursive filter returnFiles returnDirs ds lst err
      <> Panicked.
Proof.
  induction ds as [|d ds IH]; intros Hstamp Hself lst err; [discriminate|].
  assert (IH' := IH (fun d' Hd' => Hstamp d' (or_intror Hd'))
                    (fun d' Hd' => Hself d' (or_intror Hd'))).
  pose proof (Hstamp d (or_introl eq_refl)) as Hd.
  cbn [listDirRange].
  destruct (os.IsDir d && returnDirs) eqn:Hdir.
  - destruct (dropLast6 _); [|now elim Hd].
    destruct recursive; [|apply IH'].
    apply andb_prop in Hdir as [Hisdir _].
    pose proof (Hself d (or_introl eq_refl) Hisdir) as Hp.
    destruct (self _) as [[children [e|]]| |]; try discriminate; [apply IH'|].
    now elim Hp.
  - destruct (negb (os.IsDir d) && returnFiles); [|apply IH'].
    destruct (sliceContains _ _); [|apply IH'].
    destruct (dropLast6 _); [apply IH' | now elim Hd].
Qed.

Section Returns.

Variable ioutil_ReadDir : string -> os.PathError + list os.FileInfo.
Variable depth : string -> nat.
Hypothesis descends : forall path ds d,
  ioutil_ReadDir path = inr ds -> In d ds -> os.IsDir d = true ->
  (depth (filepath.Clean (path ++ "/" ++ os.Name d)) < depth path)%nat.
Hypothesis stamps : forall path ds d,
  ioutil_ReadDir path = inr ds -> In d ds ->
  dropLast6 (strconv.FormatInt (os.ModTime d)) <> None.

Lemma listDir_no_panic fuel : forall path recursive filter returnType,
  listDir ioutil_ReadDir fuel path recursive filter returnType <> Panicked.
Proof.
  induction fuel as [|fuel IH]; intros path recursive filter returnType;
    [discriminate|].
  rewrite listDir_S.
  destruct (ioutil_ReadDir path) as [|ds] eqn:Hread; [discriminate|].
  apply range_no_panic.
  - intros d Hd. exact (stamps _ _ _ Hread Hd).
  - intros d _ _. apply IH.
Qed.

(** On a file system whose directories are finitely deep and whose
    modification times print with six characters or more, a listing
    with enough fuel returns. *)
Lemma listDir_returns fuel path recursive filter returnType :
  (depth path < fuel)%nat ->
  exists out err,
    listDir ioutil_ReadDir fuel path recursive filter returnType
      = Returned (out, err).
Proof.
  intros Hfuel.
  pose proof (listDir_enough_fuel _ _ descends fuel path recursive filter
                returnType Hfuel) as Hf.
  pose proof (listDir_no_panic fuel path recursive filter returnType) as Hp.
  destruct (listDir _ _ _ _ _ _) as [[out err]| |];
    [now exists out, err | now elim Hp | now elim Hf].
Qed.

End Returns.

Lemma Sample_descends : forall path ds d,
  Sample.ReadDir path = inr ds -> In d ds -> os.IsDir d = true ->
  (Sample.depth (filepath.Clean (path ++ "/" ++ os.Name d)) < Sample.depth path)%nat.
Proof.
  intros path ds d. unfold Sample.ReadDir, Sample.dirs, Sample.lookup.
  destruct (String.eqb_spec "/srv/data" path) as [<-|_].
  { intros [= <-] [<-|[<-|[<-|[<-|[]]]]] Hisdir; try discriminate Hisdir.
    vm_compute. lia. }
  destruct (String.eqb_spec "/srv/data/sub" path) as [<-|_].
  { intros [= <-] [<-|[]] Hisdir. discriminate Hisdir. }
  destruct (String.eqb_spec "/srv/vault" path) as [<-|_].
  { intros [= <-] [<-|[<-|[]]] Hisdir; try discriminate Hisdir.
    vm_compute. lia. }
  destruct (String.eqb_spec "/srv/vault/locked" path) as [<-|_]; [intros [=]|].
  destruct (String.eqb_spec "/srv/old" path) as [<-|_]; [|intros [=]].
  intros [= <-] [].
Qed.

Lemma Sample_stamps : forall path ds d,
  Sample.ReadDir path = inr ds -> In d ds ->
  dropLast6 (strconv.FormatInt (os.ModTime d)) <> None.
Proof.
  intros path ds d. unfold Sample.ReadDir, Sample.dirs, Sample.lookup.
  destruct (String.eqb_spec "/srv/data" path) as [<-|_].
  { intros [= <-] [<-|[<-|[<-|[<-|[]]]]]; discriminate. }
  destruct (String.eqb_spec "/srv/data/sub" path) as [<-|_].
  { intros [= <-] [<-|[]]; discriminate. }
  destruct (String.eqb_spec "/srv/vault" path) as [<-|_].
  { intros [= <-] [<-|[<-|[]]]; discriminate. }
  destruct (String.eqb_spec "/srv/vault/locked" path) as [<-|_]; [intros [=]|].
  destruct (String.eqb_spec "/srv/old" path) as [<-|_]; [|intros [=]].
  intros [= <-] [].
Qed.

Example Sample_listing_returns :
  forall path recursive filter returnType,
  exists out err,
    listDir Sample.ReadDir 2 path recursive filter returnType = Returned (out, err).
Proof.
  intros path recursive filter returnType.
  apply (listDir_returns _ _ Sample_descends Sample_stamps).
  unfold Sample.depth. destruct (_ || _); lia.
Qed.

(** * The theorems at work on the sample file system *)

(** C3 at the fragment [srv/data/b] on Linux. *)
Lemma C3_fragment_is_read_from_the_top_witness :
  "linux" <> "windows" /\
  filepath.Clean "srv/data/b" = "srv/data/b" /\
  osPath "linux" "srv/data/b" = Returned "/srv/data/b".
Proof.
  assert (unix : "linux" <> "windows") by discriminate.
  split; [exact unix|]. split; [reflexivity|].
  exact (proj1 (C3_fragment_is_read_from_the_top "linux" "srv/data/b" unix eq_refl)).
Defined.

(** C5 at the flat listing of [/srv/data] with filter [.txt], for the
    file [b.jpg]. *)
Lemma C5_filtering_witness :
  listDir Sample.ReadDir 1 "/srv/data" false [".txt"] "all"
    = Returned (Sample.dataFlat, None) /\
  ((exists e, In e Sample.dataFlat /\ Type' e = "file" /\ Name e = "b.jpg") <->
   (("all" = "files" \/ "all" = "all" \/ "all" = "") /\ In ".jpg" [".txt"])).
Proof.
  split; [reflexivity|].
  apply (proj1 (proj2 (C5_filtering Sample.ReadDir 0 "/srv/data" false [".txt"] "all"
                         Sample.dataFlat _ eq_refl eq_refl))
           (Sample.file "b.jpg")).
  - simpl. auto.
  - reflexivity.
Defined.

(** C6 at the recursive listing of [/srv/vault], which meets the
    unreadable directory [locked]. *)
Lemma C6_failed_listing_is_a_bare_error_status_witness :
  asksListing (Sample.get "/directory/srv/vault" [("recursive", "true")]) = true /\
  listDir Sample.ReadDir 2 "/srv/vault" true [""] "all"
    = Returned ([zeroElement], Some Sample.lockedError) /\
  exists status,
    dirHandler "linux" "/srv" Sample.Stat Sample.ReadDir 2
        (Sample.get "/directory/srv/vault" [("recursive", "true")])
      = Reply status NoBody /\
    (status = StatusNotFound \/ status = StatusInternalServerError) /\
    (os.IsNotExist (Some Sample.lockedError) = false ->
     status = StatusInternalServerError).
Proof.
  split; [reflexivity|]. split; [reflexivity|].
  apply (proj1 (proj2 (C6_failed_listing_is_a_bare_error_status
                         "linux" "/srv" Sample.Stat Sample.ReadDir 2
                         (Sample.get "/directory/srv/vault" [("recursive", "true")])
                         "srv/vault" "/srv/vault" eq_refl eq_refl eq_refl eq_refl))
           [zeroElement]).
  reflexivity.
Defined.

(** C8 at the recursive listing of [/srv/data], for the entry of [sub]. *)
Lemma C8_children_of_directory_entries_witness :
  listDir Sample.ReadDir 2 "/srv/data" true [".txt"] "all"
    = Returned (Sample.dataDeep, None) /\
  exists ds d,
    Sample.ReadDir "/srv/data" = inr ds /\ In d ds /\ os.IsDir d = true /\
    Name Sample.subEntry = os.Name d /\
    Uri Sample.subEntry = filepath.Clean ("/srv/data" ++ "/" ++ os.Name d) /\
    (true = true ->
       listDir Sample.ReadDir 1 (Uri Sample.subEntry) true [".txt"] "all"
         = Returned (Children Sample.subEntry, None)) /\
    (true = false -> Children Sample.subEntry = []).
Proof.
  split; [reflexivity|].
  apply (C8_children_of_directory_entries Sample.ReadDir 1 "/srv/data" true [".txt"]
           "all" Sample.dataDeep None eq_refl Sample.subEntry).
  - simpl. auto.
  - reflexivity.
Defined.

(** C9 at the recursive listing of [/srv/data]. *)
Lemma C9_file_entries_have_no_children_witness :
  listDir Sample.ReadDir 2 "/srv/data" true [".txt"] "all"
    = Returned (Sample.dataDeep, None) /\
  Forall filesAreLeaves Sample.dataDeep.
Proof.
  split; [reflexivity|].
  apply (C9_file_entries_have_no_children Sample.ReadDir 2 "/srv/data" true [".txt"]
           "all" Sample.dataDeep None).
  reflexivity.
Defined.

(** C10 at a conditional GET of [/srv/data/a.txt] one millisecond after
    its modification time. *)
Lemma C10_conditional_get_witness :
  wantsModSince "1350000000124" = true /\
  Sample.Stat "/srv/data/a.txt" = inr (Sample.file "a.txt") /\
  1350000000124 * 1000000 > Sample.mtime /\
  fileHandlerGet Sample.Stat
      (Sample.get "/file/srv/data/a.txt" [("If-modified-since", "1350000000124")])
      "/srv/data/a.txt"
    = Reply StatusOK NoBody /\
  dirHandlerGet "/srv/data" Sample.Stat Sample.ReadDir 1
      (Sample.get "/file/srv/data/a.txt" [("If-modified-since", "1350000000124")])
      "/srv/data/a.txt"
    = Reply StatusOK NoBody.
Proof.
  assert (nonempty : "/srv/data/a.txt" <> "") by discriminate.
  split; [reflexivity|]. split; [reflexivity|]. split; [reflexivity|].
  apply (proj1 (proj1 (C10_conditional_get "/srv/data" Sample.Stat Sample.ReadDir 1
                         (Sample.get "/file/srv/data/a.txt"
                            [("If-modified-since", "1350000000124")])
                         "/srv/data/a.txt" eq_refl nonempty)
                  (Sample.file "a.txt") eq_refl)).
  reflexivity.
Defined.

(** * Further properties of the path guard and of the GET arms *)

(** X1: [sliceContains] answers true exactly for the members of the
    slice. *)
Theorem X1_sliceContains_is_membership (s : list string) (c : string) :
  sliceContains s c = true <-> In c s.
Proof. apply sliceContains_In. Qed.

Lemma substring_all (s : string) : substring 0 (String.length s) s = s.
Proof.
  induction s as [|c s IH]; [reflexivity|]. cbn. now rewrite IH.
Qed.

Lemma substring_none (s : string) : substring 0 0 s = "".
Proof. now destruct s. Qed.

(** X2: on Windows [osPath] panics on the empty fragment and otherwise
    puts a colon after the first byte; a request for exactly [/file/] or
    [/directory/] therefore makes the handler panic, whatever its method
    and headers. *)
Theorem X2_osPath_on_windows :
  (forall fragment,
     osPath "windows" fragment =
     match fragment with
     | EmptyString => Panicked
     | String drive rest => Returned (String drive (String ":" rest))
     end) /\
  (forall rootFlag os_Stat ioutil_ReadDir fuel method header,
     fileHandler "windows" rootFlag os_Stat (mkRequest method "/file/" header) = Crash /\
     dirHandler "windows" rootFlag os_Stat ioutil_ReadDir fuel
       (mkRequest method "/directory/" header) = Crash).
Proof.
  split; [|split; reflexivity].
  intros [|drive rest]; [reflexivity|].
  unfold osPath, sliceTo, sliceFrom. cbn [String.eqb Ascii.eqb Bool.eqb].
  replace (1 <? 0) with false by reflexivity.
  replace (Z.of_nat (String.length (String drive rest)) <? 1) with false
    by (symmetry; apply Z.ltb_ge; cbn [String.length]; lia).
  cbn [orb]. replace (Z.to_nat 1) with 1%nat by reflexivity.
  cbn [substring String.length Nat.sub].
  now rewrite substring_none, Nat.sub_0_r, substring_all.
Qed.

Lemma isInRoot_rooted (rootFlag fragment : string) :
  isInRoot rootFlag ("/" ++ fragment) = true ->
  rootFlag = "" \/ strings.HasPrefix rootFlag "/" = true.
Proof.
  intros H. apply isInRoot_spelled_out in H as [rest H].
  destruct rootFlag as [|c root]; [now left|]. right.
  injection H as <- _. unfold strings.HasPrefix. cbn.
  destruct root; now destruct (ascii_dec "/" "/").
Qed.

(** X3: away from Windows every resolved path begins with a separator,
    so a root that is not empty and does not begin with one (the default
    root [.] for instance) makes both handlers refuse every request. *)
Theorem X3_relative_root_refuses_every_request
    GOOS rootFlag os_Stat ioutil_ReadDir fuel r :
  GOOS <> "windows" ->
  rootFlag <> "" ->
  strings.HasPrefix rootFlag "/" = false ->
  fileHandler GOOS rootFlag os_Stat r =
    match sliceFrom (URLPath r) filePathLen with
    | Some _ => Reply StatusForbidden NoBody
    | None => Crash
    end /\
  dirHandler GOOS rootFlag os_Stat ioutil_ReadDir fuel r =
    match sliceFrom (URLPath r) dirPathLen with
    | Some _ => Reply StatusForbidden NoBody
    | None => Crash
    end.
Proof.
  intros unix nonempty relative.
  assert (refused : forall fragment, isInRoot rootFlag ("/" ++ fragment) = false).
  { intros fragment. destruct (isInRoot rootFlag ("/" ++ fragment)) eqn:H;
      [|reflexivity].
    apply isInRoot_rooted in H as [?|?]; congruence. }
  unfold fileHandler, dirHandler. split.
  - destruct (sliceFrom (URLPath r) filePathLen) as [fragment|]; [|reflexivity].
    now rewrite (osPath_unix _ _ unix), refused.
  - destruct (sliceFrom (URLPath r) dirPathLen) as [fragment|]; [|reflexivity].
    now rewrite (osPath_unix _ _ unix), refused.
Qed.

(** X3 at the default root [.] on Linux. *)
Lemma X3_relative_root_refuses_every_request_witness :
  "linux" <> "windows" /\ "." <> "" /\
  fileHandler "linux" "." Sample.Stat (Sample.get "/file/srv/data/a.txt" [])
    = Reply StatusForbidden NoBody.
Proof.
  assert (unix : "linux" <> "windows") by discriminate.
  assert (nonempty : "." <> "") by discriminate.
  split; [exact unix|]. split; [exact nonempty|].
  exact (proj1 (X3_relative_root_refuses_every_request "linux" "." Sample.Stat
                  Sample.ReadDir 1 (Sample.get "/file/srv/data/a.txt" [])
                  unix nonempty eq_refl)).
Defined.

(** X4: with [check-existence-only] set and no usable
    [If-modified-since], both handlers answer 404 only when stat fails
    with "no such file"; they answer 204 when stat succeeds and also when
    it fails for any other reason. *)
Theorem X4_existence_check os_Stat rootFlag ioutil_ReadDir fuel r p :
  wantsModSince (Get (Header r) "If-modified-since") = false ->
  Get (Header r) "check-existence-only" = "true" ->
  p <> "" ->
  let answer :=
    match os_Stat p with
    | inr _ => Reply StatusNoContent NoBody
    | inl pe => if os.Err pe =? os.ENOENT then Reply StatusNotFound NoBody
                else Reply StatusNoContent NoBody
    end in
  fileHandlerGet os_Stat r p = answer /\
  dirHandlerGet rootFlag os_Stat ioutil_ReadDir fuel r p = answer.
Proof.
  intros Hmod Hex Hp answer. apply String.eqb_neq in Hp.
  unfold fileHandlerGet, dirHandlerGet. rewrite Hmod, Hex, Hp.
  cbn [String.eqb Ascii.eqb Bool.eqb]. rewrite exist_stat. unfold answer.
  destruct (os_Stat p) as [pe|infos]; [|now split].
  now destruct (os.Err pe =? os.ENOENT).
Qed.

(** X4 at the missing path [/srv/nowhere] of the sample. *)
Lemma X4_existence_check_witness :
  fileHandlerGet Sample.Stat
      (Sample.get "/file/srv/nowhere" [("check-existence-only", "true")])
      "/srv/nowhere"
    = Reply StatusNotFound NoBody.
Proof.
  assert (nonempty : "/srv/nowhere" <> "") by discriminate.
  exact (proj1 (X4_existence_check Sample.Stat "/srv" Sample.ReadDir 1
                  (Sample.get "/file/srv/nowhere" [("check-existence-only", "true")])
                  "/srv/nowhere" eq_refl eq_refl nonempty)).
Defined.

(** * Further properties of the listing *)

Section Shape.

Variable self : string -> result (list element * option os.error).
Variables (path : string) (filter : list string) (returnType : string).

Local Abbreviation range' recursive :=
  (listDirRange self path recursive filter
     (returnFilesOf returnType) (returnDirsOf returnType)).

Lemma passes_dir d :
  os.IsDir d && returnDirsOf returnType = false ->
  negb (os.IsDir d) && returnFilesOf returnType = false ->
  passes filter returnType d = false.
Proof.
  unfold passes. destruct (os.IsDir d); cbn; [tauto|].
  now intros _ ->.
Qed.

Lemma passes_file d :
  os.IsDir d && returnDirsOf returnType = false ->
  sliceContains filter (filepath.Ext (os.Name d)) = false ->
  passes filter returnType d = false.
Proof.
  unfold passes. destruct (os.IsDir d); cbn; [tauto|].
  intros _ ->. apply andb_false_r.
Qed.

Lemma range_listed recursive ds : forall lst err out,
  range' recursive ds lst err = Returned (out, None) ->
  exists es, out = (lst ++ es)%list /\ listed path filter returnType ds es.
Proof.
  induction ds as [|d ds IH]; intros lst err out H.
  - injection H as <- _. exists []. split; [now rewrite app_nil_r | constructor].
  - cbn [listDirRange] in H.
    destruct (os.IsDir d && returnDirsOf returnType) eqn:Hdir.
    + apply andb_prop in Hdir as [Hisdir Hrd].
      destruct (dropLast6 _) as [modTime|] eqn:Hmod; [|discriminate H].
      destruct recursive.
      * destruct (self _) as [[children [e|]]| |]; try discriminate H.
        apply IH in H as (es & -> & Hes). eexists. split.
        { rewrite <- !app_assoc. cbn [app]. reflexivity. }
        now apply (listed_dir _ _ _ d ds modTime children).
      * apply IH in H as (es & -> & Hes). eexists. split.
        { rewrite <- !app_assoc. cbn [app]. reflexivity. }
        now apply (listed_dir _ _ _ d ds modTime []).
    + destruct (negb (os.IsDir d) && returnFilesOf returnType) eqn:Hfile.
      * destruct (sliceContains _ _) eqn:Hext.
        -- apply andb_prop in Hfile as [Hisdir Hrf]. apply negb_true_iff in Hisdir.
           destruct (dropLast6 _) as [modTime|] eqn:Hmod; [|discriminate H].
           apply IH in H as (es & -> & Hes). eexists. split.
           { rewrite <- !app_assoc. cbn [app]. reflexivity. }
           now apply (listed_file _ _ _ d ds modTime).
        -- apply IH in H as (es & -> & Hes). exists es. split; [reflexivity|].
           apply listed_skip; [now apply passes_file | assumption].
      * apply IH in H as (es & -> & Hes). exists es. split; [reflexivity|].
        apply listed_skip; [now apply passes_dir | assumption].
Qed.

End Shape.

Lemma listed_names path filter returnType ds es :
  listed path filter returnType ds es ->
  map Name (List.filter isEntry es)
    = map os.Name (List.filter (passes filter returnType) ds).
Proof.
  induction 1 as [|d ds modTime children es Hisdir Hrd _ _ IH
                  |d ds modTime es Hisdir Hrf Hext _ _ IH
                  |d ds es Hskip _ IH]; cbn [List.filter map].
  - reflexivity.
  - unfold passes at 1. rewrite Hisdir, Hrd. cbn. now rewrite IH.
  - unfold passes at 1. rewrite Hisdir, Hrf, Hext. cbn. now rewrite IH.
  - now rewrite Hskip.
Qed.

Lemma listed_length path filter returnType ds es :
  listed path filter returnType ds es ->
  length es
    = (length (List.filter (passes filter returnType) ds)
       + length (List.filter (fun d => os.IsDir d && returnDirsOf returnType) ds))%nat.
Proof.
  induction 1 as [|d ds modTime children es Hisdir Hrd _ _ IH
                  |d ds modTime es Hisdir Hrf Hext _ _ IH
                  |d ds es Hskip _ IH]; cbn [List.filter Datatypes.length].
  - reflexivity.
  - unfold passes at 1. rewrite Hisdir. rewrite Hrd in IH |- *.
    cbn [andb Datatypes.length]. lia.
  - unfold passes at 1. rewrite Hisdir, Hrf, Hext. cbn [andb Datatypes.length]. lia.
  - rewrite Hskip. unfold passes in Hskip.
    destruct (os.IsDir d); cbn [andb]; [|assumption].
    destruct (returnDirsOf returnType); [discriminate | assumption].
Qed.

(** X5: a listing that ends without error is, in the order in which
    [ioutil.ReadDir] gave the children, a zero element followed by the
    entry for each directory that passes and the entry for each file that
    passes: the names of its entries are the names of the passing
    children in read order, and it has one element for each passing
    child plus one for each passing directory. *)
Theorem X5_listing_keeps_read_order
    ioutil_ReadDir fuel path recursive filter returnType out ds :
  listDir ioutil_ReadDir (S fuel) path recursive filter returnType
    = Returned (out, None) ->
  ioutil_ReadDir path = inr ds ->
  listed path filter returnType ds out /\
  map Name (List.filter isEntry out)
    = map os.Name (List.filter (passes filter returnType) ds) /\
  length out
    = (length (List.filter (passes filter returnType) ds)
       + length (List.filter (fun d => os.IsDir d && returnDirsOf returnType) ds))%nat.
Proof.
  intros H Hread. rewrite listDir_S, Hread in H.
  apply (range_listed _ path filter returnType) in H as (es & -> & Hes). cbn [app].
  split; [assumption|].
  split; [exact (listed_names _ _ _ _ _ Hes) | exact (listed_length _ _ _ _ _ Hes)].
Qed.

(** X5 at the flat listing of [/srv/data] with filter [.txt]. *)
Lemma X5_listing_keeps_read_order_witness :
  map Name (List.filter isEntry Sample.dataFlat) = ["a.txt"; "sub"] /\
  length Sample.dataFlat = 3%nat.
Proof.
  exact (proj2 (X5_listing_keeps_read_order Sample.ReadDir 0 "/srv/data" false
                  [".txt"] "all" Sample.dataFlat _ eq_refl eq_refl)).
Defined.

Lemma range_without_switches self path recursive filter ds : forall lst err,
  listDirRange self path recursive filter false false ds lst err
    = Returned (lst, err).
Proof.
  induction ds as [|d ds IH]; intros lst err; [reflexivity|].
  cbn [listDirRange]. rewrite !andb_false_r. apply IH.
Qed.

(** X6: a return type other than [files], [directories], [all] and the
    empty string selects nothing: the listing reads the directory and
    returns no element, with the error of the read if it failed, and
    never descends or panics. *)
Theorem X6_unknown_return_type_lists_nothing
    ioutil_ReadDir fuel path recursive filter returnType :
  returnType <> "files" -> returnType <> "directories" ->
  returnType <> "all" -> returnType <> "" ->
  listDir ioutil_ReadDir (S fuel) path recursive filter returnType =
  Returned ([], match ioutil_ReadDir path with
                | inr _ => None
                | inl e => Some (os.EPath e)
                end).
Proof.
  intros Hf Hd Ha He. rewrite listDir_S.
  apply String.eqb_neq in Hf, Hd, Ha, He.
  unfold returnFilesOf, returnDirsOf. rewrite Hf, Hd, Ha, He. cbn [orb].
  apply range_without_switches.
Qed.

(** X6 at the return type [everything] on [/srv/data]. *)
Lemma X6_unknown_return_type_lists_nothing_witness :
  listDir Sample.ReadDir 1 "/srv/data" true [".txt"] "everything"
    = Returned ([], None).
Proof.
  apply (X6_unknown_return_type_lists_nothing Sample.ReadDir 0 "/srv/data" true
           [".txt"] "everything"); discriminate.
Defined.

Lemma range_without_dirs self self' path recursive recursive' filter returnFiles ds :
  forall lst err,
  listDirRange self path recursive filter returnFiles false ds lst err
    = listDirRange self' path recursive' filter returnFiles false ds lst err.
Proof.
  induction ds as [|d ds IH]; intros lst err; [reflexivity|].
  cbn [listDirRange]. rewrite !andb_false_r.
  destruct (negb (os.IsDir d) && returnFiles); [|apply IH].
  destruct (sliceContains _ _); [|apply IH].
  destruct (dropLast6 _); [apply IH | reflexivity].
Qed.

(** X7: when the return type leaves directories out (as [files] does),
    a recursive listing never descends: it is the flat listing of the
    directory itself, and one level of recursion is all it uses. *)
Theorem X7_files_only_never_descends
    ioutil_ReadDir fuel path recursive filter returnType :
  returnDirsOf returnType = false ->
  listDir ioutil_ReadDir (S fuel) path recursive filter returnType
    = listDir ioutil_ReadDir 1 path false filter returnType.
Proof.
  intros Hrd. rewrite !listDir_S, Hrd. apply range_without_dirs.
Qed.

(** X7 at the recursive listing of [/srv/data] with return type [files]. *)
Lemma X7_files_only_never_descends_witness :
  listDir Sample.ReadDir 3 "/srv/data" true [".txt"] "files"
    = Returned ([fileEntry "/srv/data" (Sample.file "a.txt") Sample.stamp], None).
Proof.
  rewrite (X7_files_only_never_descends Sample.ReadDir 2 "/srv/data" true
             [".txt"] "files" eq_refl).
  reflexivity.
Defined.

Lemma everywhere_unfold (P : element -> Prop) (e : element) :
  everywhere P e <-> P e /\ Forall (everywhere P) (Children e).
Proof.
  destruct e as [type name uri cd md size wr children].
  cbn [everywhere Children].
  assert (each : forall l,
    (fix each (l : list element) : Prop :=
       match l with
       | [] => True
       | x :: l' => everywhere P x /\ each l'
       end) l <-> Forall (everywhere P) l).
  { induction l as [|x l IH]; split; intros H.
    - constructor.
    - exact I.
    - destruct H as [Hx Hl]. constructor; [exact Hx | now apply IH].
    - inversion H; subst. split; [assumption | now apply IH]. }
  now rewrite each.
Qed.

(** X8: every element of a listing, at any depth and also when the
    listing stops on an error, is a zero element or an entry of type
    [file] or [directory] that is reported writable and carries the same
    string as creation date and as modification date. *)
Theorem X8_entries_report_one_date_and_writable ioutil_ReadDir fuel :
  forall path recursive filter returnType out err,
  listDir ioutil_ReadDir fuel path recursive filter returnType = Returned (out, err) ->
  Forall (everywhere plainFields) out.
Proof.
  induction fuel as [|fuel IH]; intros path recursive filter returnType out err H;
    [discriminate H|].
  apply Forall_forall. intros e He.
  destruct (listDir_sound _ _ _ _ _ _ _ _ H e He)
    as [->|(ds & d & _ & _ & [Hdir|Hfile])].
  - apply everywhere_unfold. split; [now left | constructor].
  - destruct Hdir as (_ & _ & modTime & children & _ & -> & Hch).
    apply everywhere_unfold. split.
    + right. cbn. auto.
    + cbn [dirEntry Children]. destruct recursive.
      * exact (IH _ _ _ _ _ _ Hch).
      * subst children. constructor.
  - destruct Hfile as (_ & _ & _ & modTime & _ & ->).
    apply everywhere_unfold. split; [|constructor].
    right. cbn. auto.
Qed.

(** X8 at the recursive listing of [/srv/data]. *)
Lemma X8_entries_report_one_date_and_writable_witness :
  Forall (everywhere plainFields) Sample.dataDeep.
Proof.
  apply (X8_entries_report_one_date_and_writable Sample.ReadDir 2 "/srv/data" true
           [".txt"] "all" Sample.dataDeep None).
  reflexivity.
Defined.

(** X9: the uris of a listing form a tree under the listed path: every
    entry's uri is the cleaned join of the listed path and its name, and
    at every depth the uri of a child entry is the cleaned join of its
    parent's uri and its own name. *)
Theorem X9_uris_follow_the_tree ioutil_ReadDir fuel :
  forall path recursive filter returnType out err,
  listDir ioutil_ReadDir fuel path recursive filter returnType = Returned (out, err) ->
  Forall (liesIn path) out /\ Forall (everywhere holdsItsChildren) out.
Proof.
  induction fuel as [|fuel IH]; intros path recursive filter returnType out err H;
    [discriminate H|].
  enough (both : forall e, In e out ->
            liesIn path e /\ everywhere holdsItsChildren e).
  { split; apply Forall_forall; intros e He; now apply both. }
  intros e He.
  destruct (listDir_sound _ _ _ _ _ _ _ _ H e He)
    as [->|(ds & d & _ & _ & [Hdir|Hfile])].
  - split; [now left|]. apply everywhere_unfold. split; constructor.
  - destruct Hdir as (_ & _ & modTime & children & _ & -> & Hch).
    split; [now right|]. apply everywhere_unfold.
    unfold holdsItsChildren. cbn [dirEntry Children Uri] in *.
    destruct recursive.
    + exact (IH _ _ _ _ _ _ Hch).
    + subst children. split; constructor.
  - destruct Hfile as (_ & _ & _ & modTime & _ & ->).
    split; [now right|]. apply everywhere_unfold. split; constructor.
Qed.

(** X9 at the recursive listing of [/srv/data]. *)
Lemma X9_uris_follow_the_tree_witness :
  Forall (liesIn "/srv/data") Sample.dataDeep /\
  Forall (everywhere holdsItsChildren) Sample.dataDeep.
Proof.
  apply (X9_uris_follow_the_tree Sample.ReadDir 2 "/srv/data" true
           [".txt"] "all" Sample.dataDeep None).
  reflexivity.
Defined.

(** X10: the listing arm of [dirHandler] never answers 404.  The errors
    of a listing are the path errors of failed directory reads, none of
    them equal to [os.ErrNotExist], so a missing directory is answered
    like any other failure. *)
Theorem X10_listing_arm_never_answers_404
    GOOS rootFlag os_Stat ioutil_ReadDir fuel r fragment p :
  sliceFrom (URLPath r) dirPathLen = Some fragment ->
  osPath GOOS fragment = Returned p ->
  isInRoot rootFlag p = true ->
  asksListing r = true ->
  forall body,
    dirHandler GOOS rootFlag os_Stat ioutil_ReadDir fuel r
      <> Reply StatusNotFound body.
Proof.
  intros Hslice Hp Hroot Hasks body.
  rewrite (dirHandler_listing _ _ _ _ _ _ _ _ Hslice Hp Hroot Hasks).
  destruct (listDir _ _ _ _ _ _) as [[out [err|]]| |] eqn:H; try discriminate.
  apply listDir_error_is_path_error in H as [pe ->]. discriminate.
Qed.

(** X10 at the listing of a directory that does not exist. *)
Lemma X10_listing_arm_never_answers_404_witness :
  Sample.ReadDir "/srv/data/missing"
    = inl (os.mkPathError "open" "/srv/data/missing" os.ENOENT) /\
  dirHandler "linux" "/srv/data" Sample.Stat Sample.ReadDir 1
      (Sample.get "/directory/srv/data/missing" [])
    <> Reply StatusNotFound NoBody.
Proof.
  split; [reflexivity|].
  exact (X10_listing_arm_never_answers_404 "linux" "/srv/data" Sample.Stat
           Sample.ReadDir 1 (Sample.get "/directory/srv/data/missing" [])
           "srv/data/missing" "/srv/data/missing" eq_refl eq_refl eq_refl eq_refl
           NoBody).
Defined.

(** * Time stamps

    [strconv.FormatInt] prints one decimal digit more for each factor of
    ten, so cutting the last six characters of a printed number of
    nanoseconds divides it by a million. *)

Section Stamps.

Import Decimal DecimalFacts DecimalPos.

Lemma to_lu_plus p (j : nat) :
  Unsigned.to_lu (10 * Npos p + N.of_nat j)
  = Nat.iter j Little.succ (D0 (Unsigned.to_lu (Npos p))).
Proof.
  induction j as [|j IH].
  - rewrite N.add_0_r. apply Unsigned.to_ldec_tenfold.
  - rewrite Nnat.Nat2N.inj_succ, N.add_succ_r, Unsigned.to_lu_succ, IH. reflexivity.
Qed.

Lemma iter_succ_digit (j : nat) d : (j < 10)%nat ->
  Nat.iter j Little.succ (D0 d) = consDigit (N.of_nat j) d.
Proof.
  intros Hj. do 10 (destruct j as [|j]; [reflexivity|]). lia.
Qed.

Lemma to_lu_digit p k : (k < 10)%N ->
  Unsigned.to_lu (10 * Npos p + k) = consDigit k (Unsigned.to_lu (Npos p)).
Proof.
  intros Hk. rewrite <- (Nnat.N2Nat.id k).
  rewrite to_lu_plus. apply iter_succ_digit. lia.
Qed.

Lemma append_assoc (a b c : string) : (a ++ b) ++ c = a ++ (b ++ c).
Proof. induction a as [|x a IH]; cbn; [reflexivity | now rewrite IH]. Qed.

Lemma string_of_uint_revapp d : forall d',
  NilEmpty.string_of_uint (revapp d d')
  = NilEmpty.string_of_uint (rev d) ++ NilEmpty.string_of_uint d'.
Proof.
  unfold rev.
  induction d as [|d IH|d IH|d IH|d IH|d IH|d IH|d IH|d IH|d IH|d IH]; intros d';
    cbn [revapp]; [reflexivity|..];
    rewrite IH, (IH (_ Nil)), append_assoc; reflexivity.
Qed.

Lemma string_of_consDigit k : (k < 10)%N ->
  NilEmpty.string_of_uint (consDigit k Nil) = String (digitChar k) "".
Proof.
  intros Hk. rewrite <- (Nnat.N2Nat.id k).
  assert (Hj : (N.to_nat k < 10)%nat) by lia. revert Hj.
  generalize (N.to_nat k) as j. intros j Hj.
  do 10 (destruct j as [|j]; [reflexivity|]). lia.
Qed.

Lemma revapp_consDigit k d d' : revapp (consDigit k d) d' = revapp d (consDigit k d').
Proof.
  unfold consDigit. generalize (N.to_nat k) as n. intros n.
  do 9 (destruct n as [|n]; [reflexivity|]). now destruct n.
Qed.

Lemma NilZero_nonnil d : d <> Nil -> NilZero.string_of_uint d = NilEmpty.string_of_uint d.
Proof. now destruct d. Qed.

(** one more decimal digit *)
Lemma FormatPos_step p k : (k < 10)%N ->
  NilZero.string_of_uint (N.to_uint (10 * Npos p + k))
  = NilZero.string_of_uint (N.to_uint (Npos p)) ++ String (digitChar k) "".
Proof.
  intros Hk.
  assert (E : N.to_uint (10 * Npos p + k) = revapp (Unsigned.to_lu (Npos p)) (consDigit k Nil)).
  { pose proof (to_lu_digit p k Hk) as H.
    destruct (10 * N.pos p + k)%N as [|q] eqn:Eq; [lia|].
    cbn [N.to_uint]. unfold Pos.to_uint, rev. cbn [Unsigned.to_lu] in H.
    rewrite H. apply revapp_consDigit. }
  rewrite E. cbn [N.to_uint].
  rewrite !NilZero_nonnil.
  - rewrite string_of_uint_revapp. unfold Pos.to_uint.
    now rewrite (string_of_consDigit k Hk).
  - apply Unsigned.to_uint_nonnil.
  - intros H. apply revapp_nil_inv in H as [_ H].
    unfold consDigit in H. revert H. generalize (N.to_nat k) as n. intros n.
    do 9 (destruct n as [|n]; [discriminate|]). now destruct n.
Qed.

Lemma FormatInt_step (n : Z) : 10 <= n ->
  strconv.FormatInt n = strconv.FormatInt (n / 10) ++ String (digitChar (Z.to_N (n mod 10))) "".
Proof.
  intros Hn. unfold strconv.FormatInt.
  pose proof (Z.div_mod n 10 ltac:(lia)) as Hdm.
  pose proof (Z.mod_pos_bound n 10 ltac:(lia)) as Hm.
  assert (Hq : 1 <= n / 10) by (apply Z.div_le_lower_bound; lia).
  destruct (n / 10) as [|p|p] eqn:Eq; try lia.
  assert (En : n = Z.of_N (10 * Npos p + Z.to_N (n mod 10))) by lia.
  rewrite En at 1.
  destruct (10 * N.pos p + Z.to_N (n mod 10))%N as [|q] eqn:Eq'; [lia|].
  cbn [Z.of_N Z.to_int NilZero.string_of_int].
  change (Pos.to_uint q) with (N.to_uint (Npos q)). rewrite <- Eq'.
  rewrite FormatPos_step by lia. reflexivity.
Qed.

Lemma FormatInt_opp (n : Z) : 0 < n -> strconv.FormatInt (- n) = String "-" (strconv.FormatInt n).
Proof.
  intros Hn. destruct n as [|p|p]; try lia. unfold strconv.FormatInt.
  cbn [Z.opp Z.to_int NilZero.string_of_int].
  rewrite NilZero_nonnil by apply Unsigned.to_uint_nonnil.
  now destruct (Pos.to_uint p) eqn:E; [elim (Unsigned.to_uint_nonnil p)|..].
Qed.

Lemma append_nil_r (a : string) : a ++ "" = a.
Proof. induction a as [|x a IH]; cbn; [reflexivity | now rewrite IH]. Qed.

Lemma length_append (a b : string) :
  String.length (a ++ b) = (String.length a + String.length b)%nat.
Proof. induction a as [|x a IH]; cbn; [reflexivity | now rewrite IH]. Qed.

Lemma substring_prefix (a b : string) : substring 0 (String.length a) (a ++ b) = a.
Proof.
  induction a as [|x a IH]; cbn; [now destruct b | now rewrite IH].
Qed.

Lemma dropLast6_append (a tail : string) :
  String.length tail = 6%nat -> dropLast6 (a ++ tail) = Some a.
Proof.
  intros Ht. unfold dropLast6, sliceTo, len. rewrite length_append, Ht.
  replace (Z.of_nat (String.length a + 6) - 6) with (Z.of_nat (String.length a)) by lia.
  replace (Z.of_nat (String.length a) <? 0) with false by (symmetry; apply Z.ltb_ge; lia).
  replace (Z.of_nat (String.length a + 6) <? Z.of_nat (String.length a)) with false
    by (symmetry; apply Z.ltb_ge; lia).
  cbn [orb]. now rewrite Nat2Z.id, substring_prefix.
Qed.

Lemma dropLast6_None (s : string) :
  dropLast6 s = None <-> (String.length s < 6)%nat.
Proof.
  unfold dropLast6, sliceTo, len.
  destruct (Z.ltb_spec (Z.of_nat (String.length s) - 6) 0);
  destruct (Z.ltb_spec (Z.of_nat (String.length s)) (Z.of_nat (String.length s) - 6));
    cbn [orb]; split; intros; try reflexivity; try discriminate; lia.
Qed.

Lemma FormatInt_digits (k : nat) : forall n, 10 ^ Z.of_nat k <= n ->
  exists tail, String.length tail = k /\
    strconv.FormatInt n = strconv.FormatInt (n / 10 ^ Z.of_nat k) ++ tail.
Proof.
  induction k as [|k IH]; intros n Hn.
  - exists "". split; [reflexivity|]. now rewrite Z.div_1_r, append_nil_r.
  - rewrite Nat2Z.inj_succ, Z.pow_succ_r in * by lia.
    assert (Hp : 0 < 10 ^ Z.of_nat k) by (apply Z.pow_pos_nonneg; lia).
    assert (H10 : 10 <= n) by lia.
    assert (Hq : 10 ^ Z.of_nat k <= n / 10) by (apply Z.div_le_lower_bound; lia).
    destruct (IH _ Hq) as (tail & Ht & E).
    exists (tail ++ String (digitChar (Z.to_N (n mod 10))) "").
    split; [rewrite length_append, Ht; cbn; lia|].
    rewrite (FormatInt_step n H10), E, append_assoc.
    now rewrite Z.div_div by lia.
Qed.

Lemma FormatInt_nonempty n : (1 <= String.length (strconv.FormatInt n))%nat.
Proof.
  unfold strconv.FormatInt. destruct n as [|p|p]; cbn; [lia| |lia].
  pose proof (Unsigned.to_uint_nonnil p). destruct (Pos.to_uint p); cbn; lia || congruence.
Qed.

Lemma FormatInt_length_ge (k : nat) n : 10 ^ Z.of_nat k <= n ->
  (k + 1 <= String.length (strconv.FormatInt n))%nat.
Proof.
  intros Hn. destruct (FormatInt_digits k n Hn) as (tail & Ht & ->).
  rewrite length_append, Ht. pose proof (FormatInt_nonempty (n / 10 ^ Z.of_nat k)). lia.
Qed.

Lemma FormatInt_one_digit n :
  0 <= n < 10 -> String.length (strconv.FormatInt n) = 1%nat.
Proof.
  intros Hn. rewrite <- (Z2Nat.id n) by lia.
  assert (Hj : (Z.to_nat n < 10)%nat) by lia. revert Hj.
  generalize (Z.to_nat n) as j. intros j Hj.
  do 10 (destruct j as [|j]; [reflexivity|]). lia.
Qed.

Lemma FormatInt_length_le (k : nat) : forall n, 0 <= n < 10 ^ Z.of_nat (S k) ->
  (String.length (strconv.FormatInt n) <= S k)%nat.
Proof.
  induction k as [|k IH]; intros n Hn.
  - change (10 ^ Z.of_nat 1) with 10 in Hn. rewrite FormatInt_one_digit; lia.
  - destruct (Z.lt_ge_cases n 10) as [Hs|Hl].
    + rewrite FormatInt_one_digit; lia.
    + rewrite (FormatInt_step n Hl), length_append. cbn [String.length].
      rewrite Nat2Z.inj_succ, Z.pow_succ_r in Hn by lia.
      assert (0 <= n / 10 < 10 ^ Z.of_nat (S k)).
      { split; [apply Z.div_pos; lia|]. apply Z.div_lt_upper_bound; lia. }
      pose proof (IH _ H). lia.
Qed.

(** the truncated stamp is the time in milliseconds *)
Lemma dropLast6_FormatInt_ms n : 1000000 <= Z.abs n ->
  dropLast6 (strconv.FormatInt n) = Some (strconv.FormatInt (Z.quot n 1000000)).
Proof.
  intros Hn. destruct (Z.lt_ge_cases n 0) as [Hneg|Hpos].
  - assert (Hm : 10 ^ Z.of_nat 6 <= - n) by (change (10 ^ Z.of_nat 6) with 1000000; lia).
    destruct (FormatInt_digits 6 (- n) Hm) as (tail & Ht & E).
    change (10 ^ Z.of_nat 6) with 1000000 in E.
    replace n with (- - n) at 1 by lia. rewrite FormatInt_opp, E by lia.
    change (String "-" (strconv.FormatInt (- n / 1000000) ++ tail))
      with (String "-" (strconv.FormatInt (- n / 1000000)) ++ tail).
    rewrite dropLast6_append by assumption. f_equal.
    replace (Z.quot n 1000000) with (- (- n / 1000000)).
    + symmetry. apply FormatInt_opp. apply Z.div_str_pos. lia.
    + rewrite <- Z.quot_div_nonneg by lia. rewrite Z.quot_opp_l by lia. lia.
  - assert (Hm : 10 ^ Z.of_nat 6 <= n) by (change (10 ^ Z.of_nat 6) with 1000000; lia).
    destruct (FormatInt_digits 6 n Hm) as (tail & Ht & E).
    change (10 ^ Z.of_nat 6) with 1000000 in E.
    rewrite E, dropLast6_append by assumption.
    now rewrite Z.quot_div_nonneg by lia.
Qed.

(** the truncation panics exactly on the small stamps *)
Lemma dropLast6_FormatInt_panics n :
  dropLast6 (strconv.FormatInt n) = None <-> -10000 < n < 100000.
Proof.
  rewrite dropLast6_None. split.
  - intros Hlen. destruct (Z.lt_ge_cases n 0) as [Hneg|Hpos].
    + split; [|lia]. destruct (Z.lt_ge_cases (-10000) n) as [?|Hle]; [assumption|].
      exfalso. replace n with (- - n) in Hlen by lia. rewrite FormatInt_opp in Hlen by lia.
      cbn [String.length] in Hlen.
      pose proof (FormatInt_length_ge 4 (- n)) as H.
      change (10 ^ Z.of_nat 4) with 10000 in H. specialize (H ltac:(lia)). lia.
    + split; [lia|]. destruct (Z.lt_ge_cases n 100000) as [?|Hle]; [assumption|].
      exfalso. pose proof (FormatInt_length_ge 5 n) as H.
      change (10 ^ Z.of_nat 5) with 100000 in H. specialize (H ltac:(lia)). lia.
  - intros [Hlo Hhi]. destruct (Z.lt_ge_cases n 0) as [Hneg|Hpos].
    + replace n with (- - n) by lia. rewrite FormatInt_opp by lia.
      cbn [String.length].
      pose proof (FormatInt_length_le 3 (- n)) as H.
      change (10 ^ Z.of_nat 4) with 10000 in H. specialize (H ltac:(lia)). lia.
    + pose proof (FormatInt_length_le 4 n) as H.
      change (10 ^ Z.of_nat 5) with 100000 in H. specialize (H ltac:(lia)). lia.
Qed.

End Stamps.

(** X11: every entry of a listing stands for a child of the listed
    directory whose modification time does not lie strictly between
    -10000 and 100000 nanoseconds; it carries the child's name and size,
    and when that time is a millisecond or more away from the epoch both
    of its dates are the time in milliseconds, rounded towards zero. *)
Theorem X11_dates_are_milliseconds
    ioutil_ReadDir fuel path recursive filter returnType out err :
  listDir ioutil_ReadDir (S fuel) path recursive filter returnType
    = Returned (out, err) ->
  forall e, In e out -> isEntry e = true ->
  exists ds d,
    ioutil_ReadDir path = inr ds /\ In d ds /\
    Name e = os.Name d /\
    Size e = strconv.FormatInt (os.Size d) /\
    ~ (-10000 < os.ModTime d < 100000) /\
    (1000000 <= Z.abs (os.ModTime d) ->
     ModifiedDate e = strconv.FormatInt (Z.quot (os.ModTime d) 1000000) /\
     CreationDate e = strconv.FormatInt (Z.quot (os.ModTime d) 1000000)).
Proof.
  intros H e He Hentry.
  destruct (listDir_sound _ _ _ _ _ _ _ _ H e He)
    as [->|(ds & d & Hread & Hd & [Hdir|Hfile])]; [discriminate Hentry|..].
  - destruct Hdir as (_ & _ & modTime & children & Hmod & -> & _).
    exists ds, d. repeat split; try assumption.
    + intros Hsmall. apply dropLast6_FormatInt_panics in Hsmall. congruence.
    + cbn. apply dropLast6_FormatInt_ms in H0. congruence.
    + cbn. apply dropLast6_FormatInt_ms in H0. congruence.
  - destruct Hfile as (_ & _ & _ & modTime & Hmod & ->).
    exists ds, d. repeat split; try assumption.
    + intros Hsmall. apply dropLast6_FormatInt_panics in Hsmall. congruence.
    + cbn. apply dropLast6_FormatInt_ms in H0. congruence.
    + cbn. apply dropLast6_FormatInt_ms in H0. congruence.
Qed.

(** X11 at the flat listing of [/srv/data], for the entry of [a.txt]. *)
Lemma X11_dates_are_milliseconds_witness :
  exists ds d,
    Sample.ReadDir "/srv/data" = inr ds /\ In d ds /\
    "a.txt" = os.Name d /\
    "12" = strconv.FormatInt (os.Size d) /\
    ~ (-10000 < os.ModTime d < 100000) /\
    (1000000 <= Z.abs (os.ModTime d) ->
     Sample.stamp = strconv.FormatInt (Z.quot (os.ModTime d) 1000000) /\
     Sample.stamp = strconv.FormatInt (Z.quot (os.ModTime d) 1000000)).
Proof.
  apply (X11_dates_are_milliseconds Sample.ReadDir 0 "/srv/data" false [".txt"] "all"
           Sample.dataFlat None eq_refl
           (fileEntry "/srv/data" (Sample.file "a.txt") Sample.stamp)).
  - now left.
  - reflexivity.
Defined.

(** X12: a listing panics when the first child of the directory passes
    the switches and the filter and has a modification time strictly
    between -10000 and 100000 nanoseconds (the epoch itself, for
    instance): the printed time is too short to cut six characters
    from. *)
Theorem X12_listing_panics_on_a_stamp_near_the_epoch
    ioutil_ReadDir fuel path recursive filter returnType d rest :
  ioutil_ReadDir path = inr (d :: rest) ->
  passes filter returnType d = true ->
  -10000 < os.ModTime d < 100000 ->
  listDir ioutil_ReadDir (S fuel) path recursive filter returnType = Panicked.
Proof.
  intros Hread Hpass Hsmall. apply dropLast6_FormatInt_panics in Hsmall.
  rewrite listDir_S, Hread. cbn [listDirRange]. rewrite Hsmall.
  unfold passes in Hpass. destruct (os.IsDir d); cbn [andb negb].
  - now rewrite Hpass.
  - apply andb_prop in Hpass as [-> ->]. reflexivity.
Qed.

(** X12 at a directory whose only child is a file modified at the epoch. *)
Lemma X12_listing_panics_on_a_stamp_near_the_epoch_witness :
  listDir (fun _ => inr [os.mkFileInfo "epoch.txt" 0 0 false])
    1 "/tmp" false [".txt"] "all" = Panicked.
Proof.
  apply (X12_listing_panics_on_a_stamp_near_the_epoch
           (fun _ => inr [os.mkFileInfo "epoch.txt" 0 0 false])
           0 "/tmp" false [".txt"] "all"
           (os.mkFileInfo "epoch.txt" 0 0 false) []).
  - reflexivity.
  - reflexivity.
  - cbn. lia.
Defined.

(** X13: a GET of the file handler with [get-file-info] set, and neither
    a usable [If-modified-since] nor [check-existence-only], answers 500
    when stat fails; when stat succeeds it panics for a modification
    time strictly between -10000 and 100000 nanoseconds, and for one a
    millisecond or more away from the epoch it answers the size and, as
    creation and as modification date, that time in milliseconds, with
    [readOnly] false. *)
Theorem X13_file_info os_Stat r p :
  wantsModSince (Get (Header r) "If-modified-since") = false ->
  Get (Header r) "check-existence-only" <> "true" ->
  Get (Header r) "get-file-info" <> "" ->
  Get (Header r) "get-file-info" <> "false" ->
  match os_Stat p with
  | inl _ => fileHandlerGet os_Stat r p = Reply StatusInternalServerError NoBody
  | inr infos =>
      (-10000 < os.ModTime infos < 100000 -> fileHandlerGet os_Stat r p = Crash) /\
      (1000000 <= Z.abs (os.ModTime infos) ->
       fileHandlerGet os_Stat r p =
       Reply StatusOK
         (JsonFileInfo (strconv.FormatInt (Z.quot (os.ModTime infos) 1000000))
            (strconv.FormatInt (Z.quot (os.ModTime infos) 1000000))
            (strconv.FormatInt (os.Size infos)) "false"))
  end.
Proof.
  intros Hmod Hex Hinfo Hinfo'.
  apply String.eqb_neq in Hex, Hinfo, Hinfo'.
  unfold fileHandlerGet, properties, Stat. rewrite Hmod, Hex, Hinfo, Hinfo'.
  cbn [negb andb].
  destruct (os_Stat p) as [pe|infos]; [reflexivity|]. split.
  - intros Hsmall. apply dropLast6_FormatInt_panics in Hsmall. now rewrite Hsmall.
  - intros Hbig. now rewrite (dropLast6_FormatInt_ms _ Hbig).
Qed.

(** X13 at [/srv/data/a.txt]. *)
Lemma X13_file_info_witness :
  fileHandlerGet Sample.Stat
      (Sample.get "/file/srv/data/a.txt" [("get-file-info", "true")])
      "/srv/data/a.txt"
    = Reply StatusOK (JsonFileInfo "1350000000123" "1350000000123" "12" "false").
Proof.
  assert (big : 1000000 <= Z.abs Sample.mtime) by (cbn; lia).
  exact (proj2 (X13_file_info Sample.Stat
                  (Sample.get "/file/srv/data/a.txt" [("get-file-info", "true")])
                  "/srv/data/a.txt" eq_refl ltac:(discriminate) ltac:(discriminate)
                  ltac:(discriminate)) big).
Defined.

(** * The arms that change the file system *)

Lemma run_bind {W A B : Type} (o : OS W) body (m : prog A) (f : A -> prog B) :
  forall st,
  run o body (bind m f) st =
  let '(st', res) := run o body m st in
  match res with
  | Returned a => run o body (f a) st'
  | Panicked => (st', Panicked)
  | OutOfFuel => (st', OutOfFuel)
  end.
Proof.
  induction m as [a|X c k IH| |]; intros st; cbn [bind run]; try reflexivity.
  destruct (answer o body c st) as [st' x]. apply IH.
Qed.

Lemma always_bind {A B : Type} okCall (okRet : A -> Prop) (okRet' : B -> Prop)
    (m : prog A) (f : A -> prog B) :
  always okCall okRet m ->
  (forall a, okRet a -> always okCall okRet' (f a)) ->
  always okCall okRet' (bind m f).
Proof.
  intros Hm Hf. induction Hm as [a Ha|X c k Hc _ IH| |]; cbn [bind].
  - now apply Hf.
  - now constructor.
  - constructor.
  - constructor.
Qed.

Lemma always_perform {X : Type} okCall (c : sys.call X) :
  okCall X c -> always okCall anyValue (perform c).
Proof.
  intros Hc. constructor; [assumption|]. intros x. now constructor.
Qed.

Lemma always_weaken {A : Type} okCall (okRet okRet' : A -> Prop) (p : prog A) :
  (forall a, okRet a -> okRet' a) ->
  always okCall okRet p -> always okCall okRet' p.
Proof.
  intros Hw Hp. induction Hp; constructor; auto.
Qed.

(** A program that only reads leaves the file system as it found it. *)
Lemma reading_keeps_the_state {W A : Type} (o : OS W) body (okRet : A -> Prop)
    (p : prog A) :
  always reads okRet p ->
  forall w status, fst (fst (run o body p (w, status))) = w.
Proof.
  induction 1 as [a _|X c k Hc _ IH| |]; intros w status; try reflexivity.
  cbn [run]. destruct c; cbn in Hc; try contradiction; cbn [answer]; apply IH.
Qed.

(** A program that never writes the status [code] does not leave it as
    the status of the reply. *)
Lemma unwritten_status {W A : Type} (o : OS W) body (okRet : A -> Prop)
    (p : prog A) (code : Z) :
  always (notHeader code) okRet p ->
  forall w status, status <> Some code ->
  snd (fst (run o body p (w, status))) <> Some code.
Proof.
  induction 1 as [a _|X c k Hc _ IH| |]; intros w status Hs; try assumption.
  cbn [run]. destruct c; cbn in Hc; cbn [answer];
    try (destruct (change o _ w) as [w' x]; now apply IH);
    try now apply IH.
  apply IH. destruct status; [assumption|]. congruence.
Qed.

Lemma fileHandler_arm GOOS rootFlag os_Stat r fragment p :
  sliceFrom (URLPath r) filePathLen = Some fragment ->
  osPath GOOS fragment = Returned p ->
  isInRoot rootFlag p = true ->
  Method r = "POST" \/ Method r = "PUT" \/ Method r = "DELETE" ->
  fileHandler GOOS rootFlag os_Stat r = Mutate (Method r) p.
Proof.
  intros Hslice Hp Hroot Hm. unfold fileHandler.
  rewrite Hslice, Hp, Hroot. cbn [negb].
  destruct Hm as [->|[->| ->]]; reflexivity.
Qed.

Lemma dirHandler_arm GOOS rootFlag os_Stat ioutil_ReadDir fuel r fragment p :
  sliceFrom (URLPath r) dirPathLen = Some fragment ->
  osPath GOOS fragment = Returned p ->
  isInRoot rootFlag p = true ->
  Method r = "POST" \/ Method r = "PUT" \/ Method r = "DELETE" ->
  dirHandler GOOS rootFlag os_Stat ioutil_ReadDir fuel r = Mutate (Method r) p.
Proof.
  intros Hslice Hp Hroot Hm. unfold dirHandler.
  rewrite Hslice, Hp, Hroot. cbn [negb].
  destruct Hm as [->|[->| ->]]; reflexivity.
Qed.

(** X14: on a system other than Windows, where the test of the root
    is the prefix test of [isInRoot], a request whose path fails that
    test is answered 403 by both handlers, whatever its method, headers
    and body, and the file system is left as it was. *)
Theorem X14_refused_request_changes_nothing {W : Type}
    GOOS rootFlag (o : OS W) body fuel w r fragment p :
  GOOS <> "windows" ->
  osPath GOOS fragment = Returned p ->
  isInRoot rootFlag p = false ->
  (sliceFrom (URLPath r) filePathLen = Some fragment ->
   fileServe GOOS rootFlag o body w r = (w, Reply StatusForbidden NoBody)) /\
  (sliceFrom (URLPath r) dirPathLen = Some fragment ->
   dirServe GOOS rootFlag o body fuel w r = (w, Reply StatusForbidden NoBody)).
Proof.
  intros _ Hp Hroot. split; intros Hslice.
  - unfold fileServe, fileHandler. now rewrite Hslice, Hp, Hroot.
  - unfold dirServe, dirHandler. now rewrite Hslice, Hp, Hroot.
Qed.

(** X14 at a POST to [/file/etc/x] under the root [/srv/data]. *)
Lemma X14_refused_request_changes_nothing_witness :
  isInRoot "/srv/data" "/etc/x" = false /\
  fileServe "linux" "/srv/data" Disk.disk (inr "new")
      Disk.one (Disk.post "/file/etc/x")
    = (Disk.one, Reply StatusForbidden NoBody).
Proof.
  split; [reflexivity|].
  exact (proj1 (X14_refused_request_changes_nothing "linux" "/srv/data" Disk.disk
                  (inr "new") 1 Disk.one
                  (Disk.post "/file/etc/x") "etc/x" "/etc/x"
                  ltac:(discriminate) eq_refl eq_refl)
               eq_refl).
Defined.

Lemma run_existIO {W : Type} (o : OS W) body path st :
  run o body (existIO path) st = (st, Returned (exist (statAt o (fst st)) path)).
Proof. now destruct st. Qed.

Lemma run_writeFile {W : Type} (o : OS W) body path content overwrite w status :
  run o body (writeFile path content overwrite) (w, status) =
  if Bool.eqb (exist (statAt o w) path) overwrite then
    let '(w', err) := change o (sys.WriteFile path content 384) w in
    ((w', status), Returned (sysError err))
  else
    ((w, status),
     Returned (Some (if overwrite then sys.ErrNotExist else sys.ErrExist))).
Proof.
  unfold writeFile.
  destruct overwrite; cbn [negb]; rewrite run_bind, run_existIO; cbn [fst];
    destruct (exist (statAt o w) path); cbn [Bool.eqb negb]; try reflexivity;
    cbn [bind perform run answer];
    now destruct (change o (sys.WriteFile path content 384) w).
Qed.

(** X15: a POST to the file handler never replaces a file.  With an
    unreadable body it answers 500; when [exist] holds of the path it
    answers 400 (the status 201 written afterwards is without effect);
    in both cases nothing is changed.  Otherwise it writes the body to
    the path once, with permission 0600, and answers 201, or 500 if the
    write failed. *)
Theorem X15_post_creates_and_never_replaces {W : Type}
    GOOS rootFlag (o : OS W) body w r fragment p :
  sliceFrom (URLPath r) filePathLen = Some fragment ->
  osPath GOOS fragment = Returned p ->
  isInRoot rootFlag p = true ->
  Method r = "POST" ->
  fileServe GOOS rootFlag o body w r =
  match body with
  | inl _ => (w, Reply StatusInternalServerError NoBody)
  | inr content =>
      if exist (statAt o w) p then (w, Reply StatusBadRequest NoBody)
      else
        let '(w', err) := change o (sys.WriteFile p content 384) w in
        (w', Reply (match err with
                    | None => StatusCreated
                    | Some _ => StatusInternalServerError
                    end) NoBody)
  end.
Proof.
  intros Hslice Hp Hroot Hm. unfold fileServe.
  rewrite (fileHandler_arm _ _ _ _ _ _ Hslice Hp Hroot (or_introl Hm)), Hm.
  unfold fileArm, filePost. cbn [String.eqb Ascii.eqb Bool.eqb].
  destruct body as [e|content]; [reflexivity|].
  cbn [bind perform run answer]. rewrite run_bind, run_writeFile.
  destruct (exist (statAt o w) p); cbn [Bool.eqb]; [reflexivity|].
  destruct (change o (sys.WriteFile p content 384) w) as [w' [e|]]; reflexivity.
Qed.

(** X15 at a POST to the existing file [/srv/data/a.txt]. *)
Lemma X15_post_creates_and_never_replaces_witness :
  fileServe "linux" "/srv/data" Disk.disk (inr "new")
      Disk.one (Disk.post "/file/srv/data/a.txt")
    = (Disk.one, Reply StatusBadRequest NoBody).
Proof.
  exact (X15_post_creates_and_never_replaces "linux" "/srv/data" Disk.disk
           (inr "new") Disk.one
           (Disk.post "/file/srv/data/a.txt") "srv/data/a.txt" "/srv/data/a.txt"
           eq_refl eq_refl eq_refl eq_refl).
Defined.

(** X16: a PUT to the file handler without [sourceURI] never creates a
    file.  With an unreadable body it answers 500; when [exist] does not
    hold of the path it answers 404 (the status 204 written afterwards is
    without effect); in both cases nothing is changed.  Otherwise it
    writes the body to the path once and answers 204, or 500 if the write
    failed. *)
Theorem X16_put_updates_and_never_creates {W : Type}
    GOOS rootFlag (o : OS W) body w r fragment p :
  sliceFrom (URLPath r) filePathLen = Some fragment ->
  osPath GOOS fragment = Returned p ->
  isInRoot rootFlag p = true ->
  Method r = "PUT" ->
  Get (Header r) "sourceURI" = "" ->
  fileServe GOOS rootFlag o body w r =
  match body with
  | inl _ => (w, Reply StatusInternalServerError NoBody)
  | inr content =>
      if exist (statAt o w) p then
        let '(w', err) := change o (sys.WriteFile p content 384) w in
        (w', Reply (match err with
                    | None => StatusNoContent
                    | Some _ => StatusInternalServerError
                    end) NoBody)
      else (w, Reply StatusNotFound NoBody)
  end.
Proof.
  intros Hslice Hp Hroot Hm Hsource. unfold fileServe.
  rewrite (fileHandler_arm _ _ _ _ _ _ Hslice Hp Hroot (or_intror (or_introl Hm))), Hm.
  unfold fileArm, filePut. rewrite Hsource. cbn [String.eqb Ascii.eqb Bool.eqb].
  destruct body as [e|content]; [reflexivity|].
  cbn [bind perform run answer]. rewrite run_bind, run_writeFile.
  destruct (exist (statAt o w) p); cbn [Bool.eqb]; [|reflexivity].
  destruct (change o (sys.WriteFile p content 384) w) as [w' [e|]]; reflexivity.
Qed.

(** X16 at a PUT to the missing file [/srv/data/b.txt]. *)
Lemma X16_put_updates_and_never_creates_witness :
  fileServe "linux" "/srv/data" Disk.disk (inr "new")
      Disk.one (Disk.put "/file/srv/data/b.txt" [])
    = (Disk.one, Reply StatusNotFound NoBody).
Proof.
  exact (X16_put_updates_and_never_creates "linux" "/srv/data" Disk.disk
           (inr "new") Disk.one
           (Disk.put "/file/srv/data/b.txt" []) "srv/data/b.txt" "/srv/data/b.txt"
           eq_refl eq_refl eq_refl eq_refl eq_refl).
Defined.

Section Quiet.

(** A property of calls that holds of every call other than
    [WriteHeader(404)] and [Chmod]. *)
Variable okCall : forall X : Type, sys.call X -> Prop.
Hypothesis okCall_holds : forall X (c : sys.call X),
  notHeader StatusNotFound X c -> notChmod X c -> okCall X c.

Ltac call_ok := apply okCall_holds; cbn; try exact I; try (cbv; discriminate).

Ltac walk :=
  repeat (unfold perform; cbn [bind];
          match goal with
          | |- always _ _ (Ret _) => apply always_Ret
          | |- always _ _ Panic => apply always_Panic
          | |- always _ _ Tired => apply always_Tired
          | |- always _ _ (Do _ _) => apply always_Do; [call_ok | intros ?]
          | |- always _ _ (match (match ?y with _ => _ end) with _ => _ end) =>
              destruct y
          | |- always _ _ (match ?x with _ => _ end) => destruct x
          end).

Lemma removeFile_quiet p : always okCall notErrNotExist (removeFile p).
Proof. unfold removeFile. walk. now destruct x. Qed.

Lemma removeDir_quiet p : always okCall notErrNotExist (removeDir p).
Proof. unfold removeDir. walk. now destruct x. Qed.

Lemma createDir_quiet p : always okCall notErrNotExist (createDir p).
Proof. unfold createDir. walk. now destruct x. Qed.

Lemma moveFile_quiet source dest : always okCall notErrNotExist (moveFile source dest).
Proof. unfold moveFile. walk. now destruct x. Qed.

Lemma moveDir_quiet source dest : always okCall notErrNotExist (moveDir source dest).
Proof. unfold moveDir. walk. now destruct x. Qed.

Lemma writeFile_quiet p content overwrite :
  always okCall anyValue (writeFile p content overwrite).
Proof. unfold writeFile, existIO. walk; exact I. Qed.

Lemma existIO_quiet p : always okCall anyValue (existIO p).
Proof. unfold existIO. walk. exact I. Qed.

Lemma copyFile_quiet source dest : always okCall notErrNotExist (copyFile source dest).
Proof. unfold copyFile. walk; discriminate. Qed.

Lemma copyDirRange_quiet self source dest entries :
  (forall s d, always okCall notErrNotExist (self s d)) ->
  forall err, notErrNotExist err ->
  always okCall notErrNotExist (copyDirRange self source dest entries err).
Proof.
  intros Hself. induction entries as [|entry entries IH]; intros err Herr.
  - now constructor.
  - cbn [copyDirRange].
    apply always_bind with (okRet := notErrNotExist).
    + destruct (os.IsDir entry); [apply Hself | apply copyFile_quiet].
    + intros [e|] He; [now constructor | now apply IH].
Qed.

Lemma copyDir_quiet fuel : forall source dest,
  always okCall notErrNotExist (copyDir fuel source dest).
Proof.
  induction fuel as [|fuel IH]; intros source dest; [apply always_Tired|].
  cbn [copyDir]. walk; try discriminate.
  - apply copyDirRange_quiet; [apply IH | unfold notErrNotExist; congruence].
  - apply copyDirRange_quiet; [apply IH | unfold notErrNotExist; congruence].
Qed.

Lemma notFoundOrFailed_quiet err next :
  notErrNotExist err ->
  always okCall anyValue next ->
  always okCall anyValue (notFoundOrFailed err next).
Proof.
  intros Herr Hnext. unfold notFoundOrFailed.
  destruct err as [[]|]; try assumption; try (now elim Herr); walk; exact I.
Qed.

Lemma header_quiet code :
  code <> StatusNotFound ->
  always okCall anyValue (perform (sys.WriteHeader code)).
Proof.
  intros Hcode. constructor; [|intros x; now constructor].
  apply okCall_holds; [exact Hcode | exact I].
Qed.

Lemma fileArm_quiet r method p :
  method = "PUT" -> Get (Header r) "sourceURI" <> "" ->
  always okCall anyValue (fileArm r method p).
Proof.
  intros -> Hsource. unfold fileArm, filePut.
  apply String.eqb_neq in Hsource. rewrite Hsource.
  cbn [String.eqb Ascii.eqb Bool.eqb].
  assert (transfer : always okCall anyValue
    (if (Get (Header r) "delete-source" =? "true")%string
     then err <- moveFile (Get (Header r) "sourceURI") p;;
          notFoundOrFailed err (perform (sys.WriteHeader StatusNoContent))
     else err <- copyFile (Get (Header r) "sourceURI") p;;
          notFoundOrFailed err (perform (sys.WriteHeader StatusNoContent)))).
  { destruct (Get (Header r) "delete-source" =? "true")%string.
    - apply always_bind with (okRet := notErrNotExist); [apply moveFile_quiet|].
      intros err Herr. apply notFoundOrFailed_quiet; [assumption|].
      apply header_quiet. discriminate.
    - apply always_bind with (okRet := notErrNotExist); [apply copyFile_quiet|].
      intros err Herr. apply notFoundOrFailed_quiet; [assumption|].
      apply header_quiet. discriminate. }
  destruct (Get (Header r) "overwrite-destination" =? "true")%string;
    [|exact transfer].
  apply always_bind with (okRet := notErrNotExist); [apply removeFile_quiet|].
  intros err Herr. now apply notFoundOrFailed_quiet.
Qed.

Lemma filePost_quiet p : always okCall anyValue (filePost p).
Proof.
  unfold filePost. cbn [bind perform]. constructor; [call_ok|].
  intros [e|content]; [apply header_quiet; discriminate|].
  apply always_bind with (okRet := anyValue); [apply writeFile_quiet|].
  intros [[]|] _; walk; exact I.
Qed.

Lemma fileDelete_quiet p : always okCall anyValue (fileDelete p).
Proof.
  unfold fileDelete.
  apply always_bind with (okRet := notErrNotExist); [apply removeFile_quiet|].
  intros err Herr. apply notFoundOrFailed_quiet; [assumption|].
  apply header_quiet. discriminate.
Qed.

Lemma dirArm_quiet fuel r method p : always okCall anyValue (dirArm fuel r method p).
Proof.
  unfold dirArm.
  destruct (method =? "POST")%string.
  { unfold dirPost.
    apply always_bind with (okRet := notErrNotExist); [apply createDir_quiet|].
    intros [e|] _; apply header_quiet; discriminate. }
  destruct (method =? "DELETE")%string.
  { unfold dirDelete.
    apply always_bind with (okRet := notErrNotExist); [apply removeDir_quiet|].
    intros err Herr. apply notFoundOrFailed_quiet; [assumption|].
    apply header_quiet. discriminate. }
  unfold dirPut.
  apply always_bind with (okRet := anyValue); [apply existIO_quiet|].
  intros [|] _; [apply header_quiet; discriminate|].
  destruct (_ =? "move")%string.
  { apply always_bind with (okRet := notErrNotExist); [apply moveDir_quiet|].
    intros err Herr. apply notFoundOrFailed_quiet; [assumption|].
    apply header_quiet. discriminate. }
  destruct (_ =? "copy")%string.
  { apply always_bind with (okRet := notErrNotExist); [apply copyDir_quiet|].
    intros err Herr. apply notFoundOrFailed_quiet; [assumption|].
    apply header_quiet. discriminate. }
  apply header_quiet. discriminate.
Qed.

End Quiet.

Lemma replyOf_status {W : Type} (ran : State W * result unit) code b :
  snd (fst ran) <> Some code -> code <> StatusOK ->
  snd (replyOf ran) <> Reply code b.
Proof.
  destruct ran as [[w status] res]. cbn [fst snd replyOf].
  intros Hs Hc. destruct res as [[]| |]; try discriminate.
  destruct status as [code'|]; intros [= E _]; congruence.
Qed.

Lemma fileHandler_other_methods GOOS rootFlag os_Stat r :
  Method r <> "GET" ->
  fileHandler GOOS rootFlag os_Stat r = Crash \/
  fileHandler GOOS rootFlag os_Stat r = Reply StatusForbidden NoBody \/
  fileHandler GOOS rootFlag os_Stat r = Reply StatusOK NoBody \/
  exists p, fileHandler GOOS rootFlag os_Stat r = Mutate (Method r) p.
Proof.
  intros Hm. apply String.eqb_neq in Hm. unfold fileHandler.
  destruct (sliceFrom _ _); [|now left].
  destruct (osPath _ _) as [p| |]; try now left.
  destruct (negb _); [now right; left|]. rewrite Hm.
  destruct (_ || _); [|now right; right; left].
  right; right; right. now exists p.
Qed.

Lemma dirHandler_other_methods GOOS rootFlag os_Stat ioutil_ReadDir fuel r :
  Method r <> "GET" ->
  dirHandler GOOS rootFlag os_Stat ioutil_ReadDir fuel r = Crash \/
  dirHandler GOOS rootFlag os_Stat ioutil_ReadDir fuel r = Reply StatusForbidden NoBody \/
  dirHandler GOOS rootFlag os_Stat ioutil_ReadDir fuel r = Reply StatusOK NoBody \/
  exists p, dirHandler GOOS rootFlag os_Stat ioutil_ReadDir fuel r = Mutate (Method r) p.
Proof.
  intros Hm. apply String.eqb_neq in Hm. unfold dirHandler.
  destruct (sliceFrom _ _); [|now left].
  destruct (osPath _ _) as [p| |]; try now left.
  destruct (negb _); [now right; left|]. rewrite Hm.
  destruct (_ || _); [|now right; right; left].
  right; right; right. now exists p.
Qed.

(** X17: apart from the PUT that updates a file, no request other than
    a GET is ever answered 404: removing, moving and copying report a
    missing file or directory with errors that are not [os.ErrNotExist],
    and these are answered 500. *)
Theorem X17_changing_arms_never_answer_404 {W : Type}
    GOOS rootFlag (o : OS W) body fuel w r :
  Method r <> "GET" ->
  (forall b, (Method r = "PUT" -> Get (Header r) "sourceURI" <> "") ->
     snd (fileServe GOOS rootFlag o body w r) <> Reply StatusNotFound b) /\
  (forall b, snd (dirServe GOOS rootFlag o body fuel w r) <> Reply StatusNotFound b).
Proof.
  intros Hm.
  assert (header : forall X (c : sys.call X),
            notHeader StatusNotFound X c -> notChmod X c ->
            notHeader StatusNotFound X c) by auto.
  split; intros b.
  - intros Hput. unfold fileServe.
    destruct (fileHandler_other_methods GOOS rootFlag (statAt o w) r Hm)
      as [->|[->|[->|[p ->]]]]; try discriminate.
    apply replyOf_status; [|discriminate].
    apply unwritten_status with (okRet := anyValue); [|discriminate].
    unfold fileArm.
    destruct (String.eqb_spec (Method r) "POST");
      [now apply filePost_quiet|].
    destruct (String.eqb_spec (Method r) "PUT") as [Eput|];
      [|now apply fileDelete_quiet].
    pose proof (fileArm_quiet _ header r "PUT" p eq_refl (Hput Eput)) as H.
    exact H.
  - unfold dirServe.
    destruct (dirHandler_other_methods GOOS rootFlag (statAt o w) (readDirAt o w)
                fuel r Hm) as [->|[->|[->|[p ->]]]]; try discriminate.
    apply replyOf_status; [|discriminate].
    apply unwritten_status with (okRet := anyValue); [|discriminate].
    now apply dirArm_quiet.
Qed.

(** X17 at the DELETE of a file that does not exist. *)
Lemma X17_changing_arms_never_answer_404_witness :
  "DELETE" <> "GET" /\
  fileServe "linux" "/srv/data" Disk.disk (inr "") Disk.one
      (Disk.delete "/file/srv/data/b.txt")
    = (Disk.one, Reply StatusInternalServerError NoBody) /\
  snd (fileServe "linux" "/srv/data" Disk.disk (inr "") Disk.one
         (Disk.delete "/file/srv/data/b.txt"))
    <> Reply StatusNotFound NoBody.
Proof.
  assert (other : Method (Disk.delete "/file/srv/data/b.txt") <> "GET")
    by discriminate.
  split; [exact other|]. split; [reflexivity|].
  apply (proj1 (X17_changing_arms_never_answer_404 "linux" "/srv/data" Disk.disk
                  (inr "") 1 Disk.one (Disk.delete "/file/srv/data/b.txt") other)).
  discriminate.
Defined.

(** X18: the path given in [sourceURI] is used as it is: it is not
    resolved by [osPath] and not tested against the root.  A PUT with
    [delete-source] renames whatever file the header names to the target
    and answers 204, or 500 if the renaming failed. *)
Theorem X18_source_is_not_confined {W : Type}
    GOOS rootFlag (o : OS W) body w r fragment p source :
  sliceFrom (URLPath r) filePathLen = Some fragment ->
  osPath GOOS fragment = Returned p ->
  isInRoot rootFlag p = true ->
  Method r = "PUT" ->
  Get (Header r) "sourceURI" = source -> source <> "" ->
  Get (Header r) "overwrite-destination" <> "true" ->
  Get (Header r) "delete-source" = "true" ->
  fileServe GOOS rootFlag o body w r =
  let '(w', err) := change o (sys.Rename source p) w in
  (w', Reply (match err with
              | None => StatusNoContent
              | Some _ => StatusInternalServerError
              end) NoBody).
Proof.
  intros Hslice Hp Hroot Hm Hsource Hnonempty Hover Hdelete. unfold fileServe.
  rewrite (fileHandler_arm _ _ _ _ _ _ Hslice Hp Hroot (or_intror (or_introl Hm))), Hm.
  apply String.eqb_neq in Hnonempty, Hover.
  unfold fileArm, filePut. rewrite Hsource, Hnonempty, Hover, Hdelete.
  cbn [String.eqb Ascii.eqb Bool.eqb moveFile bind perform run answer].
  destruct (change o (sys.Rename source p) w) as [w' [e|]]; reflexivity.
Qed.

(** X18 at a source outside the root [/srv/data]. *)
Lemma X18_source_is_not_confined_witness :
  isInRoot "/srv/data" "/etc/passwd" = false /\
  fileServe "linux" "/srv/data" Disk.disk (inr "")
      ([("/etc/passwd", "root")], [])
      (Disk.put "/file/srv/data/c.txt"
         [("sourceURI", "/etc/passwd"); ("delete-source", "true")])
    = (([("/srv/data/c.txt", "root")], []), Reply StatusNoContent NoBody).
Proof.
  split; [reflexivity|].
  exact (X18_source_is_not_confined "linux" "/srv/data" Disk.disk (inr "")
           ([("/etc/passwd", "root")], [])
           (Disk.put "/file/srv/data/c.txt"
              [("sourceURI", "/etc/passwd"); ("delete-source", "true")])
           "srv/data/c.txt" "/srv/data/c.txt" "/etc/passwd"
           eq_refl eq_refl eq_refl eq_refl eq_refl
           ltac:(discriminate) ltac:(discriminate) eq_refl).
Defined.

(** X19: in every execution [copyFile] closes each file it opened
    before it returns or panics, the destination first; and neither
    [copyFile] nor [copyDir] ever calls [os.Chmod]. *)
Theorem X19_copy_closes_its_files_and_never_calls_chmod :
  (forall source dest, settles [] (copyFile source dest)) /\
  (forall source dest, always notChmod anyValue (copyFile source dest)) /\
  (forall fuel source dest, always notChmod anyValue (copyDir fuel source dest)).
Proof.
  assert (mode : forall X (c : sys.call X),
            notHeader StatusNotFound X c -> notChmod X c -> notChmod X c) by auto.
  split; [|split].
  - intros source dest. unfold copyFile, perform. cbn [bind].
    apply settles_Open; [intros e; apply settles_Ret|]. intros sf.
    apply settles_Create.
    { intros e. apply settles_Close. intros _. apply settles_Ret. }
    intros df. apply settles_other; [exact I|]. intros [n [e|]]; cbn [snd bind].
    + apply settles_Close. intros _. apply settles_Close. intros _.
      apply settles_Ret.
    + apply settles_other; [exact I|]. intros [e|infos]; cbn [bind];
        apply settles_Close; intros _; apply settles_Close; intros _;
        [apply settles_Panic | apply settles_Ret].
  - intros source dest.
    apply always_weaken with (okRet := notErrNotExist); [now intros|].
    now apply copyFile_quiet.
  - intros fuel source dest.
    apply always_weaken with (okRet := notErrNotExist); [now intros|].
    now apply copyDir_quiet.
Qed.

(** X20: a PUT that copies a file ([sourceURI] given, [delete-source]
    not [true]) opens the source, creates the target, copies, stats the
    source again and closes both files.  If that last stat fails, the
    handler panics although the copy is complete; if it succeeds, the
    answer is 204.  The mode of the source is never given to the copy. *)
Theorem X20_copy_panics_when_the_source_cannot_be_statted {W : Type}
    GOOS rootFlag (o : OS W) body w r fragment p source sf df n w1 w2 w3 :
  sliceFrom (URLPath r) filePathLen = Some fragment ->
  osPath GOOS fragment = Returned p ->
  isInRoot rootFlag p = true ->
  Method r = "PUT" ->
  Get (Header r) "sourceURI" = source -> source <> "" ->
  Get (Header r) "overwrite-destination" <> "true" ->
  Get (Header r) "delete-source" <> "true" ->
  change o (sys.Open source) w = (w1, inr sf) ->
  change o (sys.Create p) w1 = (w2, inr df) ->
  change o (sys.Copy df sf) w2 = (w3, (n, None)) ->
  fileServe GOOS rootFlag o body w r =
  (fst (change o (sys.Close sf) (fst (change o (sys.Close df) w3))),
   match stat o w3 source with
   | inl _ => Crash
   | inr _ => Reply StatusNoContent NoBody
   end).
Proof.
  intros Hslice Hp Hroot Hm Hsource Hnonempty Hover Hdelete Hopen Hcreate Hcopy.
  unfold fileServe.
  rewrite (fileHandler_arm _ _ _ _ _ _ Hslice Hp Hroot (or_intror (or_introl Hm))), Hm.
  apply String.eqb_neq in Hnonempty, Hover, Hdelete.
  unfold fileArm, filePut. rewrite Hsource, Hnonempty, Hover, Hdelete.
  cbn [String.eqb Ascii.eqb Bool.eqb copyFile bind perform run answer].
  rewrite Hopen. cbn [bind run answer]. rewrite Hcreate. cbn [bind run answer].
  rewrite Hcopy. cbn [snd bind run answer].
  destruct (stat o w3 source) as [e|infos]; cbn [bind run answer];
    destruct (change o (sys.Close df) w3) as [w4 x4]; cbn [bind run answer fst];
    destruct (change o (sys.Close sf) w4) as [w5 x5]; reflexivity.
Qed.

(** X20 at a copy of [/srv/data/a.txt] by a process that gets no answer
    from [os.Stat]: the copy is made and the handler panics. *)
Lemma X20_copy_panics_when_the_source_cannot_be_statted_witness :
  fileServe "linux" "/srv/data" Disk.fleeting (inr "") Disk.one
      (Disk.put "/file/srv/data/c.txt" [("sourceURI", "/srv/data/a.txt")])
    = (([("/srv/data/c.txt", "hello"); ("/srv/data/a.txt", "hello")],
        ["/srv/data/a.txt"; "/srv/data/c.txt"]), Crash).
Proof.
  exact (X20_copy_panics_when_the_source_cannot_be_statted
           "linux" "/srv/data" Disk.fleeting (inr "") Disk.one
           (Disk.put "/file/srv/data/c.txt" [("sourceURI", "/srv/data/a.txt")])
           "srv/data/c.txt" "/srv/data/c.txt" "/srv/data/a.txt" 0%nat 1%nat 5
           _ _ _
           eq_refl eq_refl eq_refl eq_refl eq_refl
           ltac:(discriminate) ltac:(discriminate) ltac:(discriminate)
           eq_refl eq_refl eq_refl).
Defined.

(** X21: the two tests at the head of [copyDir].  A source that is not
    a directory gives [os.ErrInvalid] before anything is opened.  For a
    directory the destination is opened: if that succeeds, or fails with
    an error that [os.IsNotExist] does not accept, the result is
    [os.ErrExist]; nothing is created, and the file that was opened is
    left open. *)
Theorem X21_copyDir_tests_source_and_destination {W : Type}
    (o : OS W) body fuel source dest w status infos mode :
  stat o w source = inr (infos, mode) ->
  run o body (copyDir (S fuel) source dest) (w, status) =
  if os.IsDir infos then
    let '(w', opened) := change o (sys.Open dest) w in
    match opened with
    | inr _ => ((w', status), Returned (Some sys.ErrExist))
    | inl e =>
        if os.Err e =? os.ENOENT then
          run o body
            (bind (perform (sys.MkdirAll dest mode)) (fun err =>
             match err with
             | Some e => Ret (Some (sys.Sys (sys.PathErr e)))
             | None =>
                 bind (perform (sys.ReadDir source)) (fun read =>
                 match read with
                 | inr entries =>
                     copyDirRange (copyDir fuel) source dest entries None
                 | inl e => Ret (Some (sys.Sys (sys.PathErr e)))
                 end)
             end)) (w', status)
        else ((w', status), Returned (Some sys.ErrExist))
    end
  else ((w, status), Returned (Some sys.ErrInvalid)).
Proof.
  intros Hstat. cbn [copyDir bind perform run answer]. rewrite Hstat.
  destruct (os.IsDir infos); cbn [negb]; [|reflexivity].
  cbn [bind run answer].
  destruct (change o (sys.Open dest) w) as [w' [e|f]]; cbn [sys.IsNotExist negb];
    [|reflexivity].
  destruct (os.Err e =? os.ENOENT); cbn [negb]; [|reflexivity].
  cbn [bind run answer].
  destruct (change o (sys.MkdirAll dest mode) w') as [w'' [e'|]]; [reflexivity|].
  cbn [bind run answer]. now destruct (readDir o w'' source).
Qed.

(** X21 at a source that is a plain file. *)
Lemma X21_copyDir_tests_source_and_destination_witness :
  run Disk.disk (inr "") (copyDir 1 "/srv/data/a.txt" "/srv/data/d") (Disk.one, None)
    = ((Disk.one, None), Returned (Some sys.ErrInvalid)).
Proof.
  exact (X21_copyDir_tests_source_and_destination Disk.disk (inr "") 0
           "/srv/data/a.txt" "/srv/data/d" Disk.one None
           (os.mkFileInfo "/srv/data/a.txt" 5 Sample.mtime false) 384 eq_refl).
Defined.

(** X22: a PUT to the directory handler never replaces anything and
    does nothing without a known operation: when [exist] holds of the
    target, or when [operation] is neither [move] nor [copy], the answer
    is 400 and the file system is left as it was. *)
Theorem X22_directory_put_refusals {W : Type}
    GOOS rootFlag (o : OS W) body fuel w r fragment p :
  sliceFrom (URLPath r) dirPathLen = Some fragment ->
  osPath GOOS fragment = Returned p ->
  isInRoot rootFlag p = true ->
  Method r = "PUT" ->
  exist (statAt o w) p = true \/
  (Get (Header r) "operation" <> "move" /\ Get (Header r) "operation" <> "copy") ->
  dirServe GOOS rootFlag o body fuel w r = (w, Reply StatusBadRequest NoBody).
Proof.
  intros Hslice Hp Hroot Hm Hwhy. unfold dirServe.
  rewrite (dirHandler_arm _ _ _ _ _ _ _ _ Hslice Hp Hroot (or_intror (or_introl Hm))), Hm.
  unfold dirArm, dirPut. cbn [String.eqb Ascii.eqb Bool.eqb].
  rewrite run_bind, run_existIO. cbn [fst].
  destruct Hwhy as [->|[Hmove Hcopy]]; [reflexivity|].
  apply String.eqb_neq in Hmove, Hcopy. rewrite Hmove, Hcopy.
  now destruct (exist (statAt o w) p).
Qed.

(** X22 at a PUT without [operation]. *)
Lemma X22_directory_put_refusals_witness :
  dirServe "linux" "/srv/data" Disk.disk (inr "") 1 Disk.one
      (Disk.put "/directory/srv/data/d" [("sourceURI", "/srv/data/e")])
    = (Disk.one, Reply StatusBadRequest NoBody).
Proof.
  apply (X22_directory_put_refusals "linux" "/srv/data" Disk.disk (inr "") 1 Disk.one
           (Disk.put "/directory/srv/data/d" [("sourceURI", "/srv/data/e")])
           "srv/data/d" "/srv/data/d" eq_refl eq_refl eq_refl eq_refl).
  right. split; discriminate.
Defined.

(** X23: a DELETE is one call: [os.Remove] of the path for the file
    handler, [os.RemoveAll] of the path for the directory handler, with
    204 as the answer, or 500 if the call failed.  The root passes the
    test of the root, so the DELETE of the root itself removes all that
    the server holds. *)
Theorem X23_delete {W : Type} GOOS rootFlag (o : OS W) body fuel w r fragment p :
  osPath GOOS fragment = Returned p ->
  isInRoot rootFlag p = true ->
  Method r = "DELETE" ->
  (sliceFrom (URLPath r) filePathLen = Some fragment ->
   fileServe GOOS rootFlag o body w r =
   let '(w', err) := change o (sys.Remove p) w in
   (w', Reply (match err with
               | None => StatusNoContent
               | Some _ => StatusInternalServerError
               end) NoBody)) /\
  (sliceFrom (URLPath r) dirPathLen = Some fragment ->
   dirServe GOOS rootFlag o body fuel w r =
   let '(w', err) := change o (sys.RemoveAll p) w in
   (w', Reply (match err with
               | None => StatusNoContent
               | Some _ => StatusInternalServerError
               end) NoBody)) /\
  isInRoot rootFlag rootFlag = true.
Proof.
  intros Hp Hroot Hm. split; [|split].
  - intros Hslice. unfold fileServe.
    rewrite (fileHandler_arm _ _ _ _ _ _ Hslice Hp Hroot
               (or_intror (or_intror Hm))), Hm.
    unfold fileArm, fileDelete.
    cbn [String.eqb Ascii.eqb Bool.eqb removeFile bind perform run answer].
    destruct (change o (sys.Remove p) w) as [w' [e|]]; reflexivity.
  - intros Hslice. unfold dirServe.
    rewrite (dirHandler_arm _ _ _ _ _ _ _ _ Hslice Hp Hroot
               (or_intror (or_intror Hm))), Hm.
    unfold dirArm, dirDelete.
    cbn [String.eqb Ascii.eqb Bool.eqb removeDir bind perform run answer].
    destruct (change o (sys.RemoveAll p) w) as [w' [e|]]; reflexivity.
  - rewrite isInRoot_spelled_out. exists "". now rewrite append_nil_r.
Qed.

(** X23 at the DELETE of the root [/srv/data] itself. *)
Lemma X23_delete_witness :
  dirServe "linux" "/srv/data" Disk.disk (inr "") 1 Disk.one
      (Disk.delete "/directory/srv/data")
    = (Disk.one, Reply StatusNoContent NoBody).
Proof.
  exact (proj1 (proj2 (X23_delete "linux" "/srv/data" Disk.disk (inr "") 1 Disk.one
                         (Disk.delete "/directory/srv/data") "srv/data" "/srv/data"
                         eq_refl eq_refl eq_refl))
               eq_refl).
Defined.

(** X24: a POST to the directory handler is one call of [os.MkdirAll]
    with the permission 0600 (384); the answer is 201, or 400 for every
    error of the call, and never 500. *)
Theorem X24_directory_post {W : Type}
    GOOS rootFlag (o : OS W) body fuel w r fragment p :
  sliceFrom (URLPath r) dirPathLen = Some fragment ->
  osPath GOOS fragment = Returned p ->
  isInRoot rootFlag p = true ->
  Method r = "POST" ->
  dirServe GOOS rootFlag o body fuel w r =
  let '(w', err) := change o (sys.MkdirAll p 384) w in
  (w', Reply (match err with
              | None => StatusCreated
              | Some _ => StatusBadRequest
              end) NoBody).
Proof.
  intros Hslice Hp Hroot Hm. unfold dirServe.
  rewrite (dirHandler_arm _ _ _ _ _ _ _ _ Hslice Hp Hroot (or_introl Hm)), Hm.
  unfold dirArm, dirPost.
  cbn [String.eqb Ascii.eqb Bool.eqb createDir bind perform run answer].
  destruct (change o (sys.MkdirAll p 384) w) as [w' [e|]]; reflexivity.
Qed.

(** X24 on the disk of plain files, where no directory can be made. *)
Lemma X24_directory_post_witness :
  dirServe "linux" "/srv/data" Disk.disk (inr "") 1 Disk.one
      (Disk.post "/directory/srv/data/d")
    = (Disk.one, Reply StatusBadRequest NoBody).
Proof.
  exact (X24_directory_post "linux" "/srv/data" Disk.disk (inr "") 1 Disk.one
           (Disk.post "/directory/srv/data/d") "srv/data/d" "/srv/data/d"
           eq_refl eq_refl eq_refl eq_refl).
Defined.

(** X25: a PUT to the directory handler with [operation] [move], on a
    target of which [exist] does not hold, is one call of [os.Rename]
    from the path in [sourceURI], taken as it is and not tested against
    the root, to the target; the answer is 204, or 500 if the call
    failed. *)
Theorem X25_directory_move {W : Type}
    GOOS rootFlag (o : OS W) body fuel w r fragment p :
  sliceFrom (URLPath r) dirPathLen = Some fragment ->
  osPath GOOS fragment = Returned p ->
  isInRoot rootFlag p = true ->
  Method r = "PUT" ->
  exist (statAt o w) p = false ->
  Get (Header r) "operation" = "move" ->
  dirServe GOOS rootFlag o body fuel w r =
  let '(w', err) := change o (sys.Rename (Get (Header r) "sourceURI") p) w in
  (w', Reply (match err with
              | None => StatusNoContent
              | Some _ => StatusInternalServerError
              end) NoBody).
Proof.
  intros Hslice Hp Hroot Hm Hfree Hop. unfold dirServe.
  rewrite (dirHandler_arm _ _ _ _ _ _ _ _ Hslice Hp Hroot (or_intror (or_introl Hm))), Hm.
  unfold dirArm, dirPut. cbn [String.eqb Ascii.eqb Bool.eqb].
  rewrite run_bind, run_existIO. cbn [fst]. rewrite Hfree, Hop.
  cbn [String.eqb Ascii.eqb Bool.eqb moveDir bind perform run answer].
  destruct (change o (sys.Rename _ p) w) as [w' [e|]]; reflexivity.
Qed.

(** X25 at a move from [/etc/passwd], outside the root [/srv/data]. *)
Lemma X25_directory_move_witness :
  isInRoot "/srv/data" "/etc/passwd" = false /\
  dirServe "linux" "/srv/data" Disk.disk (inr "") 1
      ([("/etc/passwd", "root")], [])
      (Disk.put "/directory/srv/data/d"
         [("sourceURI", "/etc/passwd"); ("operation", "move")])
    = (([("/srv/data/d", "root")], []), Reply StatusNoContent NoBody).
Proof.
  split; [reflexivity|].
  exact (X25_directory_move "linux" "/srv/data" Disk.disk (inr "") 1
           ([("/etc/passwd", "root")], [])
           (Disk.put "/directory/srv/data/d"
              [("sourceURI", "/etc/passwd"); ("operation", "move")])
           "srv/data/d" "/srv/data/d"
           eq_refl eq_refl eq_refl eq_refl eq_refl eq_refl).
Defined.

(** X26: with [overwrite-destination] the file PUT removes the target
    first and gives up when that fails: a move or copy onto a target
    that [os.Remove] cannot remove, as one that does not exist, is
    answered 500 and the source is not touched. *)
Theorem X26_overwrite_needs_a_target {W : Type}
    GOOS rootFlag (o : OS W) body w r fragment p w' e :
  sliceFrom (URLPath r) filePathLen = Some fragment ->
  osPath GOOS fragment = Returned p ->
  isInRoot rootFlag p = true ->
  Method r = "PUT" ->
  Get (Header r) "sourceURI" <> "" ->
  Get (Header r) "overwrite-destination" = "true" ->
  change o (sys.Remove p) w = (w', Some e) ->
  fileServe GOOS rootFlag o body w r = (w', Reply StatusInternalServerError NoBody).
Proof.
  intros Hslice Hp Hroot Hm Hsource Hover Hremove. unfold fileServe.
  rewrite (fileHandler_arm _ _ _ _ _ _ Hslice Hp Hroot (or_intror (or_introl Hm))), Hm.
  apply String.eqb_neq in Hsource.
  unfold fileArm, filePut. rewrite Hsource, Hover.
  cbn [String.eqb Ascii.eqb Bool.eqb removeFile bind perform run answer].
  rewrite Hremove. reflexivity.
Qed.

(** X26 at a move onto [/srv/data/c.txt], which does not exist. *)
Lemma X26_overwrite_needs_a_target_witness :
  fileServe "linux" "/srv/data" Disk.disk (inr "") Disk.one
      (Disk.put "/file/srv/data/c.txt"
         [("sourceURI", "/srv/data/a.txt"); ("overwrite-destination", "true");
          ("delete-source", "true")])
    = (Disk.one, Reply StatusInternalServerError NoBody).
Proof.
  exact (X26_overwrite_needs_a_target "linux" "/srv/data" Disk.disk (inr "") Disk.one
           (Disk.put "/file/srv/data/c.txt"
              [("sourceURI", "/srv/data/a.txt"); ("overwrite-destination", "true");
               ("delete-source", "true")])
           "srv/data/c.txt" "/srv/data/c.txt" Disk.one
           (Disk.noent "remove" "/srv/data/c.txt")
           eq_refl eq_refl eq_refl eq_refl ltac:(discriminate) eq_refl eq_refl).
Defined.
